(** * EPA SWMM5 groundwater functions (gwater.c, build 5.1.010)

    A functional model of the dual-zone groundwater routines and the
    properties stated for them.

    Number model.  In the main model every C [double] is an exact rational
    ([Q]): sums, products and quotients are the mathematical ones,
    comparisons are the mathematical order, and rounding, infinities and NaN
    are not part of it.  Equality of computed numbers is [Qeq] ([==]);
    Leibniz equality is used where the code stores or returns a value
    unchanged.  Division by zero, which C evaluates to an infinity or a
    NaN, evaluates to 0 here ([/ 0 == 0]).  Rounding can break what holds
    of the exact numbers: the properties below are stated on the
    expressions the code evaluates and on the operands of the [MIN] and
    [MAX] that cap them, and where a stated property fails for the rounded
    numbers, the functions concerned are given once more over binary64
    numbers, in module [Binary64], and the failure is shown there on a
    concrete input.

    Memory model.  The arrays [Subcatch], [Aquifer], [Node] and [Pattern] of
    the project are lists read with the total lookup [l !!! i] (an index
    outside the list, undefined in C, reads the default element) and written
    with [alter] (no effect outside the list).  The heap pointer
    [Subcatch[j].groundwater] is an [option]; the alias [GwaterShared.GW] of
    that pointer is the index of the owning subcatchment, so that a store
    through [gwtr->GW] is a store into [Subcatch[j].groundwater]. *)

From Stdlib Require Import QArith Qround Lqa ZArith.
From Stdlib Require PrimFloat.
From stdpp Require Import base list option strings.

Local Open Scope Q_scope.

(* ------------------------------------------------------------------ *)
(** ** Numbers, comparisons, constants *)

#[global] Instance Q_inhabited : Inhabited Q := populate 0.

(** C comparison operators on doubles. *)
Definition Qleb (x y : Q) : bool := Qle_bool x y.
Definition Qgeb (x y : Q) : bool := Qle_bool y x.
Definition Qltb (x y : Q) : bool := negb (Qle_bool y x).
Definition Qgtb (x y : Q) : bool := negb (Qle_bool x y).
Definition Qeqb (x y : Q) : bool := Qeq_bool x y.
Definition Qneb (x y : Q) : bool := negb (Qeq_bool x y).

(** Modelled from the spec: the [MIN] and [MAX] macros of macros.h, which is
    not among the sources; they are the spec's [min] and [max],
    [((x) <= (y)) ? (x) : (y)] and [((x) >= (y)) ? (x) : (y)]. *)
Definition MIN (x y : Q) : Q := if Qleb x y then x else y.
Definition MAX (x y : Q) : Q := if Qgeb x y then x else y.

(** ODE solver tolerance and tolerance for moisture and depth. *)
Definition GWTOL : Q := 0.0001.
Definition XTOL : Q := 0.001.

(** [enum GWvariables]: indexes of the variables a flow expression may use. *)
Definition gwvHGW : Z := 0.
Definition gwvHSW : Z := 1.
Definition gwvHCB : Z := 2.
Definition gwvHGS : Z := 3.
Definition gwvKS : Z := 4.
Definition gwvK : Z := 5.
Definition gwvTHETA : Z := 6.
Definition gwvPHI : Z := 7.
Definition gwvFI : Z := 8.
Definition gwvFU : Z := 9.
Definition gwvA : Z := 10.
Definition gwvMAX : Z := 11.

(** The quantities whose unit conversion factor the file asks for. *)
Inductive ConversionType := RAINFALL | LENGTH | LANDAREA | GWFLOW.

(** Error codes reported by the two validation functions. *)
Inductive ErrorCode := ERR_AQUIFER_PARAMS | ERR_GROUND_ELEV.

(** Pattern kinds; only the monthly one is named in the file. *)
Inductive PatternType := MONTHLY_PATTERN | OTHER_PATTERN.

(* ------------------------------------------------------------------ *)
(** ** Record update *)

Class Setter {R T : Type} (proj : R -> T) := set : T -> R -> R.
Arguments set {R T} proj {Setter} _ _.

Ltac setter_of eta proj :=
  let R := match type of proj with ?R -> _ => R end in
  exact (fun v (r : R) => ltac:(
     let body := eval cbv beta delta [eta] in (eta r) in
     match eval pattern (proj r) in body with
     | ?f _ => let t := eval cbv beta in (f v) in exact t
     end)).

Notation "r <| f := v |>" := (set f v r)
  (at level 1, left associativity, f at level 0, format "r  <| f  :=  v |>").

(* ------------------------------------------------------------------ *)
(** ** Collaborators outside gwater.c

    Functions and constants that gwater.c uses and other files define. *)

Class Externs := {
  (** mathexpr.h: a compiled expression and its evaluator, which asks a
      callback for the value of variable number [i] *)
  MathExpr : Type;
  mathexpr_eval : MathExpr -> (Z -> Q) -> Q;
  (** consts.h: the number that stands for an absent input value *)
  MISSING : Q;
  (** project.c: unit conversion factor of a quantity *)
  UCF : ConversionType -> Q;
  (** math.h *)
  exp : Q -> Q;
  pow : Q -> Q -> Q;
  (** subcatch.c: pervious fraction of subcatchment [j] *)
  subcatch_getFracPerv : nat -> Q;
  (** datetime.c and the date of an elapsed time *)
  getDateTime : Q -> Q;
  datetime_monthOfYear : Q -> Z
}.

(* ------------------------------------------------------------------ *)
(** ** Data model (objects.h, as far as gwater.c reads or writes it) *)

(** [TAquifer].  The fields [bottomElev], [waterTableElev], [upperMoisture]
    and [ID] carry the prefix [aq_] here: [TGroundwater] and [TSubcatch]
    have fields of the same names. *)
Record TAquifer := {
  aq_ID : string;
  porosity : Q;
  wiltingPoint : Q;
  fieldCapacity : Q;
  conductivity : Q;
  conductSlope : Q;
  tensionSlope : Q;
  upperEvapFrac : Q;
  lowerEvapDepth : Q;
  lowerLossCoeff : Q;
  aq_bottomElev : Q;
  aq_waterTableElev : Q;
  aq_upperMoisture : Q;
  upperEvapPat : Z
}.

Record TGroundwater := {
  aquifer : nat;
  node : nat;
  surfElev : Q;
  a1 : Q;
  b1 : Q;
  a2 : Q;
  b2 : Q;
  a3 : Q;
  fixedDepth : Q;
  nodeElev : Q;
  bottomElev : Q;
  waterTableElev : Q;
  upperMoisture : Q;
  theta : Q;
  lowerDepth : Q;
  oldFlow : Q;
  newFlow : Q;
  evapLoss : Q;
  maxInfilVol : Q
}.

Record TNode := {
  invertElev : Q;
  newDepth : Q;
  inflow : Q;
  newVolume : Q
}.

Record TPattern := {
  type : PatternType;
  factor : list Q
}.

(** Modelled from the spec: the mass-balance sink, which "accepts five named
    volumes per call"; massbal.c is not among the sources, and a call of
    [massbal_updateGwaterTotals] is recorded with its five arguments. *)
Record GwaterTotals := {
  vInfil : Q;
  vUpperEvap : Q;
  vLowerEvap : Q;
  vLowerPerc : Q;
  vGwater : Q
}.

(** Modelled from the spec: the statistics sink, which accepts per
    subcatchment and step the infiltration, evaporation-loss, exchange and
    deep-loss rates, theta and the water-table elevation; stats.c is not
    among the sources, and a call of [stats_updateGwaterStats] is recorded
    with its arguments. *)
Record GwaterStats := {
  st_subcatch : nat;
  st_infil : Q;
  st_evap : Q;
  st_latFlow : Q;
  st_deepFlow : Q;
  st_theta : Q;
  st_waterTable : Q;
  st_tStep : Q
}.

#[global] Instance TAquifer_inhabited : Inhabited TAquifer :=
  populate (Build_TAquifer EmptyString 0 0 0 0 0 0 0 0 0 0 0 0 0%Z).
#[global] Instance TGroundwater_inhabited : Inhabited TGroundwater :=
  populate (Build_TGroundwater 0 0 0 0 0 0 0 0 0 0 0 0 0 0 0 0 0 0 0).
#[global] Instance TNode_inhabited : Inhabited TNode :=
  populate (Build_TNode 0 0 0 0).
#[global] Instance TPattern_inhabited : Inhabited TPattern :=
  populate (Build_TPattern OTHER_PATTERN []).

Definition eta_TGroundwater (g : TGroundwater) : TGroundwater :=
  Build_TGroundwater (aquifer g) (node g) (surfElev g) (a1 g) (b1 g) (a2 g)
    (b2 g) (a3 g) (fixedDepth g) (nodeElev g) (bottomElev g)
    (waterTableElev g) (upperMoisture g) (theta g) (lowerDepth g)
    (oldFlow g) (newFlow g) (evapLoss g) (maxInfilVol g).

#[global] Instance set_bottomElev : Setter bottomElev :=
  ltac:(setter_of eta_TGroundwater bottomElev).
#[global] Instance set_waterTableElev : Setter waterTableElev :=
  ltac:(setter_of eta_TGroundwater waterTableElev).
#[global] Instance set_upperMoisture : Setter upperMoisture :=
  ltac:(setter_of eta_TGroundwater upperMoisture).
#[global] Instance set_theta : Setter theta :=
  ltac:(setter_of eta_TGroundwater theta).
#[global] Instance set_lowerDepth : Setter lowerDepth :=
  ltac:(setter_of eta_TGroundwater lowerDepth).
#[global] Instance set_oldFlow : Setter oldFlow :=
  ltac:(setter_of eta_TGroundwater oldFlow).
#[global] Instance set_newFlow : Setter newFlow :=
  ltac:(setter_of eta_TGroundwater newFlow).
#[global] Instance set_evapLoss : Setter evapLoss :=
  ltac:(setter_of eta_TGroundwater evapLoss).
#[global] Instance set_maxInfilVol : Setter maxInfilVol :=
  ltac:(setter_of eta_TGroundwater maxInfilVol).

Section Model.

Context {E : Externs}.

Record TSubcatch := {
  ID : string;
  area : Q;
  groundwater : option TGroundwater;
  gwLatFlowExpr : option MathExpr;
  gwDeepFlowExpr : option MathExpr
}.

(** [TGwaterShared]: the scratch variables shared by the functions of the
    file, rebuilt by every call of [gwater_getGroundwater]. *)
Record TGwaterShared := {
  GW : option nat;
  LatFlowExpr : option MathExpr;
  DeepFlowExpr : option MathExpr;
  A : TAquifer;
  FracPerv : Q;
  Area : Q;
  Infil : Q;
  Tstep : Q;
  MaxEvap : Q;
  AvailEvap : Q;
  TotalDepth : Q;
  Hstar : Q;
  Hsw : Q;
  MaxUpperPerc : Q;
  MaxGWFlowPos : Q;
  MaxGWFlowNeg : Q;
  Hgw : Q;
  Theta : Q;
  UpperEvap : Q;
  LowerEvap : Q;
  UpperPerc : Q;
  LowerLoss : Q;
  GWFlow : Q;
  HydCon : Q
}.

(** [SWMM_Project], as far as gwater.c reads or writes it.  [Evap_rate] is
    [sp->Evap.rate].  The three logs record the calls of
    [report_writeErrorMsg], [massbal_updateGwaterTotals] and
    [stats_updateGwaterStats], oldest first. *)
Record SWMM_Project := {
  Subcatch : list TSubcatch;
  Aquifer : list TAquifer;
  Node : list TNode;
  Pattern : list TPattern;
  Evap_rate : Q;
  NewRunoffTime : Q;
  GwaterShared : TGwaterShared;
  ErrorLog : list (ErrorCode * string);
  GwaterTotalsLog : list GwaterTotals;
  GwaterStatsLog : list GwaterStats
}.

#[global] Instance TSubcatch_inhabited : Inhabited TSubcatch :=
  populate (Build_TSubcatch EmptyString 0 None None None).

Definition eta_TSubcatch (s : TSubcatch) : TSubcatch :=
  Build_TSubcatch (ID s) (area s) (groundwater s) (gwLatFlowExpr s)
    (gwDeepFlowExpr s).

#[global] Instance set_groundwater : Setter groundwater :=
  ltac:(setter_of eta_TSubcatch groundwater).

Definition eta_TGwaterShared (g : TGwaterShared) : TGwaterShared :=
  Build_TGwaterShared (GW g) (LatFlowExpr g) (DeepFlowExpr g) (A g)
    (FracPerv g) (Area g) (Infil g) (Tstep g) (MaxEvap g) (AvailEvap g)
    (TotalDepth g) (Hstar g) (Hsw g) (MaxUpperPerc g) (MaxGWFlowPos g)
    (MaxGWFlowNeg g) (Hgw g) (Theta g) (UpperEvap g) (LowerEvap g)
    (UpperPerc g) (LowerLoss g) (GWFlow g) (HydCon g).

#[global] Instance set_GW : Setter GW :=
  ltac:(setter_of eta_TGwaterShared GW).
#[global] Instance set_LatFlowExpr : Setter LatFlowExpr :=
  ltac:(setter_of eta_TGwaterShared LatFlowExpr).
#[global] Instance set_DeepFlowExpr : Setter DeepFlowExpr :=
  ltac:(setter_of eta_TGwaterShared DeepFlowExpr).
#[global] Instance set_A : Setter A :=
  ltac:(setter_of eta_TGwaterShared A).
#[global] Instance set_FracPerv : Setter FracPerv :=
  ltac:(setter_of eta_TGwaterShared FracPerv).
#[global] Instance set_Area : Setter Area :=
  ltac:(setter_of eta_TGwaterShared Area).
#[global] Instance set_Infil : Setter Infil :=
  ltac:(setter_of eta_TGwaterShared Infil).
#[global] Instance set_Tstep : Setter Tstep :=
  ltac:(setter_of eta_TGwaterShared Tstep).
#[global] Instance set_MaxEvap : Setter MaxEvap :=
  ltac:(setter_of eta_TGwaterShared MaxEvap).
#[global] Instance set_AvailEvap : Setter AvailEvap :=
  ltac:(setter_of eta_TGwaterShared AvailEvap).
#[global] Instance set_TotalDepth : Setter TotalDepth :=
  ltac:(setter_of eta_TGwaterShared TotalDepth).
#[global] Instance set_Hstar : Setter Hstar :=
  ltac:(setter_of eta_TGwaterShared Hstar).
#[global] Instance set_Hsw : Setter Hsw :=
  ltac:(setter_of eta_TGwaterShared Hsw).
#[global] Instance set_MaxUpperPerc : Setter MaxUpperPerc :=
  ltac:(setter_of eta_TGwaterShared MaxUpperPerc).
#[global] Instance set_MaxGWFlowPos : Setter MaxGWFlowPos :=
  ltac:(setter_of eta_TGwaterShared MaxGWFlowPos).
#[global] Instance set_MaxGWFlowNeg : Setter MaxGWFlowNeg :=
  ltac:(setter_of eta_TGwaterShared MaxGWFlowNeg).
#[global] Instance set_Hgw : Setter Hgw :=
  ltac:(setter_of eta_TGwaterShared Hgw).
#[global] Instance set_Theta : Setter Theta :=
  ltac:(setter_of eta_TGwaterShared Theta).
#[global] Instance set_UpperEvap : Setter UpperEvap :=
  ltac:(setter_of eta_TGwaterShared UpperEvap).
#[global] Instance set_LowerEvap : Setter LowerEvap :=
  ltac:(setter_of eta_TGwaterShared LowerEvap).
#[global] Instance set_UpperPerc : Setter UpperPerc :=
  ltac:(setter_of eta_TGwaterShared UpperPerc).
#[global] Instance set_LowerLoss : Setter LowerLoss :=
  ltac:(setter_of eta_TGwaterShared LowerLoss).
#[global] Instance set_GWFlow : Setter GWFlow :=
  ltac:(setter_of eta_TGwaterShared GWFlow).
#[global] Instance set_HydCon : Setter HydCon :=
  ltac:(setter_of eta_TGwaterShared HydCon).

Definition eta_SWMM_Project (sp : SWMM_Project) : SWMM_Project :=
  Build_SWMM_Project (Subcatch sp) (Aquifer sp) (Node sp) (Pattern sp)
    (Evap_rate sp) (NewRunoffTime sp) (GwaterShared sp) (ErrorLog sp)
    (GwaterTotalsLog sp) (GwaterStatsLog sp).

#[global] Instance set_Subcatch : Setter Subcatch :=
  ltac:(setter_of eta_SWMM_Project Subcatch).
#[global] Instance set_GwaterShared : Setter GwaterShared :=
  ltac:(setter_of eta_SWMM_Project GwaterShared).
#[global] Instance set_ErrorLog : Setter ErrorLog :=
  ltac:(setter_of eta_SWMM_Project ErrorLog).
#[global] Instance set_GwaterTotalsLog : Setter GwaterTotalsLog :=
  ltac:(setter_of eta_SWMM_Project GwaterTotalsLog).
#[global] Instance set_GwaterStatsLog : Setter GwaterStatsLog :=
  ltac:(setter_of eta_SWMM_Project GwaterStatsLog).

(** The external ODE integrator (odesolve.c): from the state vector
    [(theta, lowerDepth)], the number of equations, the two ends of the
    interval, the tolerance, the first step size and the derivative
    function, the project as the derivative function left it and the state
    vector at the end of the interval. *)
Class OdeSolver := {
  odesolve_integrate :
    SWMM_Project -> Q * Q -> Z -> Q -> Q -> Q -> Q ->
    (SWMM_Project -> Q -> Q * Q -> SWMM_Project * (Q * Q)) ->
    SWMM_Project * (Q * Q)
}.

Context {O : OdeSolver}.

(* ------------------------------------------------------------------ *)
(** ** Access to the shared scratch record and to groundwater objects *)

(** [gwtr->f] and [gwtr->f = v], with [gwtr = &sp->GwaterShared]. *)
Abbreviation gwtr := GwaterShared (only parsing).

Definition gwtr_wr {T : Type} (f : TGwaterShared -> T) `{!Setter f} (v : T)
    (sp : SWMM_Project) : SWMM_Project :=
  sp <| GwaterShared := (GwaterShared sp) <| f := v |> |>.

(** The object [*(sp->Subcatch[k].groundwater)] and a store into one of its
    fields.  Reading through a null pointer, undefined in C, reads the
    default object; the functions below test the pointer where the source
    does. *)
Definition gwobj (sp : SWMM_Project) (k : nat) : TGroundwater :=
  default inhabitant (groundwater (Subcatch sp !!! k)).

Definition gw_wr {T : Type} (k : nat) (f : TGroundwater -> T) `{!Setter f}
    (v : T) (sp : SWMM_Project) : SWMM_Project :=
  sp <| Subcatch :=
    alter (fun sc => sc <| groundwater :=
                       (fun g => g <| f := v |>) <$> groundwater sc |>)
          k (Subcatch sp) |>.

(** The pointer stored in [gwtr->GW] by [gwtr->GW = sp->Subcatch[j].groundwater]. *)
Definition gw_ptr (sp : SWMM_Project) (j : nat) : option nat :=
  match groundwater (Subcatch sp !!! j) with
  | Some _ => Some j
  | None => None
  end.

(** [*(gwtr->GW)] and [gwtr->GW->f = v]. *)
Definition GWobj (sp : SWMM_Project) : TGroundwater :=
  match GW (gwtr sp) with
  | Some k => gwobj sp k
  | None => inhabitant
  end.

Definition GW_wr {T : Type} (f : TGroundwater -> T) `{!Setter f} (v : T)
    (sp : SWMM_Project) : SWMM_Project :=
  match GW (gwtr sp) with
  | Some k => gw_wr k f v sp
  | None => sp
  end.

(* ------------------------------------------------------------------ *)
(** ** The three sinks *)

(** Modelled from the spec: [report_writeErrorMsg] of report.c, which is not
    among the sources; the violation is "reported as a named validation
    error against the offending object". *)
Definition report_writeErrorMsg (sp : SWMM_Project) (code : ErrorCode)
    (id : string) : SWMM_Project :=
  sp <| ErrorLog := ErrorLog sp ++ [(code, id)] |>.

(** Modelled from the spec: [massbal_updateGwaterTotals] of massbal.c, which
    is not among the sources; the sink "accepts five named volumes per
    call". *)
Definition massbal_updateGwaterTotals (sp : SWMM_Project)
    (vInfil vUpperEvap vLowerEvap vLowerPerc vGwater : Q) : SWMM_Project :=
  sp <| GwaterTotalsLog := GwaterTotalsLog sp ++
        [Build_GwaterTotals vInfil vUpperEvap vLowerEvap vLowerPerc vGwater] |>.

(** Modelled from the spec: [stats_updateGwaterStats] of stats.c, which is
    not among the sources; the sink accepts the rates, theta and the
    water-table elevation of one subcatchment and step. *)
Definition stats_updateGwaterStats (sp : SWMM_Project) (j : nat)
    (infil evap latFlow deepFlow theta waterTable tStep : Q) : SWMM_Project :=
  sp <| GwaterStatsLog := GwaterStatsLog sp ++
        [Build_GwaterStats j infil evap latFlow deepFlow theta waterTable
           tStep] |>.

(* ------------------------------------------------------------------ *)
(** ** Validation and initial state *)

#[global] Instance PatternType_eq_dec : EqDecision PatternType.
Proof. solve_decision. Defined.

Definition gwater_validateAquifer (sp : SWMM_Project) (j : nat)
    : SWMM_Project :=
  let a := Aquifer sp !!! j in
  let sp :=
    if Qleb (porosity a) 0
       || Qgeb (fieldCapacity a) (porosity a)
       || Qgeb (wiltingPoint a) (fieldCapacity a)
       || Qleb (conductivity a) 0
       || Qltb (conductSlope a) 0
       || Qltb (tensionSlope a) 0
       || Qltb (upperEvapFrac a) 0
       || Qltb (lowerEvapDepth a) 0
       || Qltb (aq_waterTableElev a) (aq_bottomElev a)
       || Qgtb (aq_upperMoisture a) (porosity a)
       || Qltb (aq_upperMoisture a) (wiltingPoint a)
    then report_writeErrorMsg sp ERR_AQUIFER_PARAMS (aq_ID a)
    else sp in
  let p := upperEvapPat a in
  if (0 <=? p)%Z
     && negb (bool_decide (type (Pattern sp !!! Z.to_nat p) = MONTHLY_PATTERN))
  then report_writeErrorMsg sp ERR_AQUIFER_PARAMS (aq_ID a)
  else sp.

Definition gwater_validate (sp : SWMM_Project) (j : nat) : SWMM_Project :=
  match groundwater (Subcatch sp !!! j) with
  | None => sp
  | Some gw =>
    let a := Aquifer sp !!! aquifer gw in
    (* use aquifer values for missing groundwater parameters *)
    let sp := if Qeqb (bottomElev (gwobj sp j)) MISSING
              then gw_wr j bottomElev (aq_bottomElev a) sp else sp in
    let sp := if Qeqb (waterTableElev (gwobj sp j)) MISSING
              then gw_wr j waterTableElev (aq_waterTableElev a) sp else sp in
    let sp := if Qeqb (upperMoisture (gwobj sp j)) MISSING
              then gw_wr j upperMoisture (aq_upperMoisture a) sp else sp in
    (* ground elevation can't be below water table elevation *)
    if Qltb (surfElev (gwobj sp j)) (waterTableElev (gwobj sp j))
    then report_writeErrorMsg sp ERR_GROUND_ELEV (ID (Subcatch sp !!! j))
    else sp
  end.

Definition gwater_initState (sp : SWMM_Project) (j : nat) : SWMM_Project :=
  match groundwater (Subcatch sp !!! j) with
  | None => sp
  | Some gw =>
    let a := Aquifer sp !!! aquifer gw in
    (* initial moisture content *)
    let sp := gw_wr j theta (upperMoisture (gwobj sp j)) sp in
    let sp := if Qgeb (theta (gwobj sp j)) (porosity a)
              then gw_wr j theta (porosity a - XTOL) sp else sp in
    (* initial depth of lower (saturated) zone *)
    let sp := gw_wr j lowerDepth
                (waterTableElev (gwobj sp j) - bottomElev (gwobj sp j)) sp in
    let sp := if Qgeb (lowerDepth (gwobj sp j))
                      (surfElev (gwobj sp j) - bottomElev (gwobj sp j))
              then gw_wr j lowerDepth
                     (surfElev (gwobj sp j) - bottomElev (gwobj sp j) - XTOL) sp
              else sp in
    (* initial lateral groundwater outflow *)
    let sp := gw_wr j oldFlow 0 sp in
    let sp := gw_wr j newFlow 0 sp in
    let sp := gw_wr j evapLoss 0 sp in
    (* initial available infiltration volume into upper zone *)
    gw_wr j maxInfilVol
      ((surfElev (gwobj sp j) - waterTableElev (gwobj sp j)) *
       (porosity a - theta (gwobj sp j)) /
       subcatch_getFracPerv j) sp
  end.

(* ------------------------------------------------------------------ *)
(** ** Snapshot, restore, stored volume *)

(** [gwater_getState] fills [x[0..3]]; the source does not test the pointer,
    and the model has no result ([None]) where it is null. *)
Definition gwater_getState (sp : SWMM_Project) (j : nat)
    : option (Q * Q * Q * Q) :=
  match groundwater (Subcatch sp !!! j) with
  | None => None
  | Some gw =>
    Some (theta gw, bottomElev gw + lowerDepth gw, newFlow gw, maxInfilVol gw)
  end.

Definition gwater_setState (sp : SWMM_Project) (j : nat) (x : Q * Q * Q * Q)
    : SWMM_Project :=
  let '(x0, x1, x2, x3) := x in
  match groundwater (Subcatch sp !!! j) with
  | None => sp
  | Some _ =>
    let sp := gw_wr j theta x0 sp in
    let sp := gw_wr j lowerDepth (x1 - bottomElev (gwobj sp j)) sp in
    let sp := gw_wr j oldFlow x2 sp in
    if Qneb x3 MISSING then gw_wr j maxInfilVol x3 sp else sp
  end.

Definition gwater_getVolume (sp : SWMM_Project) (j : nat) : Q :=
  match groundwater (Subcatch sp !!! j) with
  | None => 0
  | Some gw =>
    let a := Aquifer sp !!! aquifer gw in
    let upperDepth := surfElev gw - bottomElev gw - lowerDepth gw in
    (upperDepth * theta gw) + (lowerDepth gw * porosity a)
  end.

(* ------------------------------------------------------------------ *)
(** ** Variables of user-supplied flow expressions *)

Definition getVariableValue (sp : SWMM_Project) (varIndex : Z) : Q :=
  if (varIndex =? gwvHGW)%Z then Hgw (gwtr sp) * UCF LENGTH
  else if (varIndex =? gwvHSW)%Z then Hsw (gwtr sp) * UCF LENGTH
  else if (varIndex =? gwvHCB)%Z then Hstar (gwtr sp) * UCF LENGTH
  else if (varIndex =? gwvHGS)%Z then TotalDepth (gwtr sp) * UCF LENGTH
  else if (varIndex =? gwvKS)%Z then conductivity (A (gwtr sp)) * UCF RAINFALL
  else if (varIndex =? gwvK)%Z then HydCon (gwtr sp) * UCF RAINFALL
  else if (varIndex =? gwvTHETA)%Z then Theta (gwtr sp)
  else if (varIndex =? gwvPHI)%Z then porosity (A (gwtr sp))
  else if (varIndex =? gwvFI)%Z then Infil (gwtr sp) * UCF RAINFALL
  else if (varIndex =? gwvFU)%Z then UpperPerc (gwtr sp) * UCF RAINFALL
  else if (varIndex =? gwvA)%Z then Area (gwtr sp) * UCF LANDAREA
  else 0.

(* ------------------------------------------------------------------ *)
(** ** Fluxes *)

Definition getEvapRates (sp : SWMM_Project) (theta upperDepth : Q)
    : SWMM_Project :=
  (* no GW evaporation when infiltration is occurring *)
  let sp := gwtr_wr UpperEvap 0 sp in
  let sp := gwtr_wr LowerEvap 0 sp in
  if Qgtb (Infil (gwtr sp)) 0 then sp else
  (* get monthly-adjusted upper zone evap fraction *)
  let upperFrac := upperEvapFrac (A (gwtr sp)) in
  let f := 1 in
  let p := upperEvapPat (A (gwtr sp)) in
  let f :=
    if (0 <=? p)%Z then
      let month := datetime_monthOfYear (getDateTime (NewRunoffTime sp)) in
      factor (Pattern sp !!! Z.to_nat p) !!! Z.to_nat (month - 1)
    else f in
  let upperFrac := upperFrac * f in
  (* upper zone evaporation requires that soil moisture be above the
     wilting point *)
  let sp :=
    if Qgtb theta (wiltingPoint (A (gwtr sp))) then
      let sp := gwtr_wr UpperEvap (upperFrac * MaxEvap (gwtr sp)) sp in
      gwtr_wr UpperEvap (MIN (UpperEvap (gwtr sp)) (AvailEvap (gwtr sp))) sp
    else sp in
  (* check if lower zone evaporation is possible *)
  if Qgtb (lowerEvapDepth (A (gwtr sp))) 0 then
    let lowerFrac := (lowerEvapDepth (A (gwtr sp)) - upperDepth) /
                     lowerEvapDepth (A (gwtr sp)) in
    let lowerFrac := MAX 0 lowerFrac in
    let lowerFrac := MIN lowerFrac 1 in
    let sp := gwtr_wr LowerEvap
                (lowerFrac * (1 - upperFrac) * MaxEvap (gwtr sp)) sp in
    gwtr_wr LowerEvap
      (MIN (LowerEvap (gwtr sp)) (AvailEvap (gwtr sp) - UpperEvap (gwtr sp)))
      sp
  else sp.

(** [getUpperPerc] returns the percolation rate and, past its first test,
    stores the unsaturated conductivity in [gwtr->HydCon]. *)
Definition getUpperPerc (sp : SWMM_Project) (theta upperDepth : Q)
    : Q * SWMM_Project :=
  (* no perc. from upper zone if no depth or moisture content too low *)
  if Qleb upperDepth 0 || Qleb theta (fieldCapacity (A (gwtr sp)))
  then (0, sp) else
  (* compute hyd. conductivity as function of moisture content *)
  let delta := theta - porosity (A (gwtr sp)) in
  let hydcon := conductivity (A (gwtr sp)) *
                exp (delta * conductSlope (A (gwtr sp))) in
  (* compute integral of dh/dz term *)
  let delta := theta - fieldCapacity (A (gwtr sp)) in
  let dhdz := 1 + tensionSlope (A (gwtr sp)) * 2 * delta / upperDepth in
  (* compute upper zone percolation rate *)
  let sp := gwtr_wr HydCon hydcon sp in
  (hydcon * dhdz, sp).

(** The three terms of the built-in lateral flow and their combination [q],
    as [getGWFlow] computes them once the water table is above [Hstar]. *)
Definition getGWFlow_t1 (sp : SWMM_Project) (lowerDepth : Q) : Q :=
  if Qeqb (b1 (GWobj sp)) 0 then a1 (GWobj sp)
  else a1 (GWobj sp) *
       pow ((lowerDepth - Hstar (gwtr sp)) * UCF LENGTH) (b1 (GWobj sp)).

Definition getGWFlow_t2 (sp : SWMM_Project) : Q :=
  if Qeqb (b2 (GWobj sp)) 0 then a2 (GWobj sp)
  else if Qgtb (Hsw (gwtr sp)) (Hstar (gwtr sp)) then
    a2 (GWobj sp) *
    pow ((Hsw (gwtr sp) - Hstar (gwtr sp)) * UCF LENGTH) (b2 (GWobj sp))
  else 0.

Definition getGWFlow_t3 (sp : SWMM_Project) (lowerDepth : Q) : Q :=
  a3 (GWobj sp) * lowerDepth * Hsw (gwtr sp) * UCF LENGTH * UCF LENGTH.

Definition getGWFlow_q (sp : SWMM_Project) (lowerDepth : Q) : Q :=
  (getGWFlow_t1 sp lowerDepth - getGWFlow_t2 sp + getGWFlow_t3 sp lowerDepth)
  / UCF GWFLOW.

Definition getGWFlow (sp : SWMM_Project) (lowerDepth : Q) : Q :=
  (* water table must be above Hstar for flow to occur *)
  if Qleb lowerDepth (Hstar (gwtr sp)) then 0 else
  (* compute total groundwater flow *)
  let q := getGWFlow_q sp lowerDepth in
  if Qltb q 0 && Qneb (a3 (GWobj sp)) 0 then 0 else q.

(** [getFluxes], lines "find percolation rate from upper to lower zone". *)
Definition getFluxes_perc (sp : SWMM_Project) (theta upperDepth : Q)
    : SWMM_Project :=
  let r := getUpperPerc sp theta upperDepth in
  let sp := gwtr_wr UpperPerc (fst r) (snd r) in
  gwtr_wr UpperPerc (MIN (UpperPerc (gwtr sp)) (MaxUpperPerc (gwtr sp))) sp.

(** [getFluxes], lines "find loss rate to deep GW". *)
Definition getFluxes_deep (sp : SWMM_Project) (lowerDepth : Q)
    : SWMM_Project :=
  let sp :=
    match DeepFlowExpr (gwtr sp) with
    | Some e =>
      gwtr_wr LowerLoss
        (mathexpr_eval e (getVariableValue sp) / UCF RAINFALL) sp
    | None =>
      gwtr_wr LowerLoss
        (lowerLossCoeff (A (gwtr sp)) * lowerDepth / TotalDepth (gwtr sp)) sp
    end in
  gwtr_wr LowerLoss
    (MIN (LowerLoss (gwtr sp)) (lowerDepth / Tstep (gwtr sp))) sp.

(** [getFluxes], lines "find GW flow rate from lower zone to drainage system
    node". *)
Definition getFluxes_lateral (sp : SWMM_Project) (lowerDepth : Q)
    : SWMM_Project :=
  let sp := gwtr_wr GWFlow (getGWFlow sp lowerDepth) sp in
  let sp :=
    match LatFlowExpr (gwtr sp) with
    | Some e =>
      gwtr_wr GWFlow
        (GWFlow (gwtr sp) +
         mathexpr_eval e (getVariableValue sp) / UCF GWFLOW) sp
    | None => sp
    end in
  if Qgeb (GWFlow (gwtr sp)) 0
  then gwtr_wr GWFlow (MIN (GWFlow (gwtr sp)) (MaxGWFlowPos (gwtr sp))) sp
  else gwtr_wr GWFlow (MAX (GWFlow (gwtr sp)) (MaxGWFlowNeg (gwtr sp))) sp.

Definition getFluxes (sp : SWMM_Project) (theta lowerDepth : Q)
    : SWMM_Project :=
  (* find upper zone depth *)
  let lowerDepth := MAX lowerDepth 0 in
  let lowerDepth := MIN lowerDepth (TotalDepth (gwtr sp)) in
  let upperDepth := TotalDepth (gwtr sp) - lowerDepth in
  (* save lower depth and theta to global variables *)
  let sp := gwtr_wr Hgw lowerDepth sp in
  let sp := gwtr_wr Theta theta sp in
  (* find evaporation rate from both zones *)
  let sp := getEvapRates sp theta upperDepth in
  (* find percolation rate from upper to lower zone *)
  let sp := getFluxes_perc sp theta upperDepth in
  (* find loss rate to deep GW *)
  let sp := getFluxes_deep sp lowerDepth in
  (* find GW flow rate from lower zone to drainage system node *)
  getFluxes_lateral sp lowerDepth.

(** The state vector [x] is the pair [(x[THETA], x[LOWERDEPTH])]. *)
Definition getDxDt (sp : SWMM_Project) (t : Q) (x : Q * Q)
    : SWMM_Project * (Q * Q) :=
  let sp := getFluxes sp (fst x) (snd x) in
  let qUpper := Infil (gwtr sp) - UpperEvap (gwtr sp) - UpperPerc (gwtr sp) in
  let qLower := UpperPerc (gwtr sp) - LowerLoss (gwtr sp)
                - LowerEvap (gwtr sp) - GWFlow (gwtr sp) in
  (* d(upper zone moisture)/dt = (net upper zone flow) / (upper zone depth) *)
  let denom := TotalDepth (gwtr sp) - snd x in
  let dTheta := if Qgtb denom 0 then qUpper / denom else 0 in
  (* d(lower zone depth)/dt = (net lower zone flow) /
                              (upper zone moisture deficit) *)
  let denom := porosity (A (gwtr sp)) - fst x in
  let dLower := if Qgtb denom 0 then qLower / denom else 0 in
  (sp, (dTheta, dLower)).

Definition updateMassBal (sp : SWMM_Project) (area tStep : Q)
    : SWMM_Project :=
  let ft2sec := area * tStep in
  let vInfil := Infil (gwtr sp) * ft2sec in
  let vUpperEvap := UpperEvap (gwtr sp) * ft2sec in
  let vLowerEvap := LowerEvap (gwtr sp) * ft2sec in
  let vLowerPerc := LowerLoss (gwtr sp) * ft2sec in
  let vGwater := 0.5 * (oldFlow (GWobj sp) + newFlow (GWobj sp)) * ft2sec in
  massbal_updateGwaterTotals sp vInfil vUpperEvap vLowerEvap vLowerPerc
    vGwater.

(* ------------------------------------------------------------------ *)
(** ** One step

    [gwater_getGroundwater] is given in the order of the source; its runs
    of assignments between two tests are named after the comments that head
    them there. *)

(** "save subcatchment's groundwater and aquifer objects to shared
    variables" (after the test of the pointer) and "get fraction of total
    area that is pervious". *)
Definition saveObjects (sp : SWMM_Project) (j : nat) : SWMM_Project :=
  let sp := gwtr_wr LatFlowExpr (gwLatFlowExpr (Subcatch sp !!! j)) sp in
  let sp := gwtr_wr DeepFlowExpr (gwDeepFlowExpr (Subcatch sp !!! j)) sp in
  let sp := gwtr_wr A (Aquifer sp !!! aquifer (GWobj sp)) sp in
  gwtr_wr FracPerv (subcatch_getFracPerv j) sp.

(** From [gwtr->Infil = infil] to "save total depth & outlet node properties
    to shared variables": [infil] is already a rate, the evaporation volume
    becomes one, and the evaporation left for groundwater is found. *)
Definition setRates (sp : SWMM_Project) (evap infil tStep : Q)
    : SWMM_Project :=
  let sp := gwtr_wr Infil infil sp in
  let sp := gwtr_wr Tstep tStep sp in
  (* convert pervious surface evaporation already exerted (ft3) to
     equivalent rate over entire GW (subcatchment) area *)
  let evap := evap / Area (gwtr sp) / tStep in
  (* convert max. surface evap rate (ft/sec) to a rate that applies to GW
     evap *)
  let sp := gwtr_wr MaxEvap (Evap_rate sp * FracPerv (gwtr sp)) sp in
  (* available subsurface evaporation is difference between max. rate and
     pervious surface evap already exerted *)
  let sp := gwtr_wr AvailEvap (MAX (MaxEvap (gwtr sp) - evap) 0) sp in
  (* save total depth & outlet node properties to shared variables *)
  gwtr_wr TotalDepth (surfElev (GWobj sp) - bottomElev (GWobj sp)) sp.

(** "establish min. water table height above aquifer bottom at which GW flow
    can occur" and "establish surface water height (relative to aquifer
    bottom)". *)
Definition setHeads (sp : SWMM_Project) : SWMM_Project :=
  let n := node (GWobj sp) in
  let sp :=
    if Qneb (nodeElev (GWobj sp)) MISSING
    then gwtr_wr Hstar (nodeElev (GWobj sp) - bottomElev (GWobj sp)) sp
    else gwtr_wr Hstar
           (invertElev (Node sp !!! n) - bottomElev (GWobj sp)) sp in
  if Qgtb (fixedDepth (GWobj sp)) 0
  then gwtr_wr Hsw
         (fixedDepth (GWobj sp) + invertElev (Node sp !!! n) -
          bottomElev (GWobj sp)) sp
  else gwtr_wr Hsw
         (newDepth (Node sp !!! n) + invertElev (Node sp !!! n) -
          bottomElev (GWobj sp)) sp.

(** "set limit on percolation rate", "set limit on GW flow out of aquifer"
    and "set limit on GW flow into aquifer", from the work vector [x]. *)
Definition setLimits (sp : SWMM_Project) (tStep : Q) (x : Q * Q)
    : SWMM_Project :=
  let n := node (GWobj sp) in
  (* set limit on percolation rate from upper to lower GW zone *)
  let vUpper := (TotalDepth (gwtr sp) - snd x) *
                (fst x - fieldCapacity (A (gwtr sp))) in
  let vUpper := MAX 0 vUpper in
  let sp := gwtr_wr MaxUpperPerc (vUpper / tStep) sp in
  (* set limit on GW flow out of aquifer based on volume of lower zone *)
  let sp := gwtr_wr MaxGWFlowPos
              (snd x * porosity (A (gwtr sp)) / tStep) sp in
  (* set limit on GW flow into aquifer from drainage system node based on
     min. of capacity of upper zone and drainage system inflow to the node *)
  let sp := gwtr_wr MaxGWFlowNeg
              ((TotalDepth (gwtr sp) - snd x) *
               (porosity (A (gwtr sp)) - fst x) / tStep) sp in
  let nodeFlow := (inflow (Node sp !!! n) + newVolume (Node sp !!! n) / tStep)
                  / Area (gwtr sp) in
  gwtr_wr MaxGWFlowNeg (- MIN (MaxGWFlowNeg (gwtr sp)) nodeFlow) sp.

(** "keep state variables within allowable bounds". *)
Definition keepInBounds (sp : SWMM_Project) (x : Q * Q) : Q * Q :=
  let x := (MAX (fst x) (wiltingPoint (A (gwtr sp))), snd x) in
  let x :=
    if Qgeb (fst x) (porosity (A (gwtr sp)))
    then (porosity (A (gwtr sp)) - XTOL, TotalDepth (gwtr sp) - XTOL)
    else x in
  let x := (fst x, MAX (snd x) 0) in
  if Qgeb (snd x) (TotalDepth (gwtr sp))
  then (fst x, TotalDepth (gwtr sp) - XTOL)
  else x.

(** "save new values of state values": the two stores of the state vector. *)
Definition saveState (sp : SWMM_Project) (x : Q * Q) : SWMM_Project :=
  let sp := GW_wr theta (fst x) sp in
  GW_wr lowerDepth (snd x) sp.

(** The three stores that follow the end-of-step [getFluxes]. *)
Definition saveFlows (sp : SWMM_Project) : SWMM_Project :=
  let sp := GW_wr oldFlow (newFlow (GWobj sp)) sp in
  let sp := GW_wr newFlow (GWFlow (gwtr sp)) sp in
  GW_wr evapLoss (UpperEvap (gwtr sp) + LowerEvap (gwtr sp)) sp.

(** "find max. infiltration volume (as depth over the pervious portion of
    the subcatchment) that upper zone can support in next time step". *)
Definition saveMaxInfilVol (sp : SWMM_Project) (x : Q * Q) : SWMM_Project :=
  GW_wr maxInfilVol
    ((TotalDepth (gwtr sp) - snd x) *
     (porosity (A (gwtr sp)) - fst x) / FracPerv (gwtr sp)) sp.

(** "update GW statistics". *)
Definition updateStats (sp : SWMM_Project) (j : nat) (infil tStep : Q)
    : SWMM_Project :=
  stats_updateGwaterStats sp j infil (evapLoss (GWobj sp)) (GWFlow (gwtr sp))
    (LowerLoss (gwtr sp)) (theta (GWobj sp))
    (lowerDepth (GWobj sp) + bottomElev (GWobj sp)) tStep.

(** The part of [gwater_getGroundwater] that follows the integration. *)
Definition saveNewState (sp : SWMM_Project) (j : nat) (infil tStep : Q)
    (x : Q * Q) : SWMM_Project :=
  (* keep state variables within allowable bounds *)
  let x := keepInBounds sp x in
  (* save new values of state values *)
  let sp := saveState sp x in
  let sp := getFluxes sp (theta (GWobj sp)) (lowerDepth (GWobj sp)) in
  let sp := saveFlows sp in
  let sp := saveMaxInfilVol sp x in
  (* update GW mass balance *)
  let sp := updateMassBal sp (Area (gwtr sp)) tStep in
  (* update GW statistics *)
  updateStats sp j infil tStep.

(** The project handed to the integrator: the shared variables of a step
    that passed the three tests. *)
Definition stepContext (sp : SWMM_Project) (j : nat) (evap infil tStep : Q)
    : SWMM_Project :=
  let sp := gwtr_wr GW (gw_ptr sp j) sp in
  let sp := saveObjects sp j in
  let sp := gwtr_wr Area (area (Subcatch sp !!! j)) sp in
  let infil := infil / Area (gwtr sp) / tStep in
  let sp := setRates sp evap infil tStep in
  let sp := setHeads sp in
  setLimits sp tStep (theta (GWobj sp), lowerDepth (GWobj sp)).

Definition gwater_getGroundwater (sp : SWMM_Project) (j : nat)
    (evap infil tStep : Q) : SWMM_Project :=
  (* save subcatchment's groundwater and aquifer objects to shared
     variables *)
  let sp := gwtr_wr GW (gw_ptr sp j) sp in
  if bool_decide (GW (gwtr sp) = None) then sp else
  let sp := saveObjects sp j in
  if Qleb (FracPerv (gwtr sp)) 0 then sp else
  let sp := gwtr_wr Area (area (Subcatch sp !!! j)) sp in
  (* convert infiltration volume (ft3) to equivalent rate over entire GW
     (subcatchment) area *)
  let infil := infil / Area (gwtr sp) / tStep in
  let sp := setRates sp evap infil tStep in
  if Qleb (TotalDepth (gwtr sp)) 0 then sp else
  let sp := setHeads sp in
  (* store state variables (upper zone moisture content, lower zone depth)
     in work vector x *)
  let x := (theta (GWobj sp), lowerDepth (GWobj sp)) in
  let sp := setLimits sp tStep x in
  (* integrate eqns. for d(Theta)/dt and d(LowerDepth)/dt *)
  let r := odesolve_integrate sp x 2 0 tStep GWTOL tStep getDxDt in
  saveNewState (fst r) j infil tStep (snd r).

End Model.

Abbreviation gwtr := GwaterShared (only parsing).

(* ------------------------------------------------------------------ *)
(** ** A concrete configuration

    US customary units, a small expression language, rational stand-ins for
    [exp] and [pow], and a one-step explicit Euler integrator.  The closed
    examples below are evaluated in this configuration. *)

Inductive TestExpr :=
  | ENum (q : Q)
  | EVar (i : Z)
  | EAdd (a b : TestExpr)
  | EMul (a b : TestExpr).

Fixpoint evalTestExpr (e : TestExpr) (value : Z -> Q) : Q :=
  match e with
  | ENum q => q
  | EVar i => value i
  | EAdd a b => evalTestExpr a value + evalTestExpr b value
  | EMul a b => evalTestExpr a value * evalTestExpr b value
  end.

(** A positive rational stand-in for the exponential. *)
Definition testExp (x : Q) : Q :=
  if Qltb x 0 then 1 / (1 - x + x * x / 2) else 1 + x + x * x / 2.

(** A stand-in for [pow], exact when the exponent is an integer. *)
Definition testPow (x y : Q) : Q := Qpower x (Qfloor y).

Definition testUCF (q : ConversionType) : Q :=
  match q with
  | RAINFALL => 43200
  | LENGTH => 1
  | LANDAREA => 0.000022956
  | GWFLOW => 43560
  end.

Definition testExterns : Externs := {|
  MathExpr := TestExpr;
  mathexpr_eval := evalTestExpr;
  MISSING := - 10000000000;
  UCF := testUCF;
  exp := testExp;
  pow := testPow;
  subcatch_getFracPerv := fun _ => 1;
  getDateTime := fun t => t;
  datetime_monthOfYear := fun _ => 1%Z
|}.

(** One explicit Euler step over the whole interval: the derivative function
    is called once, at the start. *)
Definition eulerSolver {E : Externs} : OdeSolver := {|
  odesolve_integrate := fun sp x n x1 x2 eps h1 derivs =>
    let r := derivs sp x1 x in
    (fst r, (fst x + (x2 - x1) * fst (snd r), snd x + (x2 - x1) * snd (snd r)))
|}.

(** An aquifer with the soil of the spec's scenario (porosity 0.43, field
    capacity 0.20, wilting point 0.09, conductivity 0.5 in/hr), bottom at
    elevation 0, and the given water-table elevation and upper moisture. *)
Definition testAquifer (waterTable moisture : Q) : TAquifer := {|
  aq_ID := "AQ1";
  porosity := 0.43;
  wiltingPoint := 0.09;
  fieldCapacity := 0.20;
  conductivity := 0.5 / 43200;
  conductSlope := 10;
  tensionSlope := 15;
  upperEvapFrac := 0.35;
  lowerEvapDepth := 14;
  lowerLossCoeff := 0.002 / 43200;
  aq_bottomElev := 0;
  aq_waterTableElev := waterTable;
  aq_upperMoisture := moisture;
  upperEvapPat := (-1)%Z
|}.

(** A groundwater object as [gwater_readGroundwaterParams] leaves it, with
    surface elevation [surf], surface-water coefficient [a2coef], and
    bottom elevation [bottom] ([MISSING] to take the aquifer's); the state
    fields are still to be initialized. *)
Definition testGroundwater (surf a2coef bottom : Q) : TGroundwater := {|
  aquifer := 0;
  node := 0;
  surfElev := surf;
  a1 := 0;
  b1 := 0;
  a2 := a2coef;
  b2 := 0;
  a3 := 0;
  fixedDepth := 0;
  nodeElev := @MISSING testExterns;
  bottomElev := bottom;
  waterTableElev := @MISSING testExterns;
  upperMoisture := @MISSING testExterns;
  theta := 0;
  lowerDepth := 0;
  oldFlow := 0;
  newFlow := 0;
  evapLoss := 0;
  maxInfilVol := 0
|}.

Definition testNode (invert : Q) : TNode := {|
  invertElev := invert;
  newDepth := 0;
  inflow := 0;
  newVolume := 0
|}.

Definition testShared : @TGwaterShared testExterns :=
  Build_TGwaterShared None None None inhabitant
    0 0 0 0 0 0 0 0 0 0 0 0 0 0 0 0 0 0 0 0.

(** A project of one subcatchment of one acre, one aquifer and one node,
    with an evaporation rate of 0.0000002 ft/s, before validation. *)
Definition testInput (aq : TAquifer) (gw : option TGroundwater)
    (deep : option TestExpr) (nd : TNode) : @SWMM_Project testExterns := {|
  Subcatch := [ @Build_TSubcatch testExterns "S1" 43560 gw None deep ];
  Aquifer := [aq];
  Node := [nd];
  Pattern := [];
  Evap_rate := 0.0000002;
  NewRunoffTime := 0;
  GwaterShared := testShared;
  ErrorLog := [];
  GwaterTotalsLog := [];
  GwaterStatsLog := []
|}.

(** Validation and initial state of subcatchment 0 and aquifer 0, as
    [swmm_open] and [subcatch_initState] arrange them. *)
Definition testStart (sp : @SWMM_Project testExterns)
    : @SWMM_Project testExterns :=
  @gwater_initState testExterns
    (@gwater_validate testExterns
       (@gwater_validateAquifer testExterns sp 0) 0) 0.

(** The spec's scenario: total depth 6 ft, theta 0.25, lower depth 2 ft,
    zero lateral coefficients; the node invert is at 3 ft. *)
Definition testProject : @SWMM_Project testExterns :=
  testStart (testInput (testAquifer 2 0.25)
               (Some (testGroundwater 6 0 (@MISSING testExterns)))
               None (testNode 3)).

(** The same without groundwater. *)
Definition testProjectNoGw : @SWMM_Project testExterns :=
  testStart (testInput (testAquifer 2 0.25) None None (testNode 3)).

(** The same with the surface-water coefficient a2 = 1 (and b2 = 0). *)
Definition testProjectLat : @SWMM_Project testExterns :=
  testStart (testInput (testAquifer 2 0.25)
               (Some (testGroundwater 6 1 (@MISSING testExterns)))
               None (testNode 3)).

(** The same with the spec's deep-flow expression 2 * THETA. *)
Definition testProjectDeep : @SWMM_Project testExterns :=
  testStart (testInput (testAquifer 2 0.25)
               (Some (testGroundwater 6 0 (@MISSING testExterns)))
               (Some (EMul (ENum 2) (EVar gwvTHETA))) (testNode 3)).

(** A thin aquifer: surface at 0.0005 ft above the bottom, water table at
    0.0002 ft, upper moisture 0.42. *)
Definition thinProject : @SWMM_Project testExterns :=
  testStart (testInput (testAquifer 0.0002 0.42)
               (Some (testGroundwater 0.0005 0 (@MISSING testExterns)))
               None (testNode 3)).

(** An aquifer whose wilting point, 0.4295, is within [XTOL] of its
    porosity, 0.43; the field capacity is 0.4297 and the upper moisture
    0.4296. *)
Definition narrowAquifer : TAquifer := {|
  aq_ID := "AQ2";
  porosity := 0.43;
  wiltingPoint := 0.4295;
  fieldCapacity := 0.4297;
  conductivity := 0.5 / 43200;
  conductSlope := 10;
  tensionSlope := 15;
  upperEvapFrac := 0.35;
  lowerEvapDepth := 14;
  lowerLossCoeff := 0.002 / 43200;
  aq_bottomElev := 0;
  aq_waterTableElev := 2;
  aq_upperMoisture := 0.4296;
  upperEvapPat := (-1)%Z
|}.

Definition narrowProject : @SWMM_Project testExterns :=
  testStart (testInput narrowAquifer
               (Some (testGroundwater 6 0 (@MISSING testExterns)))
               None (testNode 3)).

(** A groundwater object whose own bottom elevation, 4 ft, is above the
    aquifer's water table, 2 ft; surface at 6 ft, node invert at 10 ft. *)
Definition perchedProject : @SWMM_Project testExterns :=
  testStart (testInput (testAquifer 2 0.25)
               (Some (testGroundwater 6 0 4)) None (testNode 10)).

(** A subcatchment like that of [testProject] whose water table, at 4 ft,
    is above the node invert at 3 ft, and whose groundwater coefficient a1
    is 0.001 with exponent b1 = 1: its lateral flow is not zero. *)
Definition testProjectOut : @SWMM_Project testExterns :=
  testStart
    (testInput (testAquifer 4 0.25)
       (Some {| aquifer := 0; node := 0; surfElev := 6; a1 := 0.001; b1 := 1;
                a2 := 0; b2 := 0; a3 := 0; fixedDepth := 0;
                nodeElev := @MISSING testExterns;
                bottomElev := @MISSING testExterns;
                waterTableElev := @MISSING testExterns;
                upperMoisture := @MISSING testExterns;
                theta := 0; lowerDepth := 0; oldFlow := 0; newFlow := 0;
                evapLoss := 0; maxInfilVol := 0 |})
       None (testNode 3)).
(** The groundwater object of [testProject] and the shared variables of
    three steps of 300 s: one with an infiltration volume of 4356 ft3, one
    of [testProjectLat] and one of [testProjectDeep]. *)
Definition testGw : TGroundwater := @gwobj testExterns testProject 0.

Definition testContext : @SWMM_Project testExterns :=
  @stepContext testExterns testProject 0 0 4356 300.

Definition testContextLat : @SWMM_Project testExterns :=
  @stepContext testExterns testProjectLat 0 0 0 300.

Definition testContextDeep : @SWMM_Project testExterns :=
  @stepContext testExterns testProjectDeep 0 0 0 300.

(* ------------------------------------------------------------------ *)
(** ** What a flux evaluation leaves alone *)

(** The project apart from the shared scratch record. *)
Definition outside {E : Externs} (sp : SWMM_Project) :=
  (Subcatch sp, Aquifer sp, Node sp, Pattern sp, Evap_rate sp,
   NewRunoffTime sp, ErrorLog sp, GwaterTotalsLog sp, GwaterStatsLog sp).

(** The shared variables that [gwater_getGroundwater] sets before the
    integration and that the flux functions only read. *)
Definition inputs {E : Externs} (sp : SWMM_Project) :=
  (GW (gwtr sp), LatFlowExpr (gwtr sp), DeepFlowExpr (gwtr sp), A (gwtr sp),
   FracPerv (gwtr sp), Area (gwtr sp), Infil (gwtr sp), Tstep (gwtr sp),
   MaxEvap (gwtr sp), AvailEvap (gwtr sp), TotalDepth (gwtr sp),
   Hstar (gwtr sp), Hsw (gwtr sp), MaxUpperPerc (gwtr sp),
   MaxGWFlowPos (gwtr sp), MaxGWFlowNeg (gwtr sp)).

(** Two projects that differ at most in the flux values of the scratch
    record: [Hgw], [Theta], [UpperEvap], [LowerEvap], [UpperPerc],
    [LowerLoss], [GWFlow] and [HydCon]. *)
Definition same_step {E : Externs} (s s' : SWMM_Project) : Prop :=
  outside s = outside s' /\ inputs s = inputs s'.

(** The contract of the integrator: it reaches the project only through the
    derivative function, so whatever every call of that function preserves
    holds of the project it returns. *)
Class OdeSolverOk {E : Externs} (O : OdeSolver) : Prop := {
  odesolve_calls_derivs :
    forall (P : SWMM_Project -> Prop) sp x n x1 x2 eps h1 derivs,
      P sp ->
      (forall s t y, P s -> P (fst (derivs s t y))) ->
      P (fst (odesolve_integrate sp x n x1 x2 eps h1 derivs))
}.

(** The shared variables that are final once the third test of
    [gwater_getGroundwater] is passed. *)
Definition ctx {E : Externs} (s : SWMM_Project) :=
  (GW (gwtr s), LatFlowExpr (gwtr s), DeepFlowExpr (gwtr s), A (gwtr s),
   FracPerv (gwtr s), Area (gwtr s), Infil (gwtr s), Tstep (gwtr s),
   MaxEvap (gwtr s), AvailEvap (gwtr s), TotalDepth (gwtr s)).

(** The scratch copies [Hgw] and [Theta] of the state at which the fluxes
    are evaluated. *)
Definition at_state {E : Externs} (s : SWMM_Project) : Q * Q :=
  (Hgw (gwtr s), Theta (gwtr s)).

(** What the shared variables of project [c] hold in a step of subcatchment
    [j] of project [sp], with groundwater object [gw], that passed the three
    tests. *)
Record StepCtx {E : Externs} (sp : SWMM_Project) (j : nat)
    (gw : TGroundwater) (evap infil tStep : Q) (c : SWMM_Project) : Prop := {
  ctx_GW : GW (gwtr c) = Some j;
  ctx_LatFlowExpr : LatFlowExpr (gwtr c) = gwLatFlowExpr (Subcatch sp !!! j);
  ctx_DeepFlowExpr :
    DeepFlowExpr (gwtr c) = gwDeepFlowExpr (Subcatch sp !!! j);
  ctx_A : A (gwtr c) = Aquifer sp !!! aquifer gw;
  ctx_FracPerv : FracPerv (gwtr c) = subcatch_getFracPerv j;
  ctx_Area : Area (gwtr c) = area (Subcatch sp !!! j);
  ctx_Infil : Infil (gwtr c) = infil / area (Subcatch sp !!! j) / tStep;
  ctx_Tstep : Tstep (gwtr c) = tStep;
  ctx_MaxEvap : MaxEvap (gwtr c) = Evap_rate sp * subcatch_getFracPerv j;
  ctx_AvailEvap :
    AvailEvap (gwtr c)
    = MAX (Evap_rate sp * subcatch_getFracPerv j
           - evap / area (Subcatch sp !!! j) / tStep) 0;
  ctx_TotalDepth : TotalDepth (gwtr c) = surfElev gw - bottomElev gw;
  ctx_MaxGWFlowPos :
    MaxGWFlowPos (gwtr c)
    = lowerDepth gw * porosity (Aquifer sp !!! aquifer gw) / tStep
}.

(* ------------------------------------------------------------------ *)
(** ** What a function leaves alone *)

(** The parameters of a groundwater object: the fields that
    [gwater_readGroundwaterParams] and [gwater_validate] set and that the
    simulation only reads. *)
Definition gw_params (gw : TGroundwater) :=
  (aquifer gw, node gw, surfElev gw, a1 gw, b1 gw, a2 gw, b2 gw, a3 gw,
   fixedDepth gw, nodeElev gw, bottomElev gw, waterTableElev gw,
   upperMoisture gw).

(** Project [s'] differs from project [s] at most in the groundwater object
    of subcatchment [j], in the shared scratch record and in the sinks. *)
Record only_groundwater {E : Externs} (j : nat) (s s' : SWMM_Project)
    : Prop := {
  og_length : length (Subcatch s') = length (Subcatch s);
  og_others : forall k, k <> j -> Subcatch s' !!! k = Subcatch s !!! k;
  og_ID : ID (Subcatch s' !!! j) = ID (Subcatch s !!! j);
  og_area : area (Subcatch s' !!! j) = area (Subcatch s !!! j);
  og_gwLatFlowExpr :
    gwLatFlowExpr (Subcatch s' !!! j) = gwLatFlowExpr (Subcatch s !!! j);
  og_gwDeepFlowExpr :
    gwDeepFlowExpr (Subcatch s' !!! j) = gwDeepFlowExpr (Subcatch s !!! j);
  og_Aquifer : Aquifer s' = Aquifer s;
  og_Node : Node s' = Node s;
  og_Pattern : Pattern s' = Pattern s;
  og_Evap_rate : Evap_rate s' = Evap_rate s;
  og_NewRunoffTime : NewRunoffTime s' = NewRunoffTime s
}.

(** The shared scratch record and the three sinks. *)
Definition scratch_and_sinks {E : Externs} (sp : SWMM_Project) :=
  (gwtr sp, ErrorLog sp, GwaterTotalsLog sp, GwaterStatsLog sp).

(** Project [s'] differs from project [s] at most in the groundwater object
    of subcatchment [j]. *)
Definition object_only {E : Externs} (j : nat) (s s' : SWMM_Project)
    : Prop :=
  only_groundwater j s s' /\ scratch_and_sinks s' = scratch_and_sinks s.

(** Project [s'] differs from project [s] at most in the groundwater object
    of subcatchment [j], in the flux part of the scratch record and in the
    mass-balance and statistics sinks. *)
Definition step_only {E : Externs} (j : nat) (s s' : SWMM_Project) : Prop :=
  only_groundwater j s s' /\ ErrorLog s' = ErrorLog s /\
  GW (gwtr s') = GW (gwtr s).

(** The flux values that [getFluxes] has computed when it turns to the deep
    loss: the two evaporation rates, the percolation rate and the
    unsaturated conductivity. *)
Definition upper_fluxes {E : Externs} (s : SWMM_Project) :=
  (UpperEvap (gwtr s), LowerEvap (gwtr s), UpperPerc (gwtr s),
   HydCon (gwtr s)).

(* ------------------------------------------------------------------ *)
(** ** Input lines

    The three functions of gwater.c that read a tokenized line of the input
    file.  The token array [tok] and its count [ntoks] are one list, read
    with the total lookup.  A return through
    [error_setInpError (sp, code, s)] is the value [inl (code, s)]; a return
    of 0 is [inr] of the project as the function leaves it. *)

(** Error codes that the three functions pass to [error_setInpError]. *)
Inductive InputError :=
  | ERR_ITEMS | ERR_NAME | ERR_NUMBER | ERR_KEYWORD | ERR_MEMORY
  | ERR_TREATMENT_EXPR.

(** Object categories that the three functions look names up in. *)
Inductive ObjectType := SUBCATCH | NODE | AQUIFER | TIMEPATTERN.

Definition Inp (T : Type) : Type := (InputError * string) + T.

Definition Inp_bind {T U : Type} (m : Inp T) (f : T -> Inp U) : Inp U :=
  match m with
  | inl e => inl e
  | inr x => f x
  end.

Notation "x <- m ;; k" := (Inp_bind m (fun x => k))
  (at level 100, m at next level, right associativity).

(** Collaborators of the input functions: project.c, input.c, keyword.c,
    mathexpr.c and the allocator.  The name tables that [project_findID]
    and [project_findObject] search are no part of the project record and
    are written by none of the functions here, so a lookup is a function of
    the category and the name; [None] is the null pointer and a negative
    index the name that is not found.  [getDouble] is [None] where the C
    function returns false.  [malloc_TGroundwater] is the object that
    [malloc] returns, with whatever its storage holds, or [None] when it
    returns a null pointer. *)
Class InputExterns {E : Externs} := {
  project_findID : ObjectType -> string -> option string;
  project_findObject : ObjectType -> string -> Z;
  getDouble : string -> option Q;
  strmatch : string -> string -> bool;
  findmatch : string -> list string -> Z;
  mathexpr_create : string -> (string -> Z) -> option MathExpr;
  malloc_TGroundwater : option TGroundwater
}.

#[global] Instance set_Aquifer {E : Externs} : Setter (@Aquifer E) :=
  fun v sp =>
    Build_SWMM_Project (Subcatch sp) v (Node sp) (Pattern sp) (Evap_rate sp)
      (NewRunoffTime sp) (GwaterShared sp) (ErrorLog sp) (GwaterTotalsLog sp)
      (GwaterStatsLog sp).
#[global] Instance set_gwLatFlowExpr {E : Externs}
    : Setter (@gwLatFlowExpr E) :=
  fun v sc =>
    Build_TSubcatch (ID sc) (area sc) (groundwater sc) v (gwDeepFlowExpr sc).
#[global] Instance set_gwDeepFlowExpr {E : Externs}
    : Setter (@gwDeepFlowExpr E) :=
  fun v sc =>
    Build_TSubcatch (ID sc) (area sc) (groundwater sc) (gwLatFlowExpr sc) v.

(** Names of GW variables that can be used in GW outflow expression. *)
Definition GWVarWords : list string :=
  ["HGW"; "HSW"; "HCB"; "HGS"; "KS"; "K"; "THETA"; "PHI"; "FI"; "FU"; "A"]%string.

Section Input.

Context {E : Externs} {I : InputExterns}.

Definition getVariableIndex (s : string) : Z :=
  let k := findmatch s GWVarWords in
  if (0 <=? k)%Z then k else (-1)%Z.

(** [getDouble] on each token in turn, up to the first that is not a number,
    which is the one reported. *)
Fixpoint getDoubles (toks : list string) : Inp (list Q) :=
  match toks with
  | [] => inr []
  | s :: rest =>
    match getDouble s with
    | None => inl (ERR_NUMBER, s)
    | Some v => x <- getDoubles rest ;; inr (v :: x)
    end
  end.

Definition gwater_readAquiferParams (sp : SWMM_Project) (j : nat)
    (tok : list string) : Inp SWMM_Project :=
  let ntoks := length tok in
  (* check that aquifer exists *)
  if (ntoks <? 13)%nat then inl (ERR_ITEMS, EmptyString) else
  match project_findID AQUIFER (tok !!! 0%nat) with
  | None => inl (ERR_NAME, tok !!! 0%nat)
  | Some id =>
    (* read remaining tokens as numbers *)
    x <- getDoubles (take 12 (drop 1 tok)) ;;
    (* read upper evap pattern if present *)
    p <- (if (13 <? ntoks)%nat then
            let p := project_findObject TIMEPATTERN (tok !!! 13%nat) in
            if (p <? 0)%Z then inl (ERR_NAME, tok !!! 13%nat) else inr p
          else inr (-1)%Z) ;;
    (* assign parameters to aquifer object *)
    inr (sp <| Aquifer :=
           <[ j := {| aq_ID := id;
                      porosity := x !!! 0%nat;
                      wiltingPoint := x !!! 1%nat;
                      fieldCapacity := x !!! 2%nat;
                      conductivity := x !!! 3%nat / UCF RAINFALL;
                      conductSlope := x !!! 4%nat;
                      tensionSlope := x !!! 5%nat / UCF LENGTH;
                      upperEvapFrac := x !!! 6%nat;
                      lowerEvapDepth := x !!! 7%nat / UCF LENGTH;
                      lowerLossCoeff := x !!! 8%nat / UCF RAINFALL;
                      aq_bottomElev := x !!! 9%nat / UCF LENGTH;
                      aq_waterTableElev := x !!! 10%nat / UCF LENGTH;
                      aq_upperMoisture := x !!! 11%nat;
                      upperEvapPat := p |} ]> (Aquifer sp) |>)
  end.

(** [*tok[m] != '*']: the token does not start with an asterisk. *)
Definition not_star (s : string) : bool := negb (String.prefix "*" s).

(** One round of the loop over the optional depth parameters: token [m], if
    it is there and does not start with an asterisk, as a number, over the
    length conversion factor when [convert] holds; [MISSING] otherwise. *)
Definition readOptional (tok : list string) (m : nat) (convert : bool)
    : Inp Q :=
  if (m <? length tok)%nat && not_star (tok !!! m) then
    match getDouble (tok !!! m) with
    | None => inl (ERR_NUMBER, tok !!! m)
    | Some v => inr (if convert then v / UCF LENGTH else v)
    end
  else inr MISSING.

Definition gwater_readGroundwaterParams (sp : SWMM_Project)
    (tok : list string) : Inp SWMM_Project :=
  let ntoks := length tok in
  (* check that specified subcatchment, aquifer & node exist *)
  if (ntoks <? 3)%nat then inl (ERR_ITEMS, EmptyString) else
  let j := project_findObject SUBCATCH (tok !!! 0%nat) in
  if (j <? 0)%Z then inl (ERR_NAME, tok !!! 0%nat) else
  (* check for enough tokens *)
  if (ntoks <? 11)%nat then inl (ERR_ITEMS, EmptyString) else
  (* check that specified aquifer and node exists *)
  let k := project_findObject AQUIFER (tok !!! 1%nat) in
  if (k <? 0)%Z then inl (ERR_NAME, tok !!! 1%nat) else
  let n := project_findObject NODE (tok !!! 2%nat) in
  if (n <? 0)%Z then inl (ERR_NAME, tok !!! 2%nat) else
  (* read in the flow parameters *)
  x <- getDoubles (take 7 (drop 3 tok)) ;;
  (* read in optional depth parameters *)
  x7 <- readOptional tok 10 true ;;
  x8 <- readOptional tok 11 true ;;
  x9 <- readOptional tok 12 true ;;
  x10 <- readOptional tok 13 false ;;
  (* create a groundwater flow object *)
  gw <- match groundwater (Subcatch sp !!! Z.to_nat j) with
        | None =>
          match malloc_TGroundwater with
          | None => inl (ERR_MEMORY, EmptyString)
          | Some gw => inr gw
          end
        | Some gw => inr gw
        end ;;
  (* populate the groundwater flow object with its parameters *)
  inr (sp <| Subcatch :=
         alter (fun sc => sc <| groundwater := Some
                  {| aquifer := Z.to_nat k;
                     node := Z.to_nat n;
                     surfElev := x !!! 0%nat / UCF LENGTH;
                     a1 := x !!! 1%nat;
                     b1 := x !!! 2%nat;
                     a2 := x !!! 3%nat;
                     b2 := x !!! 4%nat;
                     a3 := x !!! 5%nat;
                     fixedDepth := x !!! 6%nat / UCF LENGTH;
                     nodeElev := x7;
                     bottomElev := x8;
                     waterTableElev := x9;
                     upperMoisture := x10;
                     theta := theta gw;
                     lowerDepth := lowerDepth gw;
                     oldFlow := oldFlow gw;
                     newFlow := newFlow gw;
                     evapLoss := evapLoss gw;
                     maxInfilVol := maxInfilVol gw |} |>)
               (Z.to_nat j) (Subcatch sp) |>).


(** [match] of keyword.c decides which of the two flows the expression is
    for; the expression is the tokens from the third on, joined by single
    blanks ([strcpy] and [strcat] into a line buffer, whose bound is not
    modelled).  [mathexpr_delete] releases the storage of the expression the
    line replaces; storage is no part of this model, in which an expression
    is a value. *)
Definition gwater_readFlowExpression (sp : SWMM_Project)
    (tok : list string) : Inp SWMM_Project :=
  let ntoks := length tok in
  (* return if too few tokens *)
  if (ntoks <? 3)%nat then inl (ERR_ITEMS, EmptyString) else
  (* check that subcatchment exists *)
  let j := project_findObject SUBCATCH (tok !!! 0%nat) in
  if (j <? 0)%Z then inl (ERR_NAME, tok !!! 0%nat) else
  (* check if expression is for lateral or deep GW flow *)
  k <- (if strmatch (tok !!! 1%nat) "LAT" then inr 1%Z
        else if strmatch (tok !!! 1%nat) "DEEP" then inr 2%Z
        else inl (ERR_KEYWORD, tok !!! 1%nat)) ;;
  (* concatenate remaining tokens into a single string *)
  let exprStr :=
    fold_left (fun acc t => (acc ++ " " ++ t)%string) (drop 3 tok)
      (tok !!! 2%nat) in
  (* create a parsed expression tree from the string expr *)
  match mathexpr_create exprStr getVariableIndex with
  | None => inl (ERR_TREATMENT_EXPR, EmptyString)
  | Some expr =>
    (* save expression tree with the subcatchment *)
    inr (sp <| Subcatch :=
           alter (fun sc => if (k =? 1)%Z
                            then sc <| gwLatFlowExpr := Some expr |>
                            else sc <| gwDeepFlowExpr := Some expr |>)
                 (Z.to_nat j) (Subcatch sp) |>)
  end.

End Input.

(* ------------------------------------------------------------------ *)
(** ** A concrete configuration of the input functions

    Decimal numerals, one subcatchment S1, one aquifer AQ1 and one node N1,
    keywords matched as prefixes of a token, and a compiler that knows the
    spec's expression 2 * THETA. *)

(** The digits of a numeral, with at most one decimal point: the number
    without its point and the power of ten it is to be divided by. *)
Fixpoint testDigits (s : string) (acc scale : Z) (frac : bool)
    : option (Z * Z) :=
  match s with
  | EmptyString => Some (acc, scale)
  | String c rest =>
    let n := Z.of_N (Ascii.N_of_ascii c) in
    if (n =? 46)%Z then
      if frac then None else testDigits rest acc scale true
    else if (48 <=? n)%Z && (n <=? 57)%Z then
      testDigits rest (10 * acc + (n - 48))%Z
        (if frac then (10 * scale)%Z else scale) frac
    else None
  end.

Definition testGetDouble (s : string) : option Q :=
  match s with
  | EmptyString => None
  | String c rest =>
    if (Z.of_N (Ascii.N_of_ascii c) =? 45)%Z then
      match rest with
      | EmptyString => None
      | _ => (fun r => - (fst r # Z.to_pos (snd r))) <$>
             testDigits rest 0 1 false
      end
    else (fun r => fst r # Z.to_pos (snd r)) <$> testDigits s 0 1 false
  end.

Definition testFindObject (t : ObjectType) (s : string) : Z :=
  match t with
  | SUBCATCH => if String.eqb s "S1" then 0%Z else (-1)%Z
  | NODE => if String.eqb s "N1" then 0%Z else (-1)%Z
  | AQUIFER => if String.eqb s "AQ1" then 0%Z else (-1)%Z
  | TIMEPATTERN => (-1)%Z
  end.

Definition testMatch (s keyword : string) : bool := String.prefix keyword s.

Fixpoint testFindmatch (s : string) (keywords : list string) : Z :=
  match keywords with
  | [] => (-1)%Z
  | k :: rest =>
    if testMatch s k then 0%Z
    else let r := testFindmatch s rest in
         if (r <? 0)%Z then (-1)%Z else (r + 1)%Z
  end.

(** A compiler that knows one formula. *)
Definition testCreate (s : string) (index : string -> Z) : option TestExpr :=
  if String.eqb s "2 * THETA"
  then Some (EMul (ENum 2) (EVar (index "THETA"%string))) else None.

Definition testInputExterns : @InputExterns testExterns :=
  @Build_InputExterns testExterns
    (fun t s => if (0 <=? testFindObject t s)%Z then Some s else None)
    testFindObject testGetDouble testMatch testFindmatch testCreate
    (Some inhabitant).

(** The result of a line that is accepted, and [d] for one that is not. *)
Definition testAccepted {T : Type} (r : Inp T) (d : T) : T :=
  match r with
  | inr x => x
  | inl _ => d
  end.

(** A project whose objects are still to be read: one subcatchment without
    groundwater, one aquifer, one node. *)
Definition testBlank : @SWMM_Project testExterns :=
  testInput inhabitant None None (testNode 3).

(** The line of the aquifer of [testAquifer 2 0.25], in US units. *)
Definition testAquiferLine : list string :=
  ["AQ1"; "0.43"; "0.09"; "0.20"; "0.5"; "10"; "15"; "0.35"; "14"; "0.002";
   "0"; "2"; "0.25"]%string.

Definition testAquiferRead : @SWMM_Project testExterns :=
  testAccepted
    (@gwater_readAquiferParams testExterns testInputExterns testBlank 0
       testAquiferLine) testBlank.

(** The line of the groundwater object [testGroundwater 6 0 MISSING]: the
    ten mandatory items and an asterisk for the node elevation. *)
Definition testGroundwaterLine : list string :=
  ["S1"; "AQ1"; "N1"; "6"; "0"; "0"; "0"; "0"; "0"; "0"; "*"]%string.

Definition testGroundwaterRead : @SWMM_Project testExterns :=
  testAccepted
    (@gwater_readGroundwaterParams testExterns testInputExterns
       testAquiferRead testGroundwaterLine) testBlank.

(** The same line read again, for a subcatchment that has its object and
    its state. *)
Definition testGroundwaterReread : @SWMM_Project testExterns :=
  testAccepted
    (@gwater_readGroundwaterParams testExterns testInputExterns
       testProject testGroundwaterLine) testBlank.

(** The spec's deep-flow expression as a line of five tokens. *)
Definition testFlowLine : list string :=
  ["S1"; "DEEP"; "2"; "*"; "THETA"]%string.

Definition testFlowRead : @SWMM_Project testExterns :=
  testAccepted
    (@gwater_readFlowExpression testExterns testInputExterns testProject
       testFlowLine) testBlank.

(** The project of [testProject] before validation, and after the two
    validations. *)
Definition testRaw : @SWMM_Project testExterns :=
  testInput (testAquifer 2 0.25)
    (Some (testGroundwater 6 0 (@MISSING testExterns))) None (testNode 3).

Definition testValidated : @SWMM_Project testExterns :=
  @gwater_validate testExterns (@gwater_validateAquifer testExterns testRaw 0)
    0.

(** [testProject] after a restore of the state (0.3, 3, 0.001, 0.5). *)
Definition testRestored : @SWMM_Project testExterns :=
  @gwater_setState testExterns testProject 0 (0.3, 3, 0.001, 0.5).

(** The shared variables of a step of 300 s of a subcatchment like that of
    [testProject] whose interaction coefficient a3 is 0.0001. *)
Definition testContextA3 : @SWMM_Project testExterns :=
  @stepContext testExterns
    (testStart
       (testInput (testAquifer 2 0.25)
          (Some {| aquifer := 0; node := 0; surfElev := 6; a1 := 0; b1 := 0;
                   a2 := 0; b2 := 0; a3 := 0.0001; fixedDepth := 0;
                   nodeElev := @MISSING testExterns;
                   bottomElev := @MISSING testExterns;
                   waterTableElev := @MISSING testExterns;
                   upperMoisture := @MISSING testExterns;
                   theta := 0; lowerDepth := 0; oldFlow := 0; newFlow := 0;
                   evapLoss := 0; maxInfilVol := 0 |})
          None (testNode 3)))
    0 0 0 300.

(* ------------------------------------------------------------------ *)
(** ** The arithmetic of [double]

    Four functions of the file once more, over the kernel's binary64
    numbers: IEEE 754 double precision with rounding to nearest, ties to
    even, which is the arithmetic of a C [double].  They are the functions
    for which rounding decides a stated property: [gwater_getState],
    [gwater_setState], [gwater_getVolume] and [getEvapRates].  Each body is
    the source's, operation by operation and in the source's order; a
    decimal literal denotes the nearest binary64 number, as it does in C.
    The records hold the numeric fields of the structures ([ID] and the
    expression pointers, which the four functions do not touch, are left
    out), and the shared record holds the fields that [getEvapRates] reads
    or writes. *)
Module Binary64.

Import PrimFloat.
Local Open Scope float_scope.
#[local] Set Warnings "-inexact-float".

#[local] Instance float_inhabited : Inhabited float := populate 0.

(** [MIN] and [MAX] as above. *)
Definition MIN (x y : float) : float := if x <=? y then x else y.
Definition MAX (x y : float) : float := if y <=? x then x else y.

Record TAquifer := {
  porosity : float;
  wiltingPoint : float;
  fieldCapacity : float;
  conductivity : float;
  conductSlope : float;
  tensionSlope : float;
  upperEvapFrac : float;
  lowerEvapDepth : float;
  lowerLossCoeff : float;
  aq_bottomElev : float;
  aq_waterTableElev : float;
  aq_upperMoisture : float;
  upperEvapPat : Z
}.

Record TGroundwater := {
  aquifer : nat;
  node : nat;
  surfElev : float;
  a1 : float;
  b1 : float;
  a2 : float;
  b2 : float;
  a3 : float;
  fixedDepth : float;
  nodeElev : float;
  bottomElev : float;
  waterTableElev : float;
  upperMoisture : float;
  theta : float;
  lowerDepth : float;
  oldFlow : float;
  newFlow : float;
  evapLoss : float;
  maxInfilVol : float
}.

Record TSubcatch := {
  groundwater : option TGroundwater
}.

Record TPattern := {
  factor : list float
}.

Record TGwaterShared := {
  A : TAquifer;
  Infil : float;
  MaxEvap : float;
  AvailEvap : float;
  UpperEvap : float;
  LowerEvap : float
}.

Record SWMM_Project := {
  Subcatch : list TSubcatch;
  Aquifer : list TAquifer;
  Pattern : list TPattern;
  NewRunoffTime : float;
  GwaterShared : TGwaterShared
}.

#[local] Instance TAquifer_inhabited : Inhabited TAquifer :=
  populate (Build_TAquifer 0 0 0 0 0 0 0 0 0 0 0 0 0%Z).
#[local] Instance TSubcatch_inhabited : Inhabited TSubcatch :=
  populate (Build_TSubcatch None).
#[local] Instance TPattern_inhabited : Inhabited TPattern :=
  populate (Build_TPattern []).

Definition eta_TGroundwater (g : TGroundwater) : TGroundwater :=
  Build_TGroundwater (aquifer g) (node g) (surfElev g) (a1 g) (b1 g) (a2 g)
    (b2 g) (a3 g) (fixedDepth g) (nodeElev g) (bottomElev g)
    (waterTableElev g) (upperMoisture g) (theta g) (lowerDepth g)
    (oldFlow g) (newFlow g) (evapLoss g) (maxInfilVol g).

#[local] Instance set_theta : Setter theta :=
  ltac:(setter_of eta_TGroundwater theta).
#[local] Instance set_lowerDepth : Setter lowerDepth :=
  ltac:(setter_of eta_TGroundwater lowerDepth).
#[local] Instance set_oldFlow : Setter oldFlow :=
  ltac:(setter_of eta_TGroundwater oldFlow).
#[local] Instance set_maxInfilVol : Setter maxInfilVol :=
  ltac:(setter_of eta_TGroundwater maxInfilVol).

Definition eta_TGwaterShared (g : TGwaterShared) : TGwaterShared :=
  Build_TGwaterShared (A g) (Infil g) (MaxEvap g) (AvailEvap g) (UpperEvap g)
    (LowerEvap g).

#[local] Instance set_UpperEvap : Setter UpperEvap :=
  ltac:(setter_of eta_TGwaterShared UpperEvap).
#[local] Instance set_LowerEvap : Setter LowerEvap :=
  ltac:(setter_of eta_TGwaterShared LowerEvap).

Definition eta_SWMM_Project (sp : SWMM_Project) : SWMM_Project :=
  Build_SWMM_Project (Subcatch sp) (Aquifer sp) (Pattern sp)
    (NewRunoffTime sp) (GwaterShared sp).

#[local] Instance set_Subcatch : Setter Subcatch :=
  ltac:(setter_of eta_SWMM_Project Subcatch).
#[local] Instance set_GwaterShared : Setter GwaterShared :=
  ltac:(setter_of eta_SWMM_Project GwaterShared).

(** [gwtr->f = v] and a store into a field of
    [*(sp->Subcatch[k].groundwater)], as above. *)
Definition gwtr_wr {T : Type} (f : TGwaterShared -> T) `{!Setter f} (v : T)
    (sp : SWMM_Project) : SWMM_Project :=
  sp <| GwaterShared := (GwaterShared sp) <| f := v |> |>.

Definition gwobj (sp : SWMM_Project) (k : nat) : TGroundwater :=
  default (Build_TGroundwater 0 0 0 0 0 0 0 0 0 0 0 0 0 0 0 0 0 0 0)
    (groundwater (Subcatch sp !!! k)).

Definition gw_wr {T : Type} (k : nat) (f : TGroundwater -> T) `{!Setter f}
    (v : T) (sp : SWMM_Project) : SWMM_Project :=
  sp <| Subcatch :=
    alter (fun sc => Build_TSubcatch
                       ((fun g => g <| f := v |>) <$> groundwater sc))
          k (Subcatch sp) |>.

Section Functions.

(** consts.h and datetime.c. *)
Variable MISSING : float.
Variable getDateTime : float -> float.
Variable datetime_monthOfYear : float -> Z.

Definition gwater_getState (sp : SWMM_Project) (j : nat)
    : option (float * float * float * float) :=
  match groundwater (Subcatch sp !!! j) with
  | None => None
  | Some gw =>
    Some (theta gw, bottomElev gw + lowerDepth gw, newFlow gw, maxInfilVol gw)
  end.

Definition gwater_setState (sp : SWMM_Project) (j : nat)
    (x : float * float * float * float) : SWMM_Project :=
  let '(x0, x1, x2, x3) := x in
  match groundwater (Subcatch sp !!! j) with
  | None => sp
  | Some _ =>
    let sp := gw_wr j theta x0 sp in
    let sp := gw_wr j lowerDepth (x1 - bottomElev (gwobj sp j)) sp in
    let sp := gw_wr j oldFlow x2 sp in
    if negb (x3 =? MISSING) then gw_wr j maxInfilVol x3 sp else sp
  end.

Definition gwater_getVolume (sp : SWMM_Project) (j : nat) : float :=
  match groundwater (Subcatch sp !!! j) with
  | None => 0
  | Some gw =>
    let a := Aquifer sp !!! aquifer gw in
    let upperDepth := surfElev gw - bottomElev gw - lowerDepth gw in
    (upperDepth * theta gw) + (lowerDepth gw * porosity a)
  end.

Definition getEvapRates (sp : SWMM_Project) (theta upperDepth : float)
    : SWMM_Project :=
  (* no GW evaporation when infiltration is occurring *)
  let sp := gwtr_wr UpperEvap 0 sp in
  let sp := gwtr_wr LowerEvap 0 sp in
  if 0 <? Infil (GwaterShared sp) then sp else
  (* get monthly-adjusted upper zone evap fraction *)
  let upperFrac := upperEvapFrac (A (GwaterShared sp)) in
  let f := 1 in
  let p := upperEvapPat (A (GwaterShared sp)) in
  let f :=
    if (0 <=? p)%Z then
      let month := datetime_monthOfYear (getDateTime (NewRunoffTime sp)) in
      factor (Pattern sp !!! Z.to_nat p) !!! Z.to_nat (month - 1)
    else f in
  let upperFrac := upperFrac * f in
  (* upper zone evaporation requires that soil moisture be above the
     wilting point *)
  let sp :=
    if wiltingPoint (A (GwaterShared sp)) <? theta then
      let sp := gwtr_wr UpperEvap (upperFrac * MaxEvap (GwaterShared sp)) sp in
      gwtr_wr UpperEvap
        (MIN (UpperEvap (GwaterShared sp)) (AvailEvap (GwaterShared sp))) sp
    else sp in
  (* check if lower zone evaporation is possible *)
  if 0 <? lowerEvapDepth (A (GwaterShared sp)) then
    let lowerFrac := (lowerEvapDepth (A (GwaterShared sp)) - upperDepth) /
                     lowerEvapDepth (A (GwaterShared sp)) in
    let lowerFrac := MAX 0 lowerFrac in
    let lowerFrac := MIN lowerFrac 1 in
    let sp := gwtr_wr LowerEvap
                (lowerFrac * (1 - upperFrac) * MaxEvap (GwaterShared sp))
                sp in
    gwtr_wr LowerEvap
      (MIN (LowerEvap (GwaterShared sp))
           (AvailEvap (GwaterShared sp) - UpperEvap (GwaterShared sp)))
      sp
  else sp.

End Functions.

(** The soil of the spec's scenario. *)
Definition testAquifer : TAquifer := {|
  porosity := 0.43;
  wiltingPoint := 0.09;
  fieldCapacity := 0.20;
  conductivity := 0.5 / 43200;
  conductSlope := 10;
  tensionSlope := 15;
  upperEvapFrac := 0.35;
  lowerEvapDepth := 14;
  lowerLossCoeff := 0.002 / 43200;
  aq_bottomElev := 0;
  aq_waterTableElev := 2;
  aq_upperMoisture := 0.25;
  upperEvapPat := (-1)%Z
|}.

(** A project of one subcatchment whose groundwater object has the bottom
    elevation [bottom], the surface 6 ft above it, and the state [th],
    [depth]; the lateral flow is [flow] and the infiltration capacity
    0.5. *)
Definition testProject (bottom th depth flow : float) : SWMM_Project := {|
  Subcatch :=
    [ {| groundwater := Some {|
           aquifer := 0; node := 0; surfElev := bottom + 6;
           a1 := 0; b1 := 0; a2 := 0; b2 := 0; a3 := 0; fixedDepth := 0;
           nodeElev := -1e10; bottomElev := bottom;
           waterTableElev := bottom + 2; upperMoisture := 0.25;
           theta := th; lowerDepth := depth; oldFlow := flow;
           newFlow := flow; evapLoss := 0; maxInfilVol := 0.5 |} |} ];
  Aquifer := [testAquifer];
  Pattern := [];
  NewRunoffTime := 0;
  GwaterShared := Build_TGwaterShared testAquifer 0 0 0 0 0
|}.

(** The shared variables as lines 497 to 506 leave them for an evaporation
    rate of 0.0000005 ft/s, a pervious fraction of 1, and a surface
    evaporation volume of 0.7 ft3 over one acre in 300 s. *)
Definition testEvap : SWMM_Project :=
  let evap := 0.7 / 43560 / 300 in
  let maxEvap := 0.0000005 * 1 in
  (testProject 0 0.25 4 0)
    <| GwaterShared :=
         Build_TGwaterShared testAquifer 0 maxEvap (MAX (maxEvap - evap) 0)
           0 0 |>.

End Binary64.

(* ------------------------------------------------------------------ *)
(** ** Comparisons, [MIN] and [MAX] *)

Lemma Qleb_true x y : Qleb x y = true <-> x <= y.
Proof. apply Qle_bool_iff. Qed.

Lemma Qleb_false x y : Qleb x y = false <-> y < x.
Proof.
  unfold Qleb. rewrite <- not_true_iff_false, Qle_bool_iff.
  split; [apply Qnot_le_lt | apply Qlt_not_le].
Qed.

Lemma Qgeb_true x y : Qgeb x y = true <-> y <= x.
Proof. apply Qleb_true. Qed.

Lemma Qgeb_false x y : Qgeb x y = false <-> x < y.
Proof. apply Qleb_false. Qed.

Lemma Qltb_true x y : Qltb x y = true <-> x < y.
Proof. unfold Qltb. rewrite negb_true_iff. apply Qleb_false. Qed.

Lemma Qltb_false x y : Qltb x y = false <-> y <= x.
Proof. unfold Qltb. rewrite negb_false_iff. apply Qleb_true. Qed.

Lemma Qgtb_true x y : Qgtb x y = true <-> y < x.
Proof. unfold Qgtb. rewrite negb_true_iff. apply Qleb_false. Qed.

Lemma Qgtb_false x y : Qgtb x y = false <-> x <= y.
Proof. unfold Qgtb. rewrite negb_false_iff. apply Qleb_true. Qed.

Lemma Qeqb_true x y : Qeqb x y = true <-> x == y.
Proof. apply Qeq_bool_iff. Qed.

Lemma Qeqb_false x y : Qeqb x y = false <-> ~ x == y.
Proof.
  unfold Qeqb. rewrite <- not_true_iff_false, Qeq_bool_iff. tauto.
Qed.

Lemma Qneb_true x y : Qneb x y = true <-> ~ x == y.
Proof. unfold Qneb. rewrite negb_true_iff. apply Qeqb_false. Qed.

Lemma Qneb_false x y : Qneb x y = false <-> x == y.
Proof. unfold Qneb. rewrite negb_false_iff. apply Qeqb_true. Qed.

(** Case analysis on a comparison of the goal whose operands hold no
    conditional (so that inner tests are decided before outer ones); the
    outcome is left as an order hypothesis. *)
Ltac no_if t :=
  lazymatch t with
  | context [if _ then _ else _] => fail
  | _ => idtac
  end.

Ltac qcase_on c lem_true lem_false :=
  let H := fresh "Hc" in
  destruct c eqn:H; [apply lem_true in H | apply lem_false in H].

Ltac qcase :=
  match goal with
  | |- context [Qleb ?x ?y] =>
    no_if x; no_if y; qcase_on (Qleb x y) Qleb_true Qleb_false
  | |- context [Qgeb ?x ?y] =>
    no_if x; no_if y; qcase_on (Qgeb x y) Qgeb_true Qgeb_false
  | |- context [Qltb ?x ?y] =>
    no_if x; no_if y; qcase_on (Qltb x y) Qltb_true Qltb_false
  | |- context [Qgtb ?x ?y] =>
    no_if x; no_if y; qcase_on (Qgtb x y) Qgtb_true Qgtb_false
  | |- context [Qeqb ?x ?y] =>
    no_if x; no_if y; qcase_on (Qeqb x y) Qeqb_true Qeqb_false
  | |- context [Qneb ?x ?y] =>
    no_if x; no_if y; qcase_on (Qneb x y) Qneb_true Qneb_false
  end.

Lemma MIN_spec x y : (x <= y /\ MIN x y = x) \/ (y < x /\ MIN x y = y).
Proof. unfold MIN. qcase; auto. Qed.

Lemma MAX_spec x y : (y <= x /\ MAX x y = x) \/ (x < y /\ MAX x y = y).
Proof. unfold MAX. qcase; auto. Qed.

Lemma MIN_le_l x y : MIN x y <= x.
Proof. destruct (MIN_spec x y) as [[? ->]|[? ->]]; lra. Qed.

Lemma MIN_le_r x y : MIN x y <= y.
Proof. destruct (MIN_spec x y) as [[? ->]|[? ->]]; lra. Qed.

Lemma MAX_ge_l x y : x <= MAX x y.
Proof. destruct (MAX_spec x y) as [[? ->]|[? ->]]; lra. Qed.

Lemma MAX_ge_r x y : y <= MAX x y.
Proof. destruct (MAX_spec x y) as [[? ->]|[? ->]]; lra. Qed.

Section Properties.

Context {E : Externs} {O : OdeSolver}.

(* ------------------------------------------------------------------ *)
(** ** Stores into a groundwater object *)

Lemma gw_wr_groundwater {T : Type} (f : TGroundwater -> T) `{!Setter f}
    (v : T) (sp : SWMM_Project) (j : nat) :
  groundwater (Subcatch (gw_wr j f v sp) !!! j) =
  (fun g => g <| f := v |>) <$> groundwater (Subcatch sp !!! j).
Proof.
  unfold gw_wr. cbn. rewrite list_lookup_total_alter.
  case_decide as Hd; [reflexivity|].
  assert (Hlen : (length (Subcatch sp) <= j)%nat).
  { destruct (decide (j < length (Subcatch sp))%nat); [tauto | lia]. }
  rewrite list_lookup_total_alt, (lookup_ge_None_2 _ _ Hlen). reflexivity.
Qed.

Lemma gw_wr_gwobj {T : Type} (f : TGroundwater -> T) `{!Setter f}
    (v : T) (sp : SWMM_Project) (j : nat) (g : TGroundwater) :
  groundwater (Subcatch sp !!! j) = Some g ->
  groundwater (Subcatch (gw_wr j f v sp) !!! j) = Some (g <| f := v |>) /\
  gwobj (gw_wr j f v sp) j = g <| f := v |>.
Proof.
  intros Hg. unfold gwobj. rewrite gw_wr_groundwater, Hg. split; reflexivity.
Qed.

Lemma gwobj_of (sp : SWMM_Project) (j : nat) (gw : TGroundwater) :
  groundwater (Subcatch sp !!! j) = Some gw -> gwobj sp j = gw.
Proof. intros H. unfold gwobj. rewrite H. reflexivity. Qed.

Lemma gw_ptr_some (sp : SWMM_Project) (j : nat) (gw : TGroundwater) :
  groundwater (Subcatch sp !!! j) = Some gw -> gw_ptr sp j = Some j.
Proof. intros H. unfold gw_ptr. rewrite H. reflexivity. Qed.

Lemma GWobj_eq (s : SWMM_Project) (j : nat) (gw : TGroundwater) :
  GW (gwtr s) = Some j -> groundwater (Subcatch s !!! j) = Some gw ->
  GWobj s = gw.
Proof. intros H1 H2. unfold GWobj, gwobj. rewrite H1, H2. reflexivity. Qed.

(** A store through [gwtr->GW] changes one field of the object and nothing
    of the scratch record or of the two sinks. *)
Lemma GW_wr_spec {T : Type} (f : TGroundwater -> T) `{!Setter f} (v : T)
    (s : SWMM_Project) (j : nat) (gw : TGroundwater) :
  GW (gwtr s) = Some j -> groundwater (Subcatch s !!! j) = Some gw ->
  let s' := GW_wr f v s in
  gwtr s' = gwtr s /\
  groundwater (Subcatch s' !!! j) = Some (gw <| f := v |>) /\
  GwaterTotalsLog s' = GwaterTotalsLog s /\
  GwaterStatsLog s' = GwaterStatsLog s.
Proof.
  intros H1 H2 s'. subst s'. unfold GW_wr. rewrite H1.
  destruct (gw_wr_gwobj f v s j gw H2) as [H3 _].
  repeat split; try reflexivity. exact H3.
Qed.

(* ------------------------------------------------------------------ *)
(** ** Snapshot and restore *)

Lemma gwater_setState_stored (sp : SWMM_Project) (j : nat)
    (gw : TGroundwater) (x0 x1 x2 x3 : Q) :
  groundwater (Subcatch sp !!! j) = Some gw ->
  exists gw',
    groundwater (Subcatch (gwater_setState sp j (x0, x1, x2, x3)) !!! j)
    = Some gw' /\
    theta gw' = x0 /\ lowerDepth gw' = x1 - bottomElev gw /\
    bottomElev gw' = bottomElev gw /\
    maxInfilVol gw' = (if Qneb x3 MISSING then x3 else maxInfilVol gw).
Proof.
  intros Hg. unfold gwater_setState. rewrite Hg. cbv zeta.
  destruct (gw_wr_gwobj theta x0 sp j gw Hg) as [H1 H1'].
  rewrite H1'.
  destruct (gw_wr_gwobj lowerDepth (x1 - bottomElev (gw <| theta := x0 |>))
              _ j _ H1) as [H2 _].
  destruct (gw_wr_gwobj oldFlow x2 _ j _ H2) as [H3 _].
  destruct (Qneb x3 MISSING).
  - destruct (gw_wr_gwobj maxInfilVol x3 _ j _ H3) as [H4 _].
    eexists. split; [exact H4|]. cbn. repeat split; reflexivity.
  - eexists. split; [exact H3|]. cbn. repeat split; reflexivity.
Qed.

(** C1, as the code has it.  A snapshot [x] is taken with
    [gwater_getState] in one state of a subcatchment with groundwater and
    restored with [gwater_setState] in any state of it.  The restore stores
    theta as it is in [x], the maximum infiltration capacity as it is in [x]
    unless that element is [MISSING], and the lower depth x[1] - bottomElev;
    the snapshot taken after the restore returns that theta, that capacity,
    and the elevation bottomElev + (x[1] - bottomElev), the expression the
    code evaluates, which is x[1] up to the rounding of the two operations.
    A restore whose fourth element is [MISSING] leaves the stored capacity
    as it was.  Nothing is stated of the third element. *)
Theorem gwater_setState_getState (sp sp0 : SWMM_Project) (j : nat)
    (gw gw0 : TGroundwater) :
  groundwater (Subcatch sp !!! j) = Some gw ->
  groundwater (Subcatch sp0 !!! j) = Some gw0 ->
  let x := (theta gw, bottomElev gw + lowerDepth gw, newFlow gw,
            maxInfilVol gw) in
  let sp' := gwater_setState sp0 j x in
  gwater_getState sp j = Some x /\
  (exists gw' x',
     groundwater (Subcatch sp' !!! j) = Some gw' /\
     theta gw' = theta gw /\
     lowerDepth gw' = bottomElev gw + lowerDepth gw - bottomElev gw0 /\
     maxInfilVol gw'
     = (if Qneb (maxInfilVol gw) MISSING then maxInfilVol gw
        else maxInfilVol gw0) /\
     gwater_getState sp' j = Some x' /\
     fst (fst (fst x')) = theta gw /\
     snd (fst (fst x'))
     = bottomElev gw0 + (bottomElev gw + lowerDepth gw - bottomElev gw0) /\
     snd x' = maxInfilVol gw') /\
  (forall x0 x1 x2 x3, x3 == MISSING ->
     maxInfilVol (gwobj (gwater_setState sp0 j (x0, x1, x2, x3)) j)
     = maxInfilVol gw0).
Proof.
  intros Hg Hg0 x sp'. subst sp' x.
  split; [unfold gwater_getState; rewrite Hg; reflexivity|]. split.
  - destruct (gwater_setState_stored sp0 j gw0 (theta gw)
                (bottomElev gw + lowerDepth gw) (newFlow gw) (maxInfilVol gw)
                Hg0) as (gw' & Hgw' & Ht & Hl & Hb & Hm).
    exists gw'. eexists. split; [exact Hgw'|]. split; [exact Ht|].
    split; [exact Hl|]. split; [exact Hm|].
    split; [unfold gwater_getState; rewrite Hgw'; reflexivity|].
    cbn [fst snd]. rewrite Hb, Hl.
    split; [exact Ht|]. split; reflexivity.
  - intros x0 x1 x2 x3 Hx.
    destruct (gwater_setState_stored sp0 j gw0 x0 x1 x2 x3 Hg0)
      as (gw' & Hgw' & _ & _ & _ & Hm).
    rewrite (gwobj_of _ _ _ Hgw'), Hm.
    apply Qneb_false in Hx. rewrite Hx. reflexivity.
Qed.

(* ------------------------------------------------------------------ *)
(** ** Stored volume *)

Lemma gwater_getVolume_of (sp : SWMM_Project) (j : nat) (gw : TGroundwater) :
  groundwater (Subcatch sp !!! j) = Some gw ->
  gwater_getVolume sp j
  = (surfElev gw - bottomElev gw - lowerDepth gw) * theta gw
    + lowerDepth gw * porosity (Aquifer sp !!! aquifer gw).
Proof. intros Hg. unfold gwater_getVolume. rewrite Hg. reflexivity. Qed.

(** C8, as the code has it.  With groundwater enabled, [gwater_getVolume]
    returns (totalDepth - lowerDepth) * theta + lowerDepth * porosity, where
    totalDepth = surfElev - bottomElev; with everything else fixed this
    value does not decrease when theta grows (given lowerDepth <=
    totalDepth); and without groundwater the function returns 0.  Nothing
    is stated of a growing lower depth. *)
Theorem gwater_getVolume_theta_monotone (sp : SWMM_Project) (j : nat) :
  (groundwater (Subcatch sp !!! j) = None -> gwater_getVolume sp j = 0) /\
  (forall gw, groundwater (Subcatch sp !!! j) = Some gw ->
     let totalDepth := surfElev gw - bottomElev gw in
     let phi := porosity (Aquifer sp !!! aquifer gw) in
     gwater_getVolume sp j
     = (totalDepth - lowerDepth gw) * theta gw + lowerDepth gw * phi /\
     (forall t1 t2, lowerDepth gw <= totalDepth -> t1 <= t2 ->
        gwater_getVolume (gw_wr j theta t1 sp) j
        <= gwater_getVolume (gw_wr j theta t2 sp) j)).
Proof.
  split.
  - intros Hg. unfold gwater_getVolume. rewrite Hg. reflexivity.
  - intros gw Hg totalDepth phi. subst totalDepth phi.
    split; [apply (gwater_getVolume_of _ _ _ Hg)|].
    intros t1 t2 Hd Ht.
    rewrite (gwater_getVolume_of _ _ _
               (proj1 (gw_wr_gwobj theta t1 sp j gw Hg))).
    rewrite (gwater_getVolume_of _ _ _
               (proj1 (gw_wr_gwobj theta t2 sp j gw Hg))).
    cbn. nra.
Qed.

(* ------------------------------------------------------------------ *)
(** ** Evaporation *)

Lemma getEvapRates_infiltrating (sp : SWMM_Project) (theta upperDepth : Q) :
  0 < Infil (gwtr sp) ->
  getEvapRates sp theta upperDepth
  = gwtr_wr LowerEvap 0 (gwtr_wr UpperEvap 0 sp).
Proof.
  intros H. apply Qgtb_true in H. unfold getEvapRates. cbv zeta.
  cbn [GwaterShared gwtr_wr set set_GwaterShared set_LowerEvap set_UpperEvap
       Infil].
  rewrite H. reflexivity.
Qed.

(** C3.  When the surface infiltration rate of the step is positive,
    [getEvapRates] leaves both the upper-zone and the lower-zone evaporation
    rate at exactly 0, whatever theta, the upper-zone depth and the
    evaporation parameters are. *)
Theorem getEvapRates_zero_when_infiltrating (sp : SWMM_Project)
    (theta upperDepth : Q) :
  0 < Infil (gwtr sp) ->
  UpperEvap (gwtr (getEvapRates sp theta upperDepth)) = 0 /\
  LowerEvap (gwtr (getEvapRates sp theta upperDepth)) = 0.
Proof.
  intros H. rewrite (getEvapRates_infiltrating _ _ _ H). split; reflexivity.
Qed.

(** C10, as the code has it.  With a non-negative available evaporation
    rate, the upper-zone rate that [getEvapRates] computes is at most that
    rate, and the lower-zone rate is at most AvailEvap - UpperEvap, the
    difference that the code computes as the cap of the lower-zone rate.
    The available rate is not negative in the shared variables of any
    step, where it is MAX (MaxEvap - evap) 0. *)
Theorem getEvapRates_within_AvailEvap (sp : SWMM_Project)
    (theta upperDepth : Q) :
  let sp' := getEvapRates sp theta upperDepth in
  (0 <= AvailEvap (gwtr sp) ->
   UpperEvap (gwtr sp') <= AvailEvap (gwtr sp) /\
   LowerEvap (gwtr sp') <= AvailEvap (gwtr sp) - UpperEvap (gwtr sp')) /\
  (forall sp0 j gw evap infil tStep,
     StepCtx sp0 j gw evap infil tStep sp -> 0 <= AvailEvap (gwtr sp)).
Proof.
  intros sp'. subst sp'. split.
  - intros H. unfold getEvapRates. cbn.
    repeat (qcase; cbn);
      repeat match goal with
      | |- context [MIN ?a ?b] =>
        lazymatch goal with
        | _ : MIN a b <= b |- _ => fail
        | _ => pose proof (MIN_le_r a b)
        end
      end;
      split; lra.
  - intros sp0 j gw evap infil tStep Hc.
    rewrite (ctx_AvailEvap _ _ _ _ _ _ _ Hc). apply MAX_ge_r.
Qed.

(* ------------------------------------------------------------------ *)
(** ** Built-in lateral flow *)

Lemma getGWFlow_below (sp : SWMM_Project) (lowerDepth : Q) :
  lowerDepth <= Hstar (gwtr sp) -> getGWFlow sp lowerDepth = 0.
Proof.
  intros H. unfold getGWFlow. apply Qleb_true in H. rewrite H. reflexivity.
Qed.

(** C6.  Above [Hstar], when the combined flow [q] (groundwater term minus
    surface-water term plus interaction term, over the flow conversion
    factor) is negative, [getGWFlow] returns 0 if the coefficient [a3] is
    not zero and returns [q] itself if [a3] is zero; so the negative flow is
    replaced by zero exactly when [a3] is not zero. *)
Theorem getGWFlow_negative (sp : SWMM_Project) (lowerDepth : Q) :
  Hstar (gwtr sp) < lowerDepth ->
  getGWFlow_q sp lowerDepth < 0 ->
  (~ a3 (GWobj sp) == 0 -> getGWFlow sp lowerDepth = 0) /\
  (a3 (GWobj sp) == 0 ->
   getGWFlow sp lowerDepth = getGWFlow_q sp lowerDepth) /\
  (getGWFlow sp lowerDepth == 0 <-> ~ a3 (GWobj sp) == 0).
Proof.
  intros H1 H2. unfold getGWFlow. cbv zeta.
  pose proof H2 as H2'.
  apply Qleb_false in H1. rewrite H1. apply Qltb_true in H2. rewrite H2.
  cbn [andb].
  destruct (Qneb (a3 (GWobj sp)) 0) eqn:H3;
    [apply Qneb_true in H3 | apply Qneb_false in H3].
  - split; [reflexivity|]. split; [tauto|]. split; [tauto | reflexivity].
  - split; [tauto|]. split; [reflexivity|]. split; [lra | tauto].
Qed.

(* ------------------------------------------------------------------ *)
(** ** What the flux functions leave alone *)

Lemma outside_inv (s s' : SWMM_Project) :
  outside s = outside s' ->
  Subcatch s = Subcatch s' /\ Aquifer s = Aquifer s' /\ Node s = Node s' /\
  Pattern s = Pattern s' /\ Evap_rate s = Evap_rate s' /\
  NewRunoffTime s = NewRunoffTime s' /\ ErrorLog s = ErrorLog s' /\
  GwaterTotalsLog s = GwaterTotalsLog s' /\
  GwaterStatsLog s = GwaterStatsLog s'.
Proof.
  unfold outside. intros H. injection H. intros. repeat split; assumption.
Qed.

Lemma ctx_inv (s s' : SWMM_Project) :
  ctx s = ctx s' ->
  GW (gwtr s) = GW (gwtr s') /\
  LatFlowExpr (gwtr s) = LatFlowExpr (gwtr s') /\
  DeepFlowExpr (gwtr s) = DeepFlowExpr (gwtr s') /\
  A (gwtr s) = A (gwtr s') /\
  FracPerv (gwtr s) = FracPerv (gwtr s') /\ Area (gwtr s) = Area (gwtr s') /\
  Infil (gwtr s) = Infil (gwtr s') /\ Tstep (gwtr s) = Tstep (gwtr s') /\
  MaxEvap (gwtr s) = MaxEvap (gwtr s') /\
  AvailEvap (gwtr s) = AvailEvap (gwtr s') /\
  TotalDepth (gwtr s) = TotalDepth (gwtr s').
Proof.
  unfold ctx. intros H. injection H. intros. repeat split; assumption.
Qed.

Lemma inputs_inv (s s' : SWMM_Project) :
  inputs s = inputs s' ->
  ctx s = ctx s' /\ Hstar (gwtr s) = Hstar (gwtr s') /\
  Hsw (gwtr s) = Hsw (gwtr s') /\
  MaxUpperPerc (gwtr s) = MaxUpperPerc (gwtr s') /\
  MaxGWFlowPos (gwtr s) = MaxGWFlowPos (gwtr s') /\
  MaxGWFlowNeg (gwtr s) = MaxGWFlowNeg (gwtr s').
Proof.
  unfold inputs, ctx. intros H. injection H. intros.
  repeat split; congruence.
Qed.

Lemma same_step_refl (s : SWMM_Project) : same_step s s.
Proof. split; reflexivity. Qed.

Lemma same_step_trans (s1 s2 s3 : SWMM_Project) :
  same_step s1 s2 -> same_step s2 s3 -> same_step s1 s3.
Proof. intros [? ?] [? ?]; split; congruence. Qed.

Lemma same_step_inv (s s' : SWMM_Project) :
  same_step s s' ->
  Subcatch s = Subcatch s' /\ GwaterTotalsLog s = GwaterTotalsLog s' /\
  GwaterStatsLog s = GwaterStatsLog s' /\ inputs s = inputs s' /\
  GW (gwtr s) = GW (gwtr s').
Proof.
  intros [Ho Hi].
  destruct (outside_inv _ _ Ho) as (? & _ & _ & _ & _ & _ & _ & ? & ?).
  destruct (inputs_inv _ _ Hi) as (Hc & _). apply ctx_inv in Hc.
  destruct Hc as (? & _). auto.
Qed.

Lemma getEvapRates_same (sp : SWMM_Project) (theta upperDepth : Q) :
  same_step (getEvapRates sp theta upperDepth) sp.
Proof.
  unfold getEvapRates. cbn. repeat (qcase; cbn); split; reflexivity.
Qed.

Lemma getUpperPerc_same (sp : SWMM_Project) (theta upperDepth : Q) :
  same_step (snd (getUpperPerc sp theta upperDepth)) sp.
Proof.
  unfold getUpperPerc. cbn. destruct (_ || _); split; reflexivity.
Qed.

Lemma getFluxes_perc_same (sp : SWMM_Project) (theta upperDepth : Q) :
  same_step (getFluxes_perc sp theta upperDepth) sp.
Proof.
  unfold getFluxes_perc. cbv zeta.
  eapply same_step_trans; [|apply (getUpperPerc_same sp theta upperDepth)].
  split; reflexivity.
Qed.

Lemma getFluxes_deep_same (sp : SWMM_Project) (lowerDepth : Q) :
  same_step (getFluxes_deep sp lowerDepth) sp.
Proof.
  unfold getFluxes_deep. cbv zeta.
  destruct (DeepFlowExpr (gwtr sp)); split; reflexivity.
Qed.

Lemma getFluxes_lateral_same (sp : SWMM_Project) (lowerDepth : Q) :
  same_step (getFluxes_lateral sp lowerDepth) sp.
Proof.
  unfold getFluxes_lateral. cbv zeta.
  cbn [GwaterShared gwtr_wr set set_GwaterShared set_GWFlow LatFlowExpr].
  destruct (LatFlowExpr (gwtr sp)); qcase; split; reflexivity.
Qed.

Lemma getFluxes_same (sp : SWMM_Project) (theta lowerDepth : Q) :
  same_step (getFluxes sp theta lowerDepth) sp.
Proof.
  unfold getFluxes. cbv zeta.
  eapply same_step_trans; [apply getFluxes_lateral_same|].
  eapply same_step_trans; [apply getFluxes_deep_same|].
  eapply same_step_trans; [apply getFluxes_perc_same|].
  eapply same_step_trans; [apply getEvapRates_same|].
  split; reflexivity.
Qed.

Lemma getDxDt_same (sp : SWMM_Project) (t : Q) (x : Q * Q) :
  same_step (fst (getDxDt sp t x)) sp.
Proof. unfold getDxDt. cbv zeta. cbn [fst]. apply getFluxes_same. Qed.

Lemma odesolve_same `{!OdeSolverOk O} (c : SWMM_Project) (x : Q * Q)
    (n : Z) (x1 x2 eps h1 : Q) :
  same_step (fst (odesolve_integrate c x n x1 x2 eps h1 getDxDt)) c.
Proof.
  apply (odesolve_calls_derivs (fun s => same_step s c)).
  - apply same_step_refl.
  - intros s t y Hs. eapply same_step_trans; [apply getDxDt_same | exact Hs].
Qed.

Lemma getEvapRates_at (s : SWMM_Project) (theta upperDepth : Q) :
  at_state (getEvapRates s theta upperDepth) = at_state s.
Proof. unfold getEvapRates. cbn. repeat (qcase; cbn); reflexivity. Qed.

Lemma getFluxes_perc_at (s : SWMM_Project) (theta upperDepth : Q) :
  at_state (getFluxes_perc s theta upperDepth) = at_state s.
Proof.
  unfold getFluxes_perc, getUpperPerc. cbv zeta.
  destruct (_ || _); reflexivity.
Qed.

Lemma getFluxes_deep_at (s : SWMM_Project) (lowerDepth : Q) :
  at_state (getFluxes_deep s lowerDepth) = at_state s.
Proof.
  unfold getFluxes_deep. cbv zeta.
  destruct (DeepFlowExpr (gwtr s)); reflexivity.
Qed.

Lemma getFluxes_lateral_at (s : SWMM_Project) (lowerDepth : Q) :
  at_state (getFluxes_lateral s lowerDepth) = at_state s.
Proof.
  unfold getFluxes_lateral. cbv zeta.
  cbn [GwaterShared gwtr_wr set set_GwaterShared set_GWFlow LatFlowExpr].
  destruct (LatFlowExpr (gwtr s)); qcase; reflexivity.
Qed.

(** [getFluxes] records the depth it evaluates the fluxes at, the lower
    depth brought into [0, TotalDepth], in [Hgw], and theta in [Theta]. *)
Lemma getFluxes_at (s : SWMM_Project) (theta lowerDepth : Q) :
  Hgw (gwtr (getFluxes s theta lowerDepth))
  = MIN (MAX lowerDepth 0) (TotalDepth (gwtr s)) /\
  Theta (gwtr (getFluxes s theta lowerDepth)) = theta.
Proof.
  assert (H : at_state (getFluxes s theta lowerDepth)
              = (MIN (MAX lowerDepth 0) (TotalDepth (gwtr s)), theta)).
  { unfold getFluxes. cbv zeta.
    rewrite getFluxes_lateral_at, getFluxes_deep_at, getFluxes_perc_at,
      getEvapRates_at. reflexivity. }
  unfold at_state in H. injection H. auto.
Qed.

(* ------------------------------------------------------------------ *)
(** ** Deep loss *)

Lemma getFluxes_lateral_LowerLoss (s : SWMM_Project) (lowerDepth : Q) :
  LowerLoss (gwtr (getFluxes_lateral s lowerDepth)) = LowerLoss (gwtr s).
Proof.
  unfold getFluxes_lateral. cbv zeta.
  cbn [GwaterShared gwtr_wr set set_GwaterShared set_GWFlow LatFlowExpr].
  destruct (LatFlowExpr (gwtr s)); qcase; reflexivity.
Qed.

Lemma getFluxes_deep_LowerLoss (s : SWMM_Project) (lowerDepth : Q) :
  LowerLoss (gwtr (getFluxes_deep s lowerDepth))
  = MIN (match DeepFlowExpr (gwtr s) with
         | Some e => mathexpr_eval e (getVariableValue s) / UCF RAINFALL
         | None =>
           lowerLossCoeff (A (gwtr s)) * lowerDepth / TotalDepth (gwtr s)
         end) (lowerDepth / Tstep (gwtr s)).
Proof.
  unfold getFluxes_deep. cbv zeta.
  destruct (DeepFlowExpr (gwtr s)); reflexivity.
Qed.

(** The deep-loss rate after [getFluxes], and the project [s] in which a
    user expression for it is evaluated. *)
Lemma getFluxes_LowerLoss (sp : SWMM_Project) (theta lowerDepth : Q) :
  let ldc := MIN (MAX lowerDepth 0) (TotalDepth (gwtr sp)) in
  exists s,
    same_step s sp /\ Hgw (gwtr s) = ldc /\ Theta (gwtr s) = theta /\
    LowerLoss (gwtr (getFluxes sp theta lowerDepth))
    = MIN (match DeepFlowExpr (gwtr sp) with
           | Some e => mathexpr_eval e (getVariableValue s) / UCF RAINFALL
           | None =>
             lowerLossCoeff (A (gwtr sp)) * ldc / TotalDepth (gwtr sp)
           end) (ldc / Tstep (gwtr sp)).
Proof.
  intros ldc. unfold getFluxes. cbv zeta. fold ldc.
  rewrite getFluxes_lateral_LowerLoss, getFluxes_deep_LowerLoss.
  set (s0 := gwtr_wr Theta theta (gwtr_wr Hgw ldc sp)).
  set (s := getFluxes_perc
              (getEvapRates s0 theta (TotalDepth (gwtr sp) - ldc))
              theta (TotalDepth (gwtr sp) - ldc)).
  assert (Hs : same_step s sp).
  { subst s. eapply same_step_trans; [apply getFluxes_perc_same|].
    eapply same_step_trans; [apply getEvapRates_same|].
    subst s0. split; reflexivity. }
  assert (Ha : at_state s = (ldc, theta)).
  { subst s. rewrite getFluxes_perc_at, getEvapRates_at. reflexivity. }
  exists s. split; [exact Hs|].
  unfold at_state in Ha. injection Ha as Ha1 Ha2.
  split; [exact Ha1|]. split; [exact Ha2|].
  destruct Hs as [_ Hi]. apply inputs_inv in Hi. destruct Hi as (Hc & _).
  apply ctx_inv in Hc.
  destruct Hc as (_ & _ & -> & -> & _ & _ & _ & -> & _ & _ & ->).
  reflexivity.
Qed.

(** C7.  In every flux evaluation, with [ldc] the lower depth brought into
    [0, TotalDepth]: without a user deep-flow expression the deep-loss rate
    is lowerLossCoeff * ldc / TotalDepth capped at ldc / Tstep; with one it
    is the value of the expression over the rainfall conversion factor,
    capped in the same way; in both cases the rate is at most ldc / Tstep,
    the quotient the code computes as the rate that empties the depth ldc
    in the step. *)
Theorem getFluxes_deep_loss (sp : SWMM_Project) (theta lowerDepth : Q) :
  let ldc := MIN (MAX lowerDepth 0) (TotalDepth (gwtr sp)) in
  let sp' := getFluxes sp theta lowerDepth in
  (DeepFlowExpr (gwtr sp) = None ->
   LowerLoss (gwtr sp')
   = MIN (lowerLossCoeff (A (gwtr sp)) * ldc / TotalDepth (gwtr sp))
         (ldc / Tstep (gwtr sp))) /\
  (forall e, DeepFlowExpr (gwtr sp) = Some e ->
   exists s,
     same_step s sp /\ Hgw (gwtr s) = ldc /\ Theta (gwtr s) = theta /\
     LowerLoss (gwtr sp')
     = MIN (mathexpr_eval e (getVariableValue s) / UCF RAINFALL)
           (ldc / Tstep (gwtr sp))) /\
  LowerLoss (gwtr sp') <= ldc / Tstep (gwtr sp).
Proof.
  intros ldc sp'. subst sp'.
  destruct (getFluxes_LowerLoss sp theta lowerDepth)
    as (s & Hs & Hh & Ht & HL).
  fold ldc in Hh, HL.
  split; [|split].
  - intros Hn. rewrite Hn in HL. exact HL.
  - intros e He. rewrite He in HL. exists s. auto.
  - rewrite HL. apply MIN_le_r.
Qed.

(* ------------------------------------------------------------------ *)
(** ** Lateral flow below [Hstar] *)

Lemma getFluxes_lateral_GWFlow (s : SWMM_Project) (lowerDepth : Q) :
  LatFlowExpr (gwtr s) = None -> lowerDepth <= Hstar (gwtr s) ->
  GWFlow (gwtr (getFluxes_lateral s lowerDepth))
  = MIN 0 (MaxGWFlowPos (gwtr s)).
Proof.
  intros H1 H2. unfold getFluxes_lateral. cbv zeta.
  cbn [GwaterShared gwtr_wr set set_GwaterShared set_GWFlow LatFlowExpr
       GWFlow MaxGWFlowPos].
  rewrite H1.
  cbn [GwaterShared gwtr_wr set set_GwaterShared set_GWFlow LatFlowExpr
       GWFlow MaxGWFlowPos].
  rewrite (getGWFlow_below s lowerDepth H2).
  replace (Qgeb 0 0) with true by reflexivity.
  reflexivity.
Qed.

Lemma MIN_zero (y : Q) : 0 <= y -> MIN 0 y = 0.
Proof. intros H. unfold MIN. apply Qleb_true in H. rewrite H. reflexivity. Qed.

Lemma getFluxes_GWFlow_below (sp : SWMM_Project) (theta lowerDepth : Q) :
  LatFlowExpr (gwtr sp) = None ->
  MIN (MAX lowerDepth 0) (TotalDepth (gwtr sp)) <= Hstar (gwtr sp) ->
  GWFlow (gwtr (getFluxes sp theta lowerDepth))
  = MIN 0 (MaxGWFlowPos (gwtr sp)).
Proof.
  intros Hn Hb. unfold getFluxes. cbv zeta.
  set (ldc := MIN (MAX lowerDepth 0) (TotalDepth (gwtr sp))) in *.
  set (s0 := gwtr_wr Theta theta (gwtr_wr Hgw ldc sp)).
  set (s := getFluxes_deep _ ldc).
  assert (Hs : same_step s sp).
  { subst s. eapply same_step_trans; [apply getFluxes_deep_same|].
    eapply same_step_trans; [apply getFluxes_perc_same|].
    eapply same_step_trans; [apply getEvapRates_same|].
    subst s0. split; reflexivity. }
  destruct Hs as [_ Hi]. apply inputs_inv in Hi.
  destruct Hi as (Hc & Hh & _ & _ & Hp & _). apply ctx_inv in Hc.
  destruct Hc as (_ & Hl & _).
  rewrite getFluxes_lateral_GWFlow; [congruence | congruence | ].
  rewrite Hh. exact Hb.
Qed.

(* ------------------------------------------------------------------ *)
(** ** The shared variables of a step *)

Lemma saveObjects_spec (s : SWMM_Project) (j : nat) (gw : TGroundwater) :
  GW (gwtr s) = Some j -> groundwater (Subcatch s !!! j) = Some gw ->
  let s' := saveObjects s j in
  outside s' = outside s /\ GW (gwtr s') = Some j /\
  LatFlowExpr (gwtr s') = gwLatFlowExpr (Subcatch s !!! j) /\
  DeepFlowExpr (gwtr s') = gwDeepFlowExpr (Subcatch s !!! j) /\
  A (gwtr s') = Aquifer s !!! aquifer gw /\
  FracPerv (gwtr s') = subcatch_getFracPerv j.
Proof.
  intros H1 H2 s'. subst s'. unfold saveObjects, GWobj, gwobj. cbn.
  rewrite H1, H2. cbn. repeat split; reflexivity.
Qed.

Lemma setRates_spec (s : SWMM_Project) (evap infil tStep : Q) :
  let s' := setRates s evap infil tStep in
  outside s' = outside s /\
  GW (gwtr s') = GW (gwtr s) /\
  LatFlowExpr (gwtr s') = LatFlowExpr (gwtr s) /\
  DeepFlowExpr (gwtr s') = DeepFlowExpr (gwtr s) /\
  A (gwtr s') = A (gwtr s) /\
  FracPerv (gwtr s') = FracPerv (gwtr s) /\
  Area (gwtr s') = Area (gwtr s) /\
  Infil (gwtr s') = infil /\ Tstep (gwtr s') = tStep /\
  MaxEvap (gwtr s') = Evap_rate s * FracPerv (gwtr s) /\
  AvailEvap (gwtr s')
  = MAX (Evap_rate s * FracPerv (gwtr s) - evap / Area (gwtr s) / tStep) 0 /\
  TotalDepth (gwtr s') = surfElev (GWobj s) - bottomElev (GWobj s).
Proof.
  intros s'. subst s'. unfold setRates. cbn. repeat split; reflexivity.
Qed.

Lemma setHeads_spec (s : SWMM_Project) :
  outside (setHeads s) = outside s /\ ctx (setHeads s) = ctx s.
Proof.
  unfold setHeads. cbv zeta. qcase; cbn; qcase; split; reflexivity.
Qed.

Lemma setLimits_spec (s : SWMM_Project) (tStep : Q) (x : Q * Q) :
  let s' := setLimits s tStep x in
  outside s' = outside s /\ ctx s' = ctx s /\
  MaxGWFlowPos (gwtr s') = snd x * porosity (A (gwtr s)) / tStep.
Proof.
  intros s'. subst s'. unfold setLimits. cbn. repeat split; reflexivity.
Qed.

Lemma stepContext_spec (sp : SWMM_Project) (j : nat) (evap infil tStep : Q)
    (gw : TGroundwater) :
  groundwater (Subcatch sp !!! j) = Some gw ->
  StepCtx sp j gw evap infil tStep (stepContext sp j evap infil tStep).
Proof.
  intros Hg. unfold stepContext. cbv zeta.
  set (s1 := gwtr_wr GW (gw_ptr sp j) sp).
  assert (H1g : GW (gwtr s1) = Some j) by (apply (gw_ptr_some _ _ _ Hg)).
  assert (H1s : groundwater (Subcatch s1 !!! j) = Some gw) by exact Hg.
  destruct (saveObjects_spec s1 j gw H1g H1s)
    as (H2o & H2g & H2l & H2d & H2a & H2f).
  change (outside s1) with (outside sp) in H2o.
  change (Subcatch s1) with (Subcatch sp) in H2l, H2d.
  change (Aquifer s1) with (Aquifer sp) in H2a.
  clearbody s1. clear H1g H1s. revert H2o H2g H2l H2d H2a H2f.
  generalize (saveObjects s1 j). clear s1. intros s2 H2o H2g H2l H2d H2a H2f.
  destruct (outside_inv _ _ H2o) as (H2S & _ & _ & _ & H2E & _).
  rewrite H2S.
  set (s3 := gwtr_wr Area (area (Subcatch sp !!! j)) s2).
  change (Area (gwtr s3)) with (area (Subcatch sp !!! j)).
  destruct (setRates_spec s3 evap
              (infil / area (Subcatch sp !!! j) / tStep) tStep)
    as (H4o & H4g & H4l & H4e & H4A & H4f & H4r & H4i & H4t & H4m & H4a
        & H4d).
  change (outside s3) with (outside s2) in H4o.
  change (Evap_rate s3) with (Evap_rate s2) in H4m, H4a.
  change (FracPerv (gwtr s3)) with (FracPerv (gwtr s2)) in H4f, H4m, H4a.
  change (Area (gwtr s3)) with (area (Subcatch sp !!! j)) in H4r, H4a.
  change (GW (gwtr s3)) with (GW (gwtr s2)) in H4g.
  change (LatFlowExpr (gwtr s3)) with (LatFlowExpr (gwtr s2)) in H4l.
  change (DeepFlowExpr (gwtr s3)) with (DeepFlowExpr (gwtr s2)) in H4e.
  change (A (gwtr s3)) with (A (gwtr s2)) in H4A.
  assert (H3G : GWobj s3 = gw).
  { apply (GWobj_eq _ j); [exact H2g|].
    change (Subcatch s3) with (Subcatch s2). rewrite H2S. exact Hg. }
  rewrite H3G in H4d.
  revert H4o H4i H4t H4m H4a H4d H4g H4l H4e H4A H4f H4r.
  generalize (setRates s3 evap
                (infil / area (Subcatch sp !!! j) / tStep) tStep).
  clear s3 H3G. intros s4; intros.
  destruct (setHeads_spec s4) as (H5o & H5c).
  apply ctx_inv in H5c.
  destruct H5c
    as (H5g & H5l & H5e & H5A & H5f & H5r & H5i & H5t & H5m & H5a & H5d).
  revert H5o H5g H5l H5e H5A H5f H5r H5i H5t H5m H5a H5d.
  generalize (setHeads s4). intros s5; intros.
  assert (H5G : GWobj s5 = gw).
  { apply (GWobj_eq _ j); [congruence|].
    assert (Subcatch s5 = Subcatch sp) as ->.
    { apply outside_inv. congruence. }
    exact Hg. }
  rewrite H5G.
  destruct (setLimits_spec s5 tStep (theta gw, lowerDepth gw))
    as (H6o & H6c & H6p).
  apply ctx_inv in H6c.
  destruct H6c
    as (H6g & H6l & H6e & H6A & H6f & H6r & H6i & H6t & H6m & H6a & H6d).
  cbn [snd] in H6p.
  split; congruence.
Qed.

Lemma StepCtx_inputs (sp : SWMM_Project) (j : nat) (gw : TGroundwater)
    (evap infil tStep : Q) (c s : SWMM_Project) :
  StepCtx sp j gw evap infil tStep c -> inputs s = inputs c ->
  StepCtx sp j gw evap infil tStep s.
Proof.
  intros [] Hi. apply inputs_inv in Hi.
  destruct Hi as (Hc & _ & _ & _ & Hp & _). apply ctx_inv in Hc.
  destruct Hc as (? & ? & ? & ? & ? & ? & ? & ? & ? & ? & ?).
  split; congruence.
Qed.

(** A step that passes the three tests integrates from the step context and
    hands the outcome to [saveNewState]. *)
Lemma gwater_getGroundwater_completes `{!OdeSolverOk O} (sp : SWMM_Project)
    (j : nat) (evap infil tStep : Q) (gw : TGroundwater) :
  groundwater (Subcatch sp !!! j) = Some gw ->
  0 < subcatch_getFracPerv j ->
  0 < surfElev gw - bottomElev gw ->
  exists s x,
    StepCtx sp j gw evap infil tStep s /\
    groundwater (Subcatch s !!! j) = Some gw /\
    GwaterTotalsLog s = GwaterTotalsLog sp /\
    GwaterStatsLog s = GwaterStatsLog sp /\
    gwater_getGroundwater sp j evap infil tStep
    = saveNewState s j (infil / area (Subcatch sp !!! j) / tStep) tStep x.
Proof.
  intros Hg Hf Hd.
  pose proof (stepContext_spec sp j evap infil tStep gw Hg) as Hc.
  unfold gwater_getGroundwater. cbv zeta.
  set (s1 := gwtr_wr GW (gw_ptr sp j) sp).
  change (GW (gwtr s1)) with (gw_ptr sp j).
  rewrite (gw_ptr_some _ _ _ Hg).
  destruct (bool_decide_reflect (Some j = @None nat)) as [Hx|_];
    [discriminate|].
  set (s2 := saveObjects s1 j).
  change (FracPerv (gwtr s2)) with (subcatch_getFracPerv j).
  apply Qleb_false in Hf. rewrite Hf.
  set (s3 := gwtr_wr Area (area (Subcatch s2 !!! j)) s2).
  set (s4 := setRates s3 evap (infil / Area (gwtr s3) / tStep) tStep).
  change (TotalDepth (gwtr s4))
    with (surfElev (GWobj s3) - bottomElev (GWobj s3)).
  assert (H3 : GWobj s3 = gw).
  { apply (GWobj_eq _ j); [apply (gw_ptr_some _ _ _ Hg) | exact Hg]. }
  rewrite H3. apply Qleb_false in Hd. rewrite Hd.
  set (s5 := setHeads s4).
  set (c := setLimits s5 tStep (theta (GWobj s5), lowerDepth (GWobj s5))).
  change (stepContext sp j evap infil tStep) with c in Hc.
  assert (Ho : outside c = outside sp).
  { subst c. rewrite (proj1 (setLimits_spec s5 tStep _)).
    subst s5. rewrite (proj1 (setHeads_spec s4)).
    subst s4. rewrite (proj1 (setRates_spec s3 evap _ tStep)). reflexivity. }
  destruct (outside_inv _ _ Ho) as (HS0 & _ & _ & _ & _ & _ & _ & Ht0 & Hs0).
  set (r := odesolve_integrate c _ _ _ _ _ _ getDxDt).
  exists (fst r), (snd r).
  destruct (same_step_inv _ _
              (odesolve_same c _ 2%Z 0 tStep GWTOL tStep
               : same_step (fst r) c))
    as (HS & Ht & Hs & Hi & _).
  split; [exact (StepCtx_inputs _ _ _ _ _ _ _ _ Hc Hi)|].
  split; [rewrite HS, HS0; exact Hg|].
  split; [congruence|].
  split; [congruence|].
  reflexivity.
Qed.

(* ------------------------------------------------------------------ *)
(** ** The new state *)

Lemma saveState_spec (s : SWMM_Project) (x : Q * Q) (j : nat)
    (gw : TGroundwater) :
  GW (gwtr s) = Some j -> groundwater (Subcatch s !!! j) = Some gw ->
  let s' := saveState s x in
  gwtr s' = gwtr s /\
  groundwater (Subcatch s' !!! j)
  = Some (gw <| theta := fst x |> <| lowerDepth := snd x |>) /\
  GwaterTotalsLog s' = GwaterTotalsLog s /\
  GwaterStatsLog s' = GwaterStatsLog s.
Proof.
  intros H1 H2 s'. subst s'. unfold saveState. cbv zeta.
  destruct (GW_wr_spec theta (fst x) s j gw H1 H2) as (Ha & Hb & Hc & Hd).
  revert Ha Hb Hc Hd. generalize (GW_wr theta (fst x) s). intros s1; intros.
  assert (H1' : GW (gwtr s1) = Some j) by congruence.
  destruct (GW_wr_spec lowerDepth (snd x) s1 j _ H1' Hb)
    as (Ha' & Hb' & Hc' & Hd').
  repeat split; congruence.
Qed.

Lemma saveFlows_spec (s : SWMM_Project) (j : nat) (gw : TGroundwater) :
  GW (gwtr s) = Some j -> groundwater (Subcatch s !!! j) = Some gw ->
  let s' := saveFlows s in
  gwtr s' = gwtr s /\
  groundwater (Subcatch s' !!! j)
  = Some (gw <| oldFlow := newFlow gw |>
             <| newFlow := GWFlow (gwtr s) |>
             <| evapLoss := UpperEvap (gwtr s) + LowerEvap (gwtr s) |>) /\
  GwaterTotalsLog s' = GwaterTotalsLog s /\
  GwaterStatsLog s' = GwaterStatsLog s.
Proof.
  intros H1 H2 s'. subst s'. unfold saveFlows. cbv zeta.
  rewrite (GWobj_eq s j gw H1 H2).
  destruct (GW_wr_spec oldFlow (newFlow gw) s j gw H1 H2)
    as (Ha & Hb & Hc & Hd).
  revert Ha Hb Hc Hd. generalize (GW_wr oldFlow (newFlow gw) s).
  intros s1; intros.
  assert (H1' : GW (gwtr s1) = Some j) by congruence.
  destruct (GW_wr_spec newFlow (GWFlow (gwtr s1)) s1 j _ H1' Hb)
    as (Ha' & Hb' & Hc' & Hd').
  revert Ha' Hb' Hc' Hd'. generalize (GW_wr newFlow (GWFlow (gwtr s1)) s1).
  intros s2; intros.
  assert (H1'' : GW (gwtr s2) = Some j) by congruence.
  destruct (GW_wr_spec evapLoss (UpperEvap (gwtr s2) + LowerEvap (gwtr s2))
              s2 j _ H1'' Hb') as (Ha'' & Hb'' & Hc'' & Hd'').
  rewrite Ha' in Hb'', Ha''. rewrite Ha in Hb'', Ha''.
  repeat split; congruence.
Qed.

(** What [saveNewState] leaves: the scratch record [F] of the flux
    evaluation at the bounded state [x'], the groundwater object with its
    six state fields renewed, and one more entry in each sink. *)
Lemma saveNewState_spec (s : SWMM_Project) (j : nat) (infil tStep : Q)
    (x : Q * Q) (gw : TGroundwater) :
  GW (gwtr s) = Some j -> groundwater (Subcatch s !!! j) = Some gw ->
  let x' := keepInBounds s x in
  let F := gwtr (getFluxes (saveState s x') (fst x') (snd x')) in
  let sp' := saveNewState s j infil tStep x in
  gwtr sp' = F /\
  groundwater (Subcatch sp' !!! j)
  = Some (gw <| theta := fst x' |> <| lowerDepth := snd x' |>
             <| oldFlow := newFlow gw |> <| newFlow := GWFlow F |>
             <| evapLoss := UpperEvap F + LowerEvap F |>
             <| maxInfilVol := (TotalDepth F - snd x') *
                               (porosity (A F) - fst x') / FracPerv F |>) /\
  GwaterTotalsLog sp'
  = GwaterTotalsLog s ++
    [Build_GwaterTotals (Infil F * (Area F * tStep))
       (UpperEvap F * (Area F * tStep)) (LowerEvap F * (Area F * tStep))
       (LowerLoss F * (Area F * tStep))
       (0.5 * (newFlow gw + GWFlow F) * (Area F * tStep))] /\
  GwaterStatsLog sp'
  = GwaterStatsLog s ++
    [Build_GwaterStats j infil (UpperEvap F + LowerEvap F) (GWFlow F)
       (LowerLoss F) (fst x') (snd x' + bottomElev gw) tStep].
Proof.
  intros H1 H2 x' F sp'. subst sp' F. unfold saveNewState. cbv zeta.
  fold x'. generalize x'. clear x'. intros x'.
  destruct (saveState_spec s x' j gw H1 H2) as (Ha & Hb & Hc & Hd).
  assert (Hg7 : GW (gwtr (saveState s x')) = Some j) by congruence.
  rewrite (GWobj_eq _ j _ Hg7 Hb).
  change (theta (gw <| theta := fst x' |> <| lowerDepth := snd x' |>))
    with (fst x').
  change (lowerDepth (gw <| theta := fst x' |> <| lowerDepth := snd x' |>))
    with (snd x').
  revert Ha Hb Hc Hd Hg7. generalize (saveState s x'). intros s7; intros.
  destruct (same_step_inv _ _ (getFluxes_same s7 (fst x') (snd x')))
    as (H8S & H8t & H8s & H8i & H8g).
  revert H8S H8t H8s H8i H8g. generalize (getFluxes s7 (fst x') (snd x')).
  intros s8; intros.
  assert (Hg8 : GW (gwtr s8) = Some j) by congruence.
  assert (Hb8 : groundwater (Subcatch s8 !!! j)
                = Some (gw <| theta := fst x' |> <| lowerDepth := snd x' |>))
    by (rewrite H8S; exact Hb).
  destruct (saveFlows_spec s8 j _ Hg8 Hb8) as (H9a & H9b & H9c & H9d).
  revert H9a H9b H9c H9d. generalize (saveFlows s8). intros s9; intros.
  assert (Hg9 : GW (gwtr s9) = Some j) by congruence.
  unfold saveMaxInfilVol.
  match goal with
  | |- context [GW_wr maxInfilVol ?v s9] =>
    destruct (GW_wr_spec maxInfilVol v s9 j _ Hg9 H9b)
      as (H10a & H10b & H10c & H10d);
    revert H10a H10b H10c H10d; generalize (GW_wr maxInfilVol v s9)
  end.
  intros s10; intros.
  assert (Hg10 : GW (gwtr s10) = Some j) by congruence.
  unfold updateStats, updateMassBal, stats_updateGwaterStats,
    massbal_updateGwaterTotals.
  cbv zeta.
  cbn [GwaterShared GwaterTotalsLog GwaterStatsLog Subcatch set
       set_GwaterTotalsLog set_GwaterStatsLog].
  unfold GWobj.
  cbn [GwaterShared GwaterTotalsLog GwaterStatsLog Subcatch set
       set_GwaterTotalsLog set_GwaterStatsLog].
  rewrite Hg10. unfold gwobj.
  cbn [GwaterShared GwaterTotalsLog GwaterStatsLog Subcatch set
       set_GwaterTotalsLog set_GwaterStatsLog].
  rewrite H10b. cbn [default].
  rewrite H10a, H9a in *.
  split; [reflexivity|]. split; [reflexivity|].
  split.
  - rewrite H10c, H9c, H8t, Hc. reflexivity.
  - rewrite H10d, H9d, H8s, Hd. reflexivity.
Qed.

Lemma keepInBounds_gwtr (s s' : SWMM_Project) (x : Q * Q) :
  gwtr s = gwtr s' -> keepInBounds s x = keepInBounds s' x.
Proof. intros H. unfold keepInBounds. rewrite H. reflexivity. Qed.

Lemma inputs_gwtr (s s' : SWMM_Project) :
  gwtr s = gwtr s' -> inputs s = inputs s'.
Proof. intros H. unfold inputs. rewrite H. reflexivity. Qed.

(** The outcome of a step that passes the three tests, in terms of the
    project [s] that holds the bounded state [x'] and of the scratch record
    of the flux evaluation at that state, which is the one the step leaves
    behind. *)
Lemma gwater_getGroundwater_result `{!OdeSolverOk O} (sp : SWMM_Project)
    (j : nat) (evap infil tStep : Q) (gw : TGroundwater) :
  groundwater (Subcatch sp !!! j) = Some gw ->
  0 < subcatch_getFracPerv j ->
  0 < surfElev gw - bottomElev gw ->
  let sp' := gwater_getGroundwater sp j evap infil tStep in
  let F := gwtr sp' in
  exists s x0,
    let x' := keepInBounds s x0 in
    StepCtx sp j gw evap infil tStep s /\
    groundwater (Subcatch s !!! j)
    = Some (gw <| theta := fst x' |> <| lowerDepth := snd x' |>) /\
    F = gwtr (getFluxes s (fst x') (snd x')) /\
    groundwater (Subcatch sp' !!! j)
    = Some (gw <| theta := fst x' |> <| lowerDepth := snd x' |>
               <| oldFlow := newFlow gw |> <| newFlow := GWFlow F |>
               <| evapLoss := UpperEvap F + LowerEvap F |>
               <| maxInfilVol := (TotalDepth F - snd x') *
                                 (porosity (A F) - fst x') / FracPerv F |>) /\
    GwaterTotalsLog sp'
    = GwaterTotalsLog sp ++
      [Build_GwaterTotals (Infil F * (Area F * tStep))
         (UpperEvap F * (Area F * tStep)) (LowerEvap F * (Area F * tStep))
         (LowerLoss F * (Area F * tStep))
         (0.5 * (newFlow gw + GWFlow F) * (Area F * tStep))] /\
    GwaterStatsLog sp'
    = GwaterStatsLog sp ++
      [Build_GwaterStats j (infil / area (Subcatch sp !!! j) / tStep)
         (UpperEvap F + LowerEvap F) (GWFlow F) (LowerLoss F) (fst x')
         (snd x' + bottomElev gw) tStep].
Proof.
  intros Hg Hf Hd sp' F. subst F sp'.
  destruct (gwater_getGroundwater_completes sp j evap infil tStep gw Hg Hf Hd)
    as (s0 & x0 & Hc & Hg0 & Ht0 & Hs0 & ->).
  destruct (saveNewState_spec s0 j (infil / area (Subcatch sp !!! j) / tStep)
              tStep x0 gw (ctx_GW _ _ _ _ _ _ _ Hc) Hg0)
    as (HF & Hgw' & Ht & Hs).
  destruct (saveState_spec s0 (keepInBounds s0 x0) j gw
              (ctx_GW _ _ _ _ _ _ _ Hc) Hg0) as (Ha & Hb & _ & _).
  exists (saveState s0 (keepInBounds s0 x0)), x0.
  rewrite (keepInBounds_gwtr _ s0 x0 Ha). cbv zeta.
  split; [exact (StepCtx_inputs _ _ _ _ _ _ _ _ Hc (inputs_gwtr _ _ Ha))|].
  split; [exact Hb|].
  split; [exact HF|].
  rewrite HF. split; [exact Hgw'|].
  split; [rewrite Ht, Ht0; reflexivity | rewrite Hs, Hs0; reflexivity].
Qed.

(* ------------------------------------------------------------------ *)
(** ** Bounds of the new state *)

Lemma keepInBounds_upper (s : SWMM_Project) (x : Q * Q) :
  fst (keepInBounds s x) < porosity (A (gwtr s)) /\
  snd (keepInBounds s x) < TotalDepth (gwtr s).
Proof.
  unfold keepInBounds, MAX, XTOL. cbv zeta.
  repeat (qcase; cbn [fst snd] in * ); split; lra.
Qed.

Lemma keepInBounds_lower (s : SWMM_Project) (x : Q * Q) :
  (wiltingPoint (A (gwtr s)) <= porosity (A (gwtr s)) - XTOL ->
   wiltingPoint (A (gwtr s)) <= fst (keepInBounds s x)) /\
  (XTOL <= TotalDepth (gwtr s) -> 0 <= snd (keepInBounds s x)).
Proof.
  unfold keepInBounds, MAX, XTOL. cbv zeta.
  split; intros H; repeat (qcase; cbn [fst snd] in * ); lra.
Qed.

(** In an aquifer thinner than [XTOL], a lower depth that the integration
    leaves at or above the total depth is stored as the negative number
    TotalDepth - XTOL. *)
Lemma keepInBounds_thin (s : SWMM_Project) (x : Q * Q) :
  fst x < porosity (A (gwtr s)) ->
  wiltingPoint (A (gwtr s)) < porosity (A (gwtr s)) ->
  TotalDepth (gwtr s) <= snd x -> 0 < TotalDepth (gwtr s) ->
  snd (keepInBounds s x) = TotalDepth (gwtr s) - XTOL.
Proof.
  unfold keepInBounds, MAX. cbv zeta. intros H0 H1 H2 H3.
  repeat (qcase; cbn [fst snd] in * ); first [reflexivity | lra].
Qed.

(** The state a step stores is below porosity and below the total depth;
    it is at or above the wilting point and at or above zero when the
    tolerance [XTOL] fits between the two bounds of each variable. *)
Lemma gwater_getGroundwater_bounds `{!OdeSolverOk O} (sp : SWMM_Project)
    (j : nat) (evap infil tStep : Q) (gw : TGroundwater) :
  groundwater (Subcatch sp !!! j) = Some gw ->
  0 < subcatch_getFracPerv j ->
  0 < surfElev gw - bottomElev gw ->
  let a := Aquifer sp !!! aquifer gw in
  let totalDepth := surfElev gw - bottomElev gw in
  exists gw',
    groundwater (Subcatch (gwater_getGroundwater sp j evap infil tStep) !!! j)
    = Some gw' /\
    theta gw' < porosity a /\ lowerDepth gw' < totalDepth /\
    (wiltingPoint a <= porosity a - XTOL -> wiltingPoint a <= theta gw') /\
    (XTOL <= totalDepth -> 0 <= lowerDepth gw').
Proof.
  intros Hg Hf Hd a totalDepth. subst a totalDepth.
  destruct (gwater_getGroundwater_result sp j evap infil tStep gw Hg Hf Hd)
    as (s & x0 & Hc & _ & _ & Hgw' & _).
  eexists. split; [exact Hgw'|]. cbn.
  destruct (keepInBounds_upper s x0) as [Hu1 Hu2].
  destruct (keepInBounds_lower s x0) as [Hl1 Hl2].
  rewrite (ctx_A _ _ _ _ _ _ _ Hc) in Hu1, Hl1.
  rewrite (ctx_TotalDepth _ _ _ _ _ _ _ Hc) in Hu2, Hl2.
  auto.
Qed.

(* ------------------------------------------------------------------ *)
(** ** Skipped steps *)

(** C9.  When the subcatchment has no groundwater, or its pervious fraction
    is not positive, or the total depth surfElev - bottomElev of its
    groundwater object is not positive, [gwater_getGroundwater] returns with
    every groundwater object as it was (theta, lowerDepth, oldFlow, newFlow,
    evapLoss and maxInfilVol included) and with nothing added to the
    mass-balance sink or to the statistics sink. *)
Theorem gwater_getGroundwater_skips (sp : SWMM_Project) (j : nat)
    (evap infil tStep : Q) :
  groundwater (Subcatch sp !!! j) = None \/
  subcatch_getFracPerv j <= 0 \/
  surfElev (gwobj sp j) - bottomElev (gwobj sp j) <= 0 ->
  let sp' := gwater_getGroundwater sp j evap infil tStep in
  Subcatch sp' = Subcatch sp /\
  GwaterTotalsLog sp' = GwaterTotalsLog sp /\
  GwaterStatsLog sp' = GwaterStatsLog sp.
Proof.
  intros H sp'.
  assert (Ho : outside sp' = outside sp).
  { subst sp'. unfold gwater_getGroundwater. cbv zeta.
    set (s1 := gwtr_wr GW (gw_ptr sp j) sp).
    change (GW (gwtr s1)) with (gw_ptr sp j).
    destruct (groundwater (Subcatch sp !!! j)) as [gw|] eqn:Hg.
    - rewrite (gw_ptr_some _ _ _ Hg).
      destruct (bool_decide_reflect (Some j = @None nat)) as [Hx|_];
        [discriminate|].
      set (s2 := saveObjects s1 j).
      change (FracPerv (gwtr s2)) with (subcatch_getFracPerv j).
      qcase; [reflexivity|].
      set (s3 := gwtr_wr Area (area (Subcatch s2 !!! j)) s2).
      set (s4 := setRates s3 evap (infil / Area (gwtr s3) / tStep) tStep).
      assert (H4 : outside s4 = outside sp).
      { subst s4. rewrite (proj1 (setRates_spec s3 evap _ tStep)).
        reflexivity. }
      change (TotalDepth (gwtr s4))
        with (surfElev (GWobj s3) - bottomElev (GWobj s3)).
      assert (H3 : GWobj s3 = gw).
      { apply (GWobj_eq _ j); [apply (gw_ptr_some _ _ _ Hg) | exact Hg]. }
      rewrite H3. qcase; [exact H4|].
      exfalso. rewrite (gwobj_of _ _ _ Hg) in H.
      destruct H as [H|[H|H]]; [discriminate | lra | lra].
    - unfold gw_ptr. rewrite Hg.
      destruct (bool_decide_reflect (@None nat = None)) as [_|Hx];
        [reflexivity | congruence]. }
  destruct (outside_inv _ _ Ho) as (? & _ & _ & _ & _ & _ & _ & ? & ?).
  auto.
Qed.

(* ------------------------------------------------------------------ *)
(** ** Mass balance of a step *)

(** C5.  A step that passes the three tests adds one entry to the
    mass-balance sink.  With [F] the scratch record the step leaves, which
    is that of the flux evaluation at the stored state (theta, lowerDepth),
    the five volumes are the rates [Infil], [UpperEvap], [LowerEvap] and
    [LowerLoss] of [F], each times area * tStep, and
    0.5 * (previous lateral flow + current lateral flow) * area * tStep,
    where the previous flow is [newFlow] before the step and the current
    one is [GWFlow] of [F]; the step stores them as [oldFlow] and
    [newFlow]. *)
Theorem gwater_getGroundwater_mass_balance `{!OdeSolverOk O}
    (sp : SWMM_Project) (j : nat) (evap infil tStep : Q)
    (gw : TGroundwater) :
  groundwater (Subcatch sp !!! j) = Some gw ->
  0 < subcatch_getFracPerv j ->
  0 < surfElev gw - bottomElev gw ->
  let sp' := gwater_getGroundwater sp j evap infil tStep in
  let F := gwtr sp' in
  let ft2sec := area (Subcatch sp !!! j) * tStep in
  exists gw',
    groundwater (Subcatch sp' !!! j) = Some gw' /\
    oldFlow gw' = newFlow gw /\ newFlow gw' = GWFlow F /\
    Infil F = infil / area (Subcatch sp !!! j) / tStep /\
    (exists s,
       groundwater (Subcatch s !!! j)
       = Some (gw <| theta := theta gw' |>
                  <| lowerDepth := lowerDepth gw' |>) /\
       F = gwtr (getFluxes s (theta gw') (lowerDepth gw'))) /\
    GwaterTotalsLog sp'
    = GwaterTotalsLog sp ++
      [{| vInfil := Infil F * ft2sec;
          vUpperEvap := UpperEvap F * ft2sec;
          vLowerEvap := LowerEvap F * ft2sec;
          vLowerPerc := LowerLoss F * ft2sec;
          vGwater := 0.5 * (oldFlow gw' + newFlow gw') * ft2sec |}].
Proof.
  intros Hg Hf Hd sp' F ft2sec.
  destruct (gwater_getGroundwater_result sp j evap infil tStep gw Hg Hf Hd)
    as (s & x0 & Hc & Hs & HF & Hgw' & Ht & _).
  fold sp' in HF, Hgw', Ht. fold F in HF, Hgw', Ht.
  assert (Hi : inputs s
               = inputs (getFluxes s (fst (keepInBounds s x0))
                           (snd (keepInBounds s x0)))).
  { symmetry. apply (getFluxes_same s). }
  apply inputs_inv in Hi. destruct Hi as (Hx & _). apply ctx_inv in Hx.
  destruct Hx as (_ & _ & _ & _ & _ & Har & Hin & _).
  rewrite <- HF in Har, Hin.
  eexists. split; [exact Hgw'|]. cbn.
  split; [reflexivity|]. split; [reflexivity|].
  split; [rewrite <- Hin; apply (ctx_Infil _ _ _ _ _ _ _ Hc)|].
  split; [exists s; split; [exact Hs | exact HF]|].
  rewrite Ht. subst ft2sec.
  rewrite <- (ctx_Area _ _ _ _ _ _ _ Hc), Har. reflexivity.
Qed.

(* ------------------------------------------------------------------ *)
(** ** Committed lateral flow below [Hstar] *)

(** What the code stores at or below [Hstar].  There [getGWFlow] returns
    exactly 0.  Without a user lateral-flow expression, the lateral flow
    that [getFluxes] then leaves, and that a step stores as [newFlow], is
    that 0 under the cap of the step, MIN 0 MaxGWFlowPos, where
    MaxGWFlowPos is the lower depth before the step times porosity over
    tStep; it is exactly 0 whenever that cap is not negative.  The depth
    compared with [Hstar] is the one the fluxes are evaluated at: the lower
    depth brought into [0, TotalDepth], kept in [Hgw]. *)
Theorem lateral_flow_below_Hstar `{!OdeSolverOk O} :
  (forall (sp : SWMM_Project) (lowerDepth : Q),
     lowerDepth <= Hstar (gwtr sp) -> getGWFlow sp lowerDepth = 0) /\
  (forall (sp : SWMM_Project) (theta lowerDepth : Q),
     LatFlowExpr (gwtr sp) = None ->
     MIN (MAX lowerDepth 0) (TotalDepth (gwtr sp)) <= Hstar (gwtr sp) ->
     GWFlow (gwtr (getFluxes sp theta lowerDepth))
     = MIN 0 (MaxGWFlowPos (gwtr sp)) /\
     (0 <= MaxGWFlowPos (gwtr sp) ->
      GWFlow (gwtr (getFluxes sp theta lowerDepth)) = 0)) /\
  (forall (sp : SWMM_Project) (j : nat) (evap infil tStep : Q)
          (gw : TGroundwater),
     groundwater (Subcatch sp !!! j) = Some gw ->
     0 < subcatch_getFracPerv j ->
     0 < surfElev gw - bottomElev gw ->
     gwLatFlowExpr (Subcatch sp !!! j) = None ->
     let sp' := gwater_getGroundwater sp j evap infil tStep in
     let cap := lowerDepth gw * porosity (Aquifer sp !!! aquifer gw) / tStep in
     Hgw (gwtr sp') <= Hstar (gwtr sp') ->
     exists gw',
       groundwater (Subcatch sp' !!! j) = Some gw' /\
       newFlow gw' = MIN 0 cap /\
       (0 <= cap -> newFlow gw' = 0)).
Proof.
  split; [exact getGWFlow_below|]. split.
  - intros sp theta lowerDepth Hn Hb.
    rewrite (getFluxes_GWFlow_below sp theta lowerDepth Hn Hb).
    split; [reflexivity | apply MIN_zero].
  - intros sp j evap infil tStep gw Hg Hf Hd Hn sp' cap Hb.
    destruct (gwater_getGroundwater_result sp j evap infil tStep gw Hg Hf Hd)
      as (s & x0 & Hc & Hs & HF & Hgw' & _).
    fold sp' in HF, Hgw'.
    eexists. split; [exact Hgw'|]. cbn.
    assert (Hfl : GWFlow (gwtr sp') = MIN 0 cap).
    { rewrite HF in Hb |- *.
      destruct (getFluxes_at s (fst (keepInBounds s x0))
                  (snd (keepInBounds s x0))) as [Hh _].
      destruct (same_step_inv _ _
                  (getFluxes_same s (fst (keepInBounds s x0))
                     (snd (keepInBounds s x0)))) as (_ & _ & _ & Hi & _).
      apply inputs_inv in Hi. destruct Hi as (_ & Hst & _).
      rewrite Hh, Hst in Hb.
      rewrite getFluxes_GWFlow_below.
      - rewrite (ctx_MaxGWFlowPos _ _ _ _ _ _ _ Hc). reflexivity.
      - rewrite (ctx_LatFlowExpr _ _ _ _ _ _ _ Hc). exact Hn.
      - exact Hb. }
    rewrite Hfl. split; [reflexivity | apply MIN_zero].
Qed.

End Properties.

(* ================================================================== *)
(** * Further properties of the groundwater functions *)

Section MoreProperties.

Context {E : Externs} {O : OdeSolver}.

(* ------------------------------------------------------------------ *)
(** ** What a store into a groundwater object leaves alone *)

Lemma only_groundwater_refl (j : nat) (s : SWMM_Project) :
  only_groundwater j s s.
Proof. split; reflexivity. Qed.

Lemma only_groundwater_trans (j : nat) (s1 s2 s3 : SWMM_Project) :
  only_groundwater j s1 s2 -> only_groundwater j s2 s3 ->
  only_groundwater j s1 s3.
Proof.
  intros [] []. split; try congruence.
  intros k Hk. rewrite og_others1, og_others0; auto.
Qed.

Lemma only_groundwater_outside (j : nat) (s s' : SWMM_Project) :
  outside s' = outside s -> only_groundwater j s s'.
Proof.
  intros H. destruct (outside_inv _ _ H) as (HS & ? & ? & ? & ? & ? & _).
  split; try assumption; rewrite ?HS; reflexivity.
Qed.

Lemma only_groundwater_gw_wr {T : Type} (f : TGroundwater -> T) `{!Setter f}
    (v : T) (j : nat) (s : SWMM_Project) :
  only_groundwater j s (gw_wr j f v s).
Proof.
  assert (Hj : forall (P : TSubcatch -> Prop),
             (forall sc g, P (sc <| groundwater := g |>) <-> P sc) ->
             P (Subcatch (gw_wr j f v s) !!! j) <-> P (Subcatch s !!! j)).
  { intros P HP. unfold gw_wr. cbn. rewrite list_lookup_total_alter.
    case_decide as Hd; [apply HP|].
    assert (Hlen : (length (Subcatch s) <= j)%nat).
    { destruct (decide (j < length (Subcatch s))%nat); [tauto | lia]. }
    rewrite list_lookup_total_alt, (lookup_ge_None_2 _ _ Hlen). reflexivity. }
  split; try reflexivity.
  - unfold gw_wr. cbn. apply length_alter.
  - intros k Hk. unfold gw_wr. cbn. apply list_lookup_total_alter_ne.
    congruence.
  - apply (Hj (fun sc => ID sc = ID (Subcatch s !!! j))); [|reflexivity].
    intros sc g; destruct sc; reflexivity.
  - apply (Hj (fun sc => area sc = area (Subcatch s !!! j))); [|reflexivity].
    intros sc g; destruct sc; reflexivity.
  - apply (Hj (fun sc => gwLatFlowExpr sc = gwLatFlowExpr (Subcatch s !!! j)));
      [|reflexivity].
    intros sc g; destruct sc; reflexivity.
  - apply (Hj (fun sc =>
                 gwDeepFlowExpr sc = gwDeepFlowExpr (Subcatch s !!! j)));
      [|reflexivity].
    intros sc g; destruct sc; reflexivity.
Qed.


Lemma object_only_refl (j : nat) (s : SWMM_Project) : object_only j s s.
Proof. split; [apply only_groundwater_refl | reflexivity]. Qed.

Lemma object_only_trans (j : nat) (s1 s2 s3 : SWMM_Project) :
  object_only j s1 s2 -> object_only j s2 s3 -> object_only j s1 s3.
Proof.
  intros [H1 E1] [H2 E2]. split; [|congruence].
  apply (only_groundwater_trans j s1 s2 s3); assumption.
Qed.

Lemma object_only_gw_wr {T : Type} (f : TGroundwater -> T) `{!Setter f}
    (v : T) (j : nat) (s : SWMM_Project) :
  object_only j s (gw_wr j f v s).
Proof. split; [apply only_groundwater_gw_wr | reflexivity]. Qed.

Lemma scratch_and_sinks_inv (s s' : SWMM_Project) :
  scratch_and_sinks s' = scratch_and_sinks s ->
  gwtr s' = gwtr s /\ ErrorLog s' = ErrorLog s /\
  GwaterTotalsLog s' = GwaterTotalsLog s /\
  GwaterStatsLog s' = GwaterStatsLog s.
Proof.
  unfold scratch_and_sinks. intros H. injection H. intros.
  repeat split; assumption.
Qed.

Ltac gw_fields :=
  cbn [set set_theta set_lowerDepth set_oldFlow set_newFlow set_evapLoss
       set_maxInfilVol set_bottomElev set_waterTableElev set_upperMoisture
       aquifer node surfElev a1 b1 a2 b2 a3 fixedDepth nodeElev bottomElev
       waterTableElev upperMoisture theta lowerDepth oldFlow newFlow evapLoss
       maxInfilVol] in *.

(** The reads [gwobj s j] of an object known to be [g]. *)
Ltac gw_read :=
  match goal with
  | H : groundwater (Subcatch ?s !!! ?j) = Some ?g |- context [gwobj ?s ?j] =>
    rewrite (gwobj_of s j g H); gw_fields
  end.

(** One store [gw_wr j f v s] into an object known to be [g]: the project
    after the store is abstracted, with the object it holds and with what it
    shares with the project [s0] the proof started from. *)
Ltac gw_store :=
  match goal with
  | H : groundwater (Subcatch ?s !!! ?j) = Some ?g,
    Hp : object_only ?j ?s0 ?s |- context [gw_wr ?j ?f ?v ?s] =>
    let H1 := fresh "Hw" in
    let Hf := fresh "Hf" in
    pose proof (proj1 (gw_wr_gwobj f v s j g H)) as H1;
    pose proof (object_only_trans j s0 s _ Hp
                  (object_only_gw_wr f v j s)) as Hf;
    revert H1 Hf; generalize (gw_wr j f v s); clear H Hp; intros ? H1 Hf;
    gw_fields
  end.

(** Case analysis on a test of the goal that reads no object. *)
Ltac no_store t :=
  lazymatch t with
  | context [@gw_wr] => fail
  | context [@gwobj] => fail
  | _ => idtac
  end.

Ltac gw_case :=
  match goal with
  | |- context [if Qgeb ?x ?y then _ else _] =>
    no_store x; no_store y; qcase_on (Qgeb x y) Qgeb_true Qgeb_false
  | |- context [if Qltb ?x ?y then _ else _] =>
    no_store x; no_store y; qcase_on (Qltb x y) Qltb_true Qltb_false
  | |- context [if Qeqb ?x ?y then _ else _] =>
    no_store x; no_store y; qcase_on (Qeqb x y) Qeqb_true Qeqb_false
  | |- context [if Qneb ?x ?y then _ else _] =>
    no_store x; no_store y; qcase_on (Qneb x y) Qneb_true Qneb_false
  end.

Ltac gw_run := repeat first [gw_read | gw_case | gw_store].


(* ------------------------------------------------------------------ *)
(** ** Restore, then snapshot *)

(** X1.  For a subcatchment with groundwater, [gwater_setState] stores
    x[0] as theta, x[1] - bottomElev as the lower depth, x[2] as [oldFlow]
    and, unless it is [MISSING], x[3] as [maxInfilVol]; [newFlow],
    [evapLoss] and the parameters stay.  The snapshot taken after the
    restore therefore returns theta x[0], the water-table elevation
    bottomElev + (x[1] - bottomElev), the lateral flow [newFlow] of before
    the restore (x[2] went to [oldFlow]) and x[3], or the old capacity when
    x[3] is [MISSING].  Nothing but the object of subcatchment [j]
    changes. *)
Theorem gwater_getState_after_setState (sp : SWMM_Project) (j : nat)
    (gw : TGroundwater) (x0 x1 x2 x3 : Q) :
  groundwater (Subcatch sp !!! j) = Some gw ->
  let sp' := gwater_setState sp j (x0, x1, x2, x3) in
  let m := if Qneb x3 MISSING then x3 else maxInfilVol gw in
  (exists gw',
     groundwater (Subcatch sp' !!! j) = Some gw' /\
     theta gw' = x0 /\ lowerDepth gw' = x1 - bottomElev gw /\
     oldFlow gw' = x2 /\ newFlow gw' = newFlow gw /\
     evapLoss gw' = evapLoss gw /\ maxInfilVol gw' = m /\
     gw_params gw' = gw_params gw) /\
  gwater_getState sp' j
  = Some (x0, bottomElev gw + (x1 - bottomElev gw), newFlow gw, m) /\
  object_only j sp sp'.
Proof.
  intros Hg sp' m. subst sp' m.
  assert (H : exists gw',
             groundwater (Subcatch (gwater_setState sp j (x0, x1, x2, x3))
                          !!! j) = Some gw' /\
             gw' = gw <| theta := x0 |>
                      <| lowerDepth := x1 - bottomElev gw |>
                      <| oldFlow := x2 |>
                      <| maxInfilVol := if Qneb x3 MISSING then x3
                                        else maxInfilVol gw |> /\
             object_only j sp (gwater_setState sp j (x0, x1, x2, x3))).
  { unfold gwater_setState. rewrite Hg. cbv zeta.
    pose proof (object_only_refl j sp) as Hp.
    gw_run; (eexists; split; [eassumption|]; split; [reflexivity|assumption]). }
  destruct H as (gw' & Hgw' & -> & Hf).
  split; [|split].
  - eexists. split; [exact Hgw'|]. repeat split; reflexivity.
  - unfold gwater_getState. rewrite Hgw'. reflexivity.
  - exact Hf.
Qed.


(* ------------------------------------------------------------------ *)
(** ** Validation *)

Lemma gwater_validateAquifer_log (sp : SWMM_Project) (j : nat) :
  let a := Aquifer sp !!! j in
  let p := upperEvapPat a in
  let sp' := gwater_validateAquifer sp j in
  (0 < porosity a /\ fieldCapacity a < porosity a /\
   wiltingPoint a < fieldCapacity a /\ 0 < conductivity a /\
   0 <= conductSlope a /\ 0 <= tensionSlope a /\ 0 <= upperEvapFrac a /\
   0 <= lowerEvapDepth a /\ aq_bottomElev a <= aq_waterTableElev a /\
   aq_upperMoisture a <= porosity a /\
   wiltingPoint a <= aq_upperMoisture a) /\
  ((0 <= p)%Z -> type (Pattern sp !!! Z.to_nat p) = MONTHLY_PATTERN) <->
  ErrorLog sp' = ErrorLog sp.
Proof.
  intros a p sp'. subst sp'. unfold gwater_validateAquifer. fold a. fold p.
  cbv zeta.
  set (bad := _ || _).
  assert (Hbad : bad = false <->
            0 < porosity a /\ fieldCapacity a < porosity a /\
            wiltingPoint a < fieldCapacity a /\ 0 < conductivity a /\
            0 <= conductSlope a /\ 0 <= tensionSlope a /\
            0 <= upperEvapFrac a /\ 0 <= lowerEvapDepth a /\
            aq_bottomElev a <= aq_waterTableElev a /\
            aq_upperMoisture a <= porosity a /\
            wiltingPoint a <= aq_upperMoisture a).
  { subst bad. rewrite !orb_false_iff.
    rewrite !Qleb_false, !Qgeb_false, !Qltb_false, !Qgtb_false. tauto. }
  assert (Hpat : forall s : SWMM_Project,
            Pattern s = Pattern sp ->
            (0 <=? p)%Z
            && negb (bool_decide (type (Pattern s !!! Z.to_nat p)
                                  = MONTHLY_PATTERN)) = false <->
            ((0 <= p)%Z -> type (Pattern sp !!! Z.to_nat p) = MONTHLY_PATTERN)).
  { intros s ->.
    rewrite andb_false_iff, negb_false_iff, Z.leb_nle, bool_decide_eq_true.
    split; [intros [H|H] ?; [lia | exact H] |].
    intros H. destruct (Z_le_dec 0 p); [right; auto | left; assumption]. }
  assert (Hnil : forall l (x : ErrorCode * string), l ++ [x] = l -> False).
  { intros l x H. apply (f_equal length) in H. rewrite length_app in H.
    cbn in H. lia. }
  assert (Hnil2 : forall l (x y : ErrorCode * string),
             (l ++ [x]) ++ [y] = l -> False).
  { intros l x y H. apply (f_equal length) in H. rewrite !length_app in H.
    cbn in H. lia. }
  destruct bad;
    match goal with
    | |- context [if ?c then _ else _] =>
      match c with
      | context [Pattern ?s] =>
        pose proof (Hpat s eq_refl) as Hp; destruct c
      end
    end; cbn.
  - split; [|intros H; exfalso; eapply Hnil2, H].
    intros [H _]. apply Hbad in H. discriminate.
  - split; [|intros H; exfalso; eapply Hnil, H].
    intros [H _]. apply Hbad in H. discriminate.
  - split; [|intros H; exfalso; eapply Hnil, H].
    intros [_ H]. apply Hp in H. discriminate.
  - split; [reflexivity|intros _].
    split; [apply Hbad | apply Hp]; reflexivity.
Qed.

Lemma gwater_validateAquifer_rest (sp : SWMM_Project) (j : nat) :
  let sp' := gwater_validateAquifer sp j in
  sp' = sp <| ErrorLog := ErrorLog sp' |> /\
  exists n, (n <= 2)%nat /\
    ErrorLog sp'
    = ErrorLog sp ++ replicate n (ERR_AQUIFER_PARAMS, aq_ID (Aquifer sp !!! j)).
Proof.
  intros sp'. subst sp'. unfold gwater_validateAquifer. cbv zeta.
  destruct (_ || _); destruct (_ && _); cbn;
    (split; [destruct sp; reflexivity|]).
  - exists 2%nat. split; [lia|]. rewrite <- app_assoc. reflexivity.
  - exists 1%nat. split; [lia|]. reflexivity.
  - exists 1%nat. split; [lia|]. reflexivity.
  - exists 0%nat. split; [lia|]. cbn. rewrite app_nil_r. reflexivity.
Qed.

(** X2.  [gwater_validateAquifer] leaves the error log as it was exactly
    when the aquifer satisfies 0 < porosity, fieldCapacity < porosity,
    wiltingPoint < fieldCapacity, 0 < conductivity, the two slopes, the
    upper evaporation fraction and the lower evaporation depth are not
    negative, bottomElev <= waterTableElev and wiltingPoint <=
    upperMoisture <= porosity, and its evaporation pattern, if it has one,
    is a monthly pattern.  Otherwise it reports [ERR_AQUIFER_PARAMS] with
    the aquifer's ID, once or twice.  It changes nothing but the error
    log. *)
Theorem gwater_validateAquifer_accepts (sp : SWMM_Project) (j : nat) :
  let a := Aquifer sp !!! j in
  let p := upperEvapPat a in
  let sp' := gwater_validateAquifer sp j in
  (ErrorLog sp' = ErrorLog sp <->
   (0 < porosity a /\ fieldCapacity a < porosity a /\
    wiltingPoint a < fieldCapacity a /\ 0 < conductivity a /\
    0 <= conductSlope a /\ 0 <= tensionSlope a /\ 0 <= upperEvapFrac a /\
    0 <= lowerEvapDepth a /\ aq_bottomElev a <= aq_waterTableElev a /\
    aq_upperMoisture a <= porosity a /\
    wiltingPoint a <= aq_upperMoisture a) /\
   ((0 <= p)%Z -> type (Pattern sp !!! Z.to_nat p) = MONTHLY_PATTERN)) /\
  (exists n, (n <= 2)%nat /\
     ErrorLog sp'
     = ErrorLog sp ++ replicate n (ERR_AQUIFER_PARAMS, aq_ID a)) /\
  sp' = sp <| ErrorLog := ErrorLog sp' |>.
Proof.
  intros a p sp'.
  split; [symmetry; apply gwater_validateAquifer_log|].
  destruct (gwater_validateAquifer_rest sp j) as [H1 H2]. auto.
Qed.

Lemma gwater_validate_object (s : SWMM_Project) (j : nat)
    (g : TGroundwater) :
  groundwater (Subcatch s !!! j) = Some g ->
  let a := Aquifer s !!! aquifer g in
  let g' := g <| bottomElev :=
                   if Qeqb (bottomElev g) MISSING then aq_bottomElev a
                   else bottomElev g |>
              <| waterTableElev :=
                   if Qeqb (waterTableElev g) MISSING
                   then aq_waterTableElev a else waterTableElev g |>
              <| upperMoisture :=
                   if Qeqb (upperMoisture g) MISSING
                   then aq_upperMoisture a else upperMoisture g |> in
  exists s',
    gwater_validate s j
    = (if Qltb (surfElev g) (waterTableElev g')
       then report_writeErrorMsg s' ERR_GROUND_ELEV (ID (Subcatch s' !!! j))
       else s') /\
    groundwater (Subcatch s' !!! j) = Some g' /\
    object_only j s s'.
Proof.
  intros Hs a g'. subst g'. unfold gwater_validate. rewrite Hs. fold a.
  cbv zeta.
  pose proof (object_only_refl j s) as Hp. destruct g. gw_fields.
  repeat first [gw_read | gw_case | gw_store].
  all: first [ exfalso; lra | exfalso; tauto
             | eexists; split; [reflexivity|];
               split; [eassumption | assumption] ].
Qed.

Lemma gwater_validate_after (s : SWMM_Project) (j : nat) (g : TGroundwater) :
  groundwater (Subcatch s !!! j) = Some g ->
  let a := Aquifer s !!! aquifer g in
  let g' := g <| bottomElev :=
                   if Qeqb (bottomElev g) MISSING then aq_bottomElev a
                   else bottomElev g |>
              <| waterTableElev :=
                   if Qeqb (waterTableElev g) MISSING
                   then aq_waterTableElev a else waterTableElev g |>
              <| upperMoisture :=
                   if Qeqb (upperMoisture g) MISSING
                   then aq_upperMoisture a else upperMoisture g |> in
  let s' := gwater_validate s j in
  groundwater (Subcatch s' !!! j) = Some g' /\
  only_groundwater j s s' /\
  ErrorLog s'
  = (if Qltb (surfElev g) (waterTableElev g')
     then ErrorLog s ++ [(ERR_GROUND_ELEV, ID (Subcatch s !!! j))]
     else ErrorLog s).
Proof.
  intros Hs a g' s'. subst s'.
  destruct (gwater_validate_object s j g Hs) as (s1 & E1 & Hg1 & Hf1 & Hr1).
  fold a in E1, Hg1. fold g' in E1, Hg1.
  apply scratch_and_sinks_inv in Hr1. destruct Hr1 as (_ & He1 & _).
  rewrite E1. case (Qltb _ _).
  - split; [exact Hg1|]. split; [destruct Hf1; split; assumption|].
    cbn. rewrite He1, (og_ID _ _ _ Hf1). reflexivity.
  - split; [exact Hg1|]. split; [exact Hf1 | exact He1].
Qed.

(** X3.  For a subcatchment with groundwater, [gwater_validate] replaces
    each of bottomElev, waterTableElev and upperMoisture that is [MISSING]
    by the value of the aquifer and keeps the ones that are given; every
    other field of the object stays.  It reports [ERR_GROUND_ELEV] with the
    subcatchment's ID exactly when the surface elevation is below the
    water-table elevation so obtained, and leaves the error log alone
    otherwise.  Validating once more leaves the object as it is. *)
Theorem gwater_validate_defaults (sp : SWMM_Project) (j : nat)
    (gw : TGroundwater) :
  groundwater (Subcatch sp !!! j) = Some gw ->
  let a := Aquifer sp !!! aquifer gw in
  let sp' := gwater_validate sp j in
  exists gw',
    groundwater (Subcatch sp' !!! j) = Some gw' /\
    bottomElev gw'
    = (if Qeqb (bottomElev gw) MISSING then aq_bottomElev a
       else bottomElev gw) /\
    waterTableElev gw'
    = (if Qeqb (waterTableElev gw) MISSING then aq_waterTableElev a
       else waterTableElev gw) /\
    upperMoisture gw'
    = (if Qeqb (upperMoisture gw) MISSING then aq_upperMoisture a
       else upperMoisture gw) /\
    (aquifer gw', node gw', surfElev gw', a1 gw', b1 gw', a2 gw', b2 gw',
     a3 gw', fixedDepth gw', nodeElev gw', theta gw', lowerDepth gw',
     oldFlow gw', newFlow gw', evapLoss gw', maxInfilVol gw')
    = (aquifer gw, node gw, surfElev gw, a1 gw, b1 gw, a2 gw, b2 gw, a3 gw,
       fixedDepth gw, nodeElev gw, theta gw, lowerDepth gw, oldFlow gw,
       newFlow gw, evapLoss gw, maxInfilVol gw) /\
    ErrorLog sp'
    = (if Qltb (surfElev gw) (waterTableElev gw')
       then ErrorLog sp ++ [(ERR_GROUND_ELEV, ID (Subcatch sp !!! j))]
       else ErrorLog sp) /\
    only_groundwater j sp sp' /\
    groundwater (Subcatch (gwater_validate sp' j) !!! j) = Some gw'.
Proof.
  intros Hg a sp'. subst sp'.
  destruct (gwater_validate_after sp j gw Hg) as (Hgv & Hfv & Hev).
  fold a in Hgv, Hev.
  set (gw1 := gw <| bottomElev := _ |> <| waterTableElev := _ |>
                 <| upperMoisture := _ |>) in *.
  exists gw1. split; [exact Hgv|].
  split; [reflexivity|]. split; [reflexivity|]. split; [reflexivity|].
  split; [reflexivity|]. split; [exact Hev|]. split; [exact Hfv|].
  rewrite (proj1 (gwater_validate_after _ j gw1 Hgv)).
  rewrite (og_Aquifer _ _ _ Hfv). f_equal. subst gw1 a. clear.
  assert (Hpick : forall v d : Q,
             (if Qeqb (if Qeqb v MISSING then d else v) MISSING then d
              else if Qeqb v MISSING then d else v)
             = if Qeqb v MISSING then d else v).
  { intros v d. destruct (Qeqb v MISSING) eqn:E1;
      [destruct (Qeqb d MISSING); reflexivity | rewrite E1; reflexivity]. }
  destruct gw. gw_fields. rewrite !Hpick. reflexivity.
Qed.

(* ------------------------------------------------------------------ *)
(** ** Initial state *)

Lemma gwater_initState_object (s : SWMM_Project) (j : nat)
    (g : TGroundwater) :
  groundwater (Subcatch s !!! j) = Some g ->
  let phi := porosity (Aquifer s !!! aquifer g) in
  let theta0 := if Qgeb (upperMoisture g) phi then phi - XTOL
                else upperMoisture g in
  let lower0 := if Qgeb (waterTableElev g - bottomElev g)
                        (surfElev g - bottomElev g)
                then surfElev g - bottomElev g - XTOL
                else waterTableElev g - bottomElev g in
  groundwater (Subcatch (gwater_initState s j) !!! j)
  = Some (g <| theta := theta0 |> <| lowerDepth := lower0 |>
            <| oldFlow := 0 |> <| newFlow := 0 |> <| evapLoss := 0 |>
            <| maxInfilVol := (surfElev g - waterTableElev g) *
                              (phi - theta0) / subcatch_getFracPerv j |>) /\
  object_only j s (gwater_initState s j).
Proof.
  intros Hg phi theta0 lower0. subst phi theta0 lower0.
  unfold gwater_initState. rewrite Hg. cbv zeta.
  pose proof (object_only_refl j s) as Hp.
  repeat first [gw_read | gw_case | gw_store];
    first [ exfalso; lra | split; assumption ].
Qed.


(** X5.  The state that [gwater_initState] stores depends on the
    parameters of the object and on the porosity of its aquifer only: two
    projects whose objects have the same parameters, whatever their theta,
    lower depth, flows, evaporation loss and infiltration capacity are,
    hold the same object after the call.  An earlier restore or earlier
    steps leave no trace. *)
Theorem gwater_initState_from_params (sp1 sp2 : SWMM_Project) (j : nat)
    (gw1 gw2 : TGroundwater) :
  groundwater (Subcatch sp1 !!! j) = Some gw1 ->
  groundwater (Subcatch sp2 !!! j) = Some gw2 ->
  gw_params gw1 = gw_params gw2 ->
  porosity (Aquifer sp1 !!! aquifer gw1)
  = porosity (Aquifer sp2 !!! aquifer gw2) ->
  groundwater (Subcatch (gwater_initState sp1 j) !!! j)
  = groundwater (Subcatch (gwater_initState sp2 j) !!! j).
Proof.
  intros H1 H2 Hp Ha.
  rewrite (proj1 (gwater_initState_object sp1 j gw1 H1)).
  rewrite (proj1 (gwater_initState_object sp2 j gw2 H2)).
  rewrite Ha. destruct gw1, gw2. unfold gw_params in Hp. gw_fields.
  injection Hp. intros. subst. reflexivity.
Qed.


(** X6.  Validation and the initial state together.  When
    [gwater_validateAquifer] and [gwater_validate] add nothing to the error
    log and the object takes its bottom elevation, water-table elevation
    and upper moisture from the aquifer (the three are [MISSING]), the state
    that [gwater_initState] then stores satisfies wiltingPoint <= theta <
    porosity and 0 <= lowerDepth < surfElev - bottomElev, and its
    infiltration capacity is not negative, given a positive pervious
    fraction, and given that [XTOL] fits under the porosity or under the
    surface in the two cases in which the state is set back by [XTOL]
    (upper moisture equal to the porosity, water table at the surface). *)
Theorem validated_initial_state (sp : SWMM_Project) (j : nat)
    (gw : TGroundwater) :
  groundwater (Subcatch sp !!! j) = Some gw ->
  let a := Aquifer sp !!! aquifer gw in
  let sp2 := gwater_validate (gwater_validateAquifer sp (aquifer gw)) j in
  let sp3 := gwater_initState sp2 j in
  ErrorLog sp2 = ErrorLog sp ->
  bottomElev gw == MISSING -> waterTableElev gw == MISSING ->
  upperMoisture gw == MISSING ->
  aq_upperMoisture a < porosity a \/ XTOL <= porosity a - wiltingPoint a ->
  aq_waterTableElev a < surfElev gw \/ XTOL <= surfElev gw - aq_bottomElev a ->
  0 < subcatch_getFracPerv j ->
  exists gw3,
    groundwater (Subcatch sp3 !!! j) = Some gw3 /\
    bottomElev gw3 = aq_bottomElev a /\ surfElev gw3 = surfElev gw /\
    wiltingPoint a <= theta gw3 /\ theta gw3 < porosity a /\
    0 <= lowerDepth gw3 /\ lowerDepth gw3 < surfElev gw3 - bottomElev gw3 /\
    0 <= maxInfilVol gw3.
Proof.
  intros Hg a sp2 sp3 He Hb Hw Hu Hx1 Hx2 Hfp. subst sp3 sp2.
  destruct (gwater_validateAquifer_rest sp (aquifer gw))
    as (HS1 & n & _ & El1).
  pose proof (proj2 (gwater_validateAquifer_log sp (aquifer gw))) as Hl1.
  cbv zeta in Hl1. fold a in Hl1.
  set (sp1 := gwater_validateAquifer sp (aquifer gw)) in *.
  assert (HA1 : Aquifer sp1 = Aquifer sp) by (rewrite HS1; reflexivity).
  assert (HS1' : Subcatch sp1 = Subcatch sp) by (rewrite HS1; reflexivity).
  assert (Hg1 : groundwater (Subcatch sp1 !!! j) = Some gw)
    by (rewrite HS1'; exact Hg).
  destruct (gwater_validate_after sp1 j gw Hg1) as (Hg2 & Hf2 & He2).
  rewrite HA1 in Hg2, He2. fold a in Hg2, He2.
  apply Qeqb_true in Hb, Hw, Hu. rewrite Hb, Hw, Hu in Hg2.
  rewrite Hw in He2. gw_fields.
  set (sp2 := gwater_validate sp1 j) in *.
  assert (Hok : ErrorLog sp1 = ErrorLog sp /\
                aq_waterTableElev a <= surfElev gw).
  { rewrite He2 in He. revert He. qcase; intros He; [|split; assumption].
    rewrite El1 in He.
    apply (f_equal length) in He. rewrite !length_app in He. cbn in He.
    lia. }
  destruct Hok as (Hn & Hgs).
  destruct (Hl1 Hn) as ((_ & _ & _ & _ & _ & _ & _ & _ & Ha1 & Ha2 & Ha3) & _).
  destruct (gwater_initState_object sp2 j _ Hg2) as [Ho _].
  rewrite (og_Aquifer _ _ _ Hf2), HA1 in Ho. gw_fields. fold a in Ho.
  eexists. split; [exact Ho|]. gw_fields.
  split; [reflexivity|]. split; [reflexivity|].
  assert (Ht : wiltingPoint a
               <= (if Qgeb (aq_upperMoisture a) (porosity a)
                   then porosity a - XTOL else aq_upperMoisture a)
               /\ (if Qgeb (aq_upperMoisture a) (porosity a)
                   then porosity a - XTOL else aq_upperMoisture a)
                  < porosity a).
  { unfold XTOL in *. qcase; split; lra. }
  destruct Ht as [Ht1 Ht2].
  split; [exact Ht1|]. split; [exact Ht2|].
  split; [unfold XTOL in *; qcase; lra|].
  split; [unfold XTOL in *; qcase; lra|].
  apply Qle_shift_div_l; [exact Hfp|]. nra.
Qed.

(* ------------------------------------------------------------------ *)
(** ** Fluxes of one evaluation *)

Lemma getFluxes_deep_upper (s : SWMM_Project) (lowerDepth : Q) :
  upper_fluxes (getFluxes_deep s lowerDepth) = upper_fluxes s.
Proof.
  unfold getFluxes_deep. cbv zeta.
  destruct (DeepFlowExpr (gwtr s)); reflexivity.
Qed.

Lemma getFluxes_lateral_upper (s : SWMM_Project) (lowerDepth : Q) :
  upper_fluxes (getFluxes_lateral s lowerDepth) = upper_fluxes s.
Proof.
  unfold getFluxes_lateral. cbv zeta.
  cbn [GwaterShared gwtr_wr set set_GwaterShared set_GWFlow LatFlowExpr].
  destruct (LatFlowExpr (gwtr s)); qcase; reflexivity.
Qed.

Lemma upper_fluxes_inv (s s' : SWMM_Project) :
  upper_fluxes s' = upper_fluxes s ->
  UpperEvap (gwtr s') = UpperEvap (gwtr s) /\
  LowerEvap (gwtr s') = LowerEvap (gwtr s) /\
  UpperPerc (gwtr s') = UpperPerc (gwtr s) /\
  HydCon (gwtr s') = HydCon (gwtr s).
Proof.
  unfold upper_fluxes. intros H. injection H. intros. repeat split; assumption.
Qed.

Lemma getEvapRates_HydCon (s : SWMM_Project) (theta upperDepth : Q) :
  HydCon (gwtr (getEvapRates s theta upperDepth)) = HydCon (gwtr s).
Proof. unfold getEvapRates. cbn. repeat (qcase; cbn); reflexivity. Qed.

(** The percolation rate and the conductivity after the percolation lines
    of [getFluxes]. *)
Lemma getFluxes_perc_spec (s : SWMM_Project) (theta upperDepth : Q) :
  let a := A (gwtr s) in
  let s' := getFluxes_perc s theta upperDepth in
  let hydcon := conductivity a * exp ((theta - porosity a) * conductSlope a) in
  (upperDepth <= 0 \/ theta <= fieldCapacity a ->
   UpperPerc (gwtr s') = MIN 0 (MaxUpperPerc (gwtr s)) /\
   HydCon (gwtr s') = HydCon (gwtr s)) /\
  (0 < upperDepth -> fieldCapacity a < theta ->
   HydCon (gwtr s') = hydcon /\
   UpperPerc (gwtr s')
   = MIN (hydcon * (1 + tensionSlope a * 2 * (theta - fieldCapacity a)
                        / upperDepth))
         (MaxUpperPerc (gwtr s))) /\
  UpperPerc (gwtr s') <= MaxUpperPerc (gwtr s).
Proof.
  intros a s' hydcon. subst s' hydcon a.
  unfold getFluxes_perc, getUpperPerc. cbv zeta.
  destruct (Qleb upperDepth 0) eqn:H1; [apply Qleb_true in H1|apply Qleb_false in H1];
  (destruct (Qleb theta (fieldCapacity (A (gwtr s)))) eqn:H2;
    [apply Qleb_true in H2|apply Qleb_false in H2]); cbn;
  (split; [|split]); try (intros; exfalso; lra); try apply MIN_le_r;
  try (intros; split; reflexivity).
Qed.

(** X7.  The percolation rate that [getFluxes] leaves is never above the
    ceiling [MaxUpperPerc].  With an upper zone of no depth, or with theta
    at or below the field capacity, it is 0 under that ceiling and the
    unsaturated conductivity [HydCon], which flow expressions read as K, is
    not renewed: it keeps the value of an earlier evaluation.  Otherwise
    [HydCon] is conductivity * exp ((theta - porosity) * conductSlope) and
    the rate is [HydCon] times 1 + tensionSlope * 2 * (theta -
    fieldCapacity) / upperDepth, under the ceiling; the depth of the upper
    zone is TotalDepth less the lower depth brought into [0, TotalDepth]. *)
Theorem getFluxes_percolation (sp : SWMM_Project) (theta lowerDepth : Q) :
  let a := A (gwtr sp) in
  let ldc := MIN (MAX lowerDepth 0) (TotalDepth (gwtr sp)) in
  let upperDepth := TotalDepth (gwtr sp) - ldc in
  let sp' := getFluxes sp theta lowerDepth in
  let hydcon := conductivity a * exp ((theta - porosity a) * conductSlope a) in
  (upperDepth <= 0 \/ theta <= fieldCapacity a ->
   UpperPerc (gwtr sp') = MIN 0 (MaxUpperPerc (gwtr sp)) /\
   HydCon (gwtr sp') = HydCon (gwtr sp)) /\
  (0 < upperDepth -> fieldCapacity a < theta ->
   HydCon (gwtr sp') = hydcon /\
   UpperPerc (gwtr sp')
   = MIN (hydcon * (1 + tensionSlope a * 2 * (theta - fieldCapacity a)
                        / upperDepth))
         (MaxUpperPerc (gwtr sp))) /\
  UpperPerc (gwtr sp') <= MaxUpperPerc (gwtr sp).
Proof.
  intros a ldc upperDepth sp' hydcon. subst sp' hydcon a.
  unfold getFluxes. cbv zeta. fold ldc. fold upperDepth.
  set (s0 := gwtr_wr Theta theta (gwtr_wr Hgw ldc sp)).
  set (s1 := getEvapRates s0 theta upperDepth).
  destruct (upper_fluxes_inv _ _
              (eq_trans (getFluxes_lateral_upper _ ldc)
                        (getFluxes_deep_upper
                           (getFluxes_perc s1 theta upperDepth) ldc)))
    as (_ & _ & -> & ->).
  assert (Hs : same_step s1 sp).
  { subst s1. eapply same_step_trans; [apply getEvapRates_same|].
    subst s0. split; reflexivity. }
  destruct Hs as [_ Hi]. apply inputs_inv in Hi.
  destruct Hi as (Hc & _ & _ & Hm & _). apply ctx_inv in Hc.
  destruct Hc as (_ & _ & _ & HA & _).
  assert (Hk : HydCon (gwtr s1) = HydCon (gwtr sp)).
  { subst s1. rewrite getEvapRates_HydCon. reflexivity. }
  pose proof (getFluxes_perc_spec s1 theta upperDepth) as H.
  cbv zeta in H. rewrite HA, Hm, Hk in H. exact H.
Qed.


Lemma getGWFlow_same (s s' : SWMM_Project) (lowerDepth : Q) :
  same_step s s' -> getGWFlow s lowerDepth = getGWFlow s' lowerDepth.
Proof.
  intros H. destruct (same_step_inv _ _ H) as (HS & _ & _ & Hi & HG).
  apply inputs_inv in Hi. destruct Hi as (_ & Hh & Hw & _).
  unfold getGWFlow, getGWFlow_q, getGWFlow_t1, getGWFlow_t2, getGWFlow_t3,
    GWobj, gwobj.
  rewrite HS, HG, Hh, Hw. reflexivity.
Qed.

Lemma getFluxes_lateral_spec (s : SWMM_Project) (lowerDepth : Q) :
  let q := match LatFlowExpr (gwtr s) with
           | Some e => getGWFlow s lowerDepth +
                       mathexpr_eval e (getVariableValue s) / UCF GWFLOW
           | None => getGWFlow s lowerDepth
           end in
  GWFlow (gwtr (getFluxes_lateral s lowerDepth))
  = if Qgeb q 0 then MIN q (MaxGWFlowPos (gwtr s))
    else MAX q (MaxGWFlowNeg (gwtr s)).
Proof.
  unfold getFluxes_lateral. cbv zeta.
  cbn [GwaterShared gwtr_wr set set_GwaterShared set_GWFlow LatFlowExpr
       GWFlow MaxGWFlowPos MaxGWFlowNeg].
  destruct (LatFlowExpr (gwtr s)).
  - cbn [GwaterShared gwtr_wr set set_GwaterShared set_GWFlow LatFlowExpr
         GWFlow MaxGWFlowPos MaxGWFlowNeg].
    change (getVariableValue _) with (getVariableValue s).
    destruct (Qgeb _ 0); reflexivity.
  - destruct (Qgeb _ 0); reflexivity.
Qed.

(** X8.  The lateral flow that [getFluxes] leaves.  A value that is not
    negative is capped from above by [MaxGWFlowPos], a negative one from
    below by [MaxGWFlowNeg].  Without a user expression the value capped is
    that of [getGWFlow] at the lower depth brought into [0, TotalDepth];
    with one, the value of the expression over the flow conversion factor
    is added before the cap, and the expression is evaluated in a project
    whose scratch record holds the depth and theta of this evaluation and
    the percolation rate and conductivity that [getFluxes] has just
    computed.  Whenever MaxGWFlowNeg <= 0 <= MaxGWFlowPos the flow lies
    between the two. *)
Theorem getFluxes_lateral_flow (sp : SWMM_Project) (theta lowerDepth : Q) :
  let ldc := MIN (MAX lowerDepth 0) (TotalDepth (gwtr sp)) in
  let sp' := getFluxes sp theta lowerDepth in
  let cap q := if Qgeb q 0 then MIN q (MaxGWFlowPos (gwtr sp))
               else MAX q (MaxGWFlowNeg (gwtr sp)) in
  (LatFlowExpr (gwtr sp) = None ->
   GWFlow (gwtr sp') = cap (getGWFlow sp ldc)) /\
  (forall e, LatFlowExpr (gwtr sp) = Some e ->
   exists s,
     same_step s sp /\ Hgw (gwtr s) = ldc /\ Theta (gwtr s) = theta /\
     UpperPerc (gwtr s) = UpperPerc (gwtr sp') /\
     HydCon (gwtr s) = HydCon (gwtr sp') /\
     GWFlow (gwtr sp')
     = cap (getGWFlow sp ldc +
            mathexpr_eval e (getVariableValue s) / UCF GWFLOW)) /\
  (MaxGWFlowNeg (gwtr sp) <= 0 -> 0 <= MaxGWFlowPos (gwtr sp) ->
   MaxGWFlowNeg (gwtr sp) <= GWFlow (gwtr sp') /\
   GWFlow (gwtr sp') <= MaxGWFlowPos (gwtr sp)).
Proof.
  intros ldc sp' cap. subst sp'. unfold getFluxes. cbv zeta. fold ldc.
  set (s0 := gwtr_wr Theta theta (gwtr_wr Hgw ldc sp)).
  set (s := getFluxes_deep _ ldc).
  assert (Hs : same_step s sp).
  { subst s. eapply same_step_trans; [apply getFluxes_deep_same|].
    eapply same_step_trans; [apply getFluxes_perc_same|].
    eapply same_step_trans; [apply getEvapRates_same|].
    subst s0. split; reflexivity. }
  assert (Ha : at_state s = (ldc, theta)).
  { subst s. rewrite getFluxes_deep_at, getFluxes_perc_at, getEvapRates_at.
    reflexivity. }
  unfold at_state in Ha. injection Ha as Ha1 Ha2.
  destruct (upper_fluxes_inv _ _ (getFluxes_lateral_upper s ldc))
    as (_ & _ & Hu & Hk).
  pose proof (getFluxes_lateral_spec s ldc) as HG. cbv zeta in HG.
  rewrite (getGWFlow_same s sp ldc Hs) in HG.
  pose proof Hs as [_ Hi]. apply inputs_inv in Hi.
  destruct Hi as (Hc & _ & _ & _ & Hp & Hn). apply ctx_inv in Hc.
  destruct Hc as (_ & Hl & _).
  rewrite Hp, Hn, Hl in HG.
  split; [|split].
  - intros He. rewrite He in HG. exact HG.
  - intros e He. rewrite He in HG. exists s. auto 10.
  - intros H1 H2. rewrite HG. unfold MIN, MAX.
    repeat qcase; split; lra.
Qed.

(** X9.  With an interaction coefficient [a3] that is not zero, the
    built-in lateral flow of [getGWFlow] is never negative, at any depth:
    it is 0 at or below [Hstar], and a negative combined flow is replaced
    by 0. *)
Theorem getGWFlow_nonnegative (sp : SWMM_Project) (lowerDepth : Q) :
  ~ a3 (GWobj sp) == 0 -> 0 <= getGWFlow sp lowerDepth.
Proof.
  intros H. apply Qneb_true in H. unfold getGWFlow. cbv zeta. rewrite H.
  rewrite andb_true_r. repeat qcase; lra.
Qed.

(** X10.  [getDxDt] evaluates the fluxes once, with [getFluxes] at the
    state it is given, and returns the project as that evaluation leaves
    it.  With a positive upper depth TotalDepth - x[LOWERDEPTH] the
    derivative of theta is (Infil - UpperEvap - UpperPerc) over that depth;
    with a positive moisture deficit porosity - x[THETA] the derivative of
    the lower depth is (UpperPerc - LowerLoss - LowerEvap - GWFlow) over
    that deficit; the depth and the deficit are those of the shared
    variables before the call.  A derivative is 0 where its denominator is
    not positive. *)
Theorem getDxDt_derivatives (sp : SWMM_Project) (t : Q) (x : Q * Q) :
  let r := getDxDt sp t x in
  let F := gwtr (fst r) in
  let upperDepth := TotalDepth (gwtr sp) - snd x in
  let deficit := porosity (A (gwtr sp)) - fst x in
  fst r = getFluxes sp (fst x) (snd x) /\
  (0 < upperDepth ->
   fst (snd r) = (Infil F - UpperEvap F - UpperPerc F) / upperDepth) /\
  (0 < deficit ->
   snd (snd r)
   = (UpperPerc F - LowerLoss F - LowerEvap F - GWFlow F) / deficit) /\
  (upperDepth <= 0 -> fst (snd r) = 0) /\
  (deficit <= 0 -> snd (snd r) = 0).
Proof.
  intros r F upperDepth deficit. subst r F upperDepth deficit.
  unfold getDxDt. cbv zeta. cbn [fst snd].
  destruct (same_step_inv _ _ (getFluxes_same sp (fst x) (snd x)))
    as (_ & _ & _ & Hi & _).
  apply inputs_inv in Hi. destruct Hi as (Hc & _). apply ctx_inv in Hc.
  destruct Hc as (_ & _ & _ & HA & _ & _ & _ & _ & _ & _ & HT).
  split; [reflexivity|].
  revert HA HT. generalize (getFluxes sp (fst x) (snd x)).
  intros s' -> ->.
  repeat split; intros; repeat qcase; try reflexivity; try lra.
Qed.

Ltac rec :=
  cbn [GwaterShared gwtr_wr set set_GwaterShared set_LowerEvap set_UpperEvap
       Infil A MaxEvap AvailEvap UpperEvap LowerEvap] in *.

(** X11.  What switches the two evaporation rates of [getEvapRates] off:
    the upper one is 0 when theta is not above the wilting point; the lower
    one is 0 when the aquifer's lower evaporation depth is not positive,
    and is a zero number when that depth does not reach below the upper
    zone (lowerEvapDepth <= upperDepth) and the available rate is not
    negative.  Without infiltration, with theta above the wilting point and
    without a monthly pattern, the upper rate is upperEvapFrac * 1 *
    MaxEvap capped by the available rate. *)
Theorem getEvapRates_gates (sp : SWMM_Project) (theta upperDepth : Q) :
  let a := A (gwtr sp) in
  let sp' := getEvapRates sp theta upperDepth in
  (theta <= wiltingPoint a -> UpperEvap (gwtr sp') = 0) /\
  (lowerEvapDepth a <= 0 -> LowerEvap (gwtr sp') = 0) /\
  (0 <= AvailEvap (gwtr sp) -> lowerEvapDepth a <= upperDepth ->
   LowerEvap (gwtr sp') == 0) /\
  (Infil (gwtr sp) <= 0 -> wiltingPoint a < theta ->
   (upperEvapPat a < 0)%Z ->
   UpperEvap (gwtr sp')
   = MIN (upperEvapFrac a * 1 * MaxEvap (gwtr sp)) (AvailEvap (gwtr sp))).
Proof.
  intros a sp'. subst a sp'. unfold getEvapRates. cbv zeta. rec.
  set (f := if (0 <=? upperEvapPat (A (gwtr sp)))%Z then _ else 1).
  split; [|split; [|split]].
  - intros H. repeat (qcase; rec); first [reflexivity | lra].
  - intros H. repeat (qcase; rec); first [reflexivity | lra].
  - intros H1 H2. rec. qcase; [reflexivity|].
    assert (Hf : forall d, 0 < d -> d <= upperDepth ->
                 MIN (MAX 0 ((d - upperDepth) / d)) 1 == 0).
    { intros d Hd Hle. assert (Hq : (d - upperDepth) / d <= 0).
      { apply Qle_shift_div_r; [exact Hd | lra]. }
      unfold MIN, MAX. repeat qcase; lra. }
    assert (Hu : forall u, MIN u (AvailEvap (gwtr sp)) <= AvailEvap (gwtr sp))
      by (intros; apply MIN_le_r).
    revert Hu. generalize (upperEvapFrac (A (gwtr sp)) * f). intros uf Hu.
    destruct (Qgtb theta (wiltingPoint (A (gwtr sp)))); rec;
      (destruct (Qgtb (lowerEvapDepth (A (gwtr sp))) 0) eqn:Hd; rec;
       [apply Qgtb_true in Hd|reflexivity]);
      specialize (Hf _ Hd H2); revert Hf;
      generalize (MIN (MAX 0 ((lowerEvapDepth (A (gwtr sp)) - upperDepth)
                              / lowerEvapDepth (A (gwtr sp)))) 1);
      intros lf Hf; unfold MIN at 1; qcase;
      first [rewrite Hf; ring | rewrite Hf in *].
    + specialize (Hu (uf * MaxEvap (gwtr sp))). lra.
    + lra.
  - intros H1 H2 H3. rec. apply Qgtb_false in H1. rewrite H1.
    apply Qgtb_true in H2. rewrite H2. rec.
    subst f. apply Z.leb_gt in H3. rewrite H3. clear H1 H2 H3.
    destruct (Qgtb _ 0); reflexivity.
Qed.

(* ------------------------------------------------------------------ *)
(** ** What a step leaves alone, and what it stores *)

Lemma step_only_refl (j : nat) (s : SWMM_Project) : step_only j s s.
Proof. split; [apply only_groundwater_refl | split; reflexivity]. Qed.

Lemma step_only_trans (j : nat) (s1 s2 s3 : SWMM_Project) :
  step_only j s1 s2 -> step_only j s2 s3 -> step_only j s1 s3.
Proof.
  intros (H1 & E1 & G1) (H2 & E2 & G2). split; [|split; congruence].
  apply (only_groundwater_trans j s1 s2 s3); assumption.
Qed.

Lemma step_only_GW_wr {T : Type} (f : TGroundwater -> T) `{!Setter f}
    (v : T) (j : nat) (s : SWMM_Project) :
  GW (gwtr s) = Some j -> step_only j s (GW_wr f v s).
Proof.
  intros H. unfold GW_wr. rewrite H.
  split; [apply only_groundwater_gw_wr | split; reflexivity].
Qed.

Lemma step_only_same (j : nat) (s s' : SWMM_Project) :
  same_step s' s -> step_only j s s'.
Proof.
  intros H. destruct (same_step_inv _ _ H) as (_ & _ & _ & _ & HG).
  destruct H as [Ho _].
  split; [apply only_groundwater_outside; exact Ho|].
  split; [apply outside_inv in Ho; tauto | exact HG].
Qed.

Lemma saveState_only (s : SWMM_Project) (j : nat) (x : Q * Q) :
  GW (gwtr s) = Some j -> step_only j s (saveState s x).
Proof.
  intros HG. unfold saveState. cbv zeta.
  pose proof (step_only_GW_wr theta (fst x) j s HG) as H1.
  eapply step_only_trans; [exact H1|]. apply step_only_GW_wr.
  destruct H1 as (_ & _ & ->). exact HG.
Qed.

Lemma saveFlows_only (s : SWMM_Project) (j : nat) :
  GW (gwtr s) = Some j -> step_only j s (saveFlows s).
Proof.
  intros HG. unfold saveFlows. cbv zeta.
  pose proof (step_only_GW_wr oldFlow (newFlow (GWobj s)) j s HG) as H1.
  revert H1. generalize (GW_wr oldFlow (newFlow (GWobj s)) s). intros s1 H1.
  assert (HG1 : GW (gwtr s1) = Some j)
    by (destruct H1 as (_ & _ & ->); exact HG).
  pose proof (step_only_GW_wr newFlow (GWFlow (gwtr s1)) j s1 HG1) as H2.
  revert H2. generalize (GW_wr newFlow (GWFlow (gwtr s1)) s1). intros s2 H2.
  assert (HG2 : GW (gwtr s2) = Some j)
    by (destruct H2 as (_ & _ & ->); exact HG1).
  eapply step_only_trans; [exact H1|].
  eapply step_only_trans; [exact H2|]. apply step_only_GW_wr. exact HG2.
Qed.

Lemma saveNewState_only (s : SWMM_Project) (j : nat) (infil tStep : Q)
    (x : Q * Q) :
  GW (gwtr s) = Some j -> step_only j s (saveNewState s j infil tStep x).
Proof.
  intros HG. unfold saveNewState. cbv zeta.
  generalize (keepInBounds s x). intros x'.
  pose proof (saveState_only s j x' HG) as H1.
  revert H1. generalize (saveState s x'). intros s1 H1.
  assert (H2 : step_only j s
                 (getFluxes s1 (theta (GWobj s1)) (lowerDepth (GWobj s1)))).
  { eapply step_only_trans; [exact H1|].
    apply step_only_same, getFluxes_same. }
  revert H2.
  generalize (getFluxes s1 (theta (GWobj s1)) (lowerDepth (GWobj s1))).
  clear s1 H1. intros s2 H2.
  assert (HG2 : GW (gwtr s2) = Some j)
    by (destruct H2 as (_ & _ & ->); exact HG).
  assert (H3 : step_only j s (saveFlows s2)).
  { eapply step_only_trans; [exact H2|]. apply saveFlows_only, HG2. }
  revert H3. generalize (saveFlows s2). clear s2 H2 HG2. intros s3 H3.
  assert (HG3 : GW (gwtr s3) = Some j)
    by (destruct H3 as (_ & _ & ->); exact HG).
  assert (H4 : step_only j s (saveMaxInfilVol s3 x')).
  { eapply step_only_trans; [exact H3|]. unfold saveMaxInfilVol.
    apply step_only_GW_wr, HG3. }
  revert H4. generalize (saveMaxInfilVol s3 x'). clear s3 H3 HG3.
  intros s4 H4.
  eapply step_only_trans; [exact H4|].
  split; [split; reflexivity | split; reflexivity].
Qed.

(** The project at the end of the integration of a step that passes the
    three tests: only the scratch record of the project differs from the
    one the step started from. *)
Lemma gwater_getGroundwater_integrated `{!OdeSolverOk O} (sp : SWMM_Project)
    (j : nat) (evap infil tStep : Q) (gw : TGroundwater) :
  groundwater (Subcatch sp !!! j) = Some gw ->
  0 < subcatch_getFracPerv j ->
  0 < surfElev gw - bottomElev gw ->
  exists s x,
    StepCtx sp j gw evap infil tStep s /\ outside s = outside sp /\
    gwater_getGroundwater sp j evap infil tStep
    = saveNewState s j (infil / area (Subcatch sp !!! j) / tStep) tStep x.
Proof.
  intros Hg Hf Hd.
  pose proof (stepContext_spec sp j evap infil tStep gw Hg) as Hc.
  unfold gwater_getGroundwater. cbv zeta.
  set (s1 := gwtr_wr GW (gw_ptr sp j) sp).
  change (GW (gwtr s1)) with (gw_ptr sp j).
  rewrite (gw_ptr_some _ _ _ Hg).
  destruct (bool_decide_reflect (Some j = @None nat)) as [Hx|_];
    [discriminate|].
  set (s2 := saveObjects s1 j).
  change (FracPerv (gwtr s2)) with (subcatch_getFracPerv j).
  apply Qleb_false in Hf. rewrite Hf.
  set (s3 := gwtr_wr Area (area (Subcatch s2 !!! j)) s2).
  set (s4 := setRates s3 evap (infil / Area (gwtr s3) / tStep) tStep).
  change (TotalDepth (gwtr s4))
    with (surfElev (GWobj s3) - bottomElev (GWobj s3)).
  assert (H3 : GWobj s3 = gw).
  { apply (GWobj_eq _ j); [apply (gw_ptr_some _ _ _ Hg) | exact Hg]. }
  rewrite H3. apply Qleb_false in Hd. rewrite Hd.
  set (s5 := setHeads s4).
  set (c := setLimits s5 tStep (theta (GWobj s5), lowerDepth (GWobj s5))).
  change (stepContext sp j evap infil tStep) with c in Hc.
  assert (Ho : outside c = outside sp).
  { subst c. rewrite (proj1 (setLimits_spec s5 tStep _)).
    subst s5. rewrite (proj1 (setHeads_spec s4)).
    subst s4. rewrite (proj1 (setRates_spec s3 evap _ tStep)). reflexivity. }
  set (r := odesolve_integrate c _ _ _ _ _ _ getDxDt).
  exists (fst r), (snd r).
  pose proof (odesolve_same c (theta (GWobj s5), lowerDepth (GWobj s5))
                2%Z 0 tStep GWTOL tStep : same_step (fst r) c) as Hs.
  destruct (same_step_inv _ _ Hs) as (_ & _ & _ & Hi & _).
  split; [exact (StepCtx_inputs _ _ _ _ _ _ _ _ Hc Hi)|].
  split; [destruct Hs as [-> _]; exact Ho | reflexivity].
Qed.

(** A call that one of the three tests ends changes the scratch record
    only. *)
Lemma gwater_getGroundwater_skipped (sp : SWMM_Project) (j : nat)
    (evap infil tStep : Q) :
  groundwater (Subcatch sp !!! j) = None \/
  subcatch_getFracPerv j <= 0 \/
  surfElev (gwobj sp j) - bottomElev (gwobj sp j) <= 0 ->
  outside (gwater_getGroundwater sp j evap infil tStep) = outside sp.
Proof.
  intros H. unfold gwater_getGroundwater. cbv zeta.
  set (s1 := gwtr_wr GW (gw_ptr sp j) sp).
  change (GW (gwtr s1)) with (gw_ptr sp j).
  destruct (groundwater (Subcatch sp !!! j)) as [gw|] eqn:Hg.
  - rewrite (gw_ptr_some _ _ _ Hg).
    destruct (bool_decide_reflect (Some j = @None nat)) as [Hx|_];
      [discriminate|].
    set (s2 := saveObjects s1 j).
    change (FracPerv (gwtr s2)) with (subcatch_getFracPerv j).
    qcase; [reflexivity|].
    set (s3 := gwtr_wr Area (area (Subcatch s2 !!! j)) s2).
    set (s4 := setRates s3 evap (infil / Area (gwtr s3) / tStep) tStep).
    assert (H4 : outside s4 = outside sp).
    { subst s4. rewrite (proj1 (setRates_spec s3 evap _ tStep)).
      reflexivity. }
    change (TotalDepth (gwtr s4))
      with (surfElev (GWobj s3) - bottomElev (GWobj s3)).
    assert (H3 : GWobj s3 = gw).
    { apply (GWobj_eq _ j); [apply (gw_ptr_some _ _ _ Hg) | exact Hg]. }
    rewrite H3. qcase; [exact H4|].
    exfalso. rewrite (gwobj_of _ _ _ Hg) in H.
    destruct H as [H|[H|H]]; [discriminate | lra | lra].
  - unfold gw_ptr. rewrite Hg.
    destruct (bool_decide_reflect (@None nat = None)) as [_|Hx];
      [reflexivity | congruence].
Qed.

(** X12.  What no call of [gwater_getGroundwater] changes, whether the
    step is skipped or completed: the aquifers, the nodes, the patterns,
    the evaporation rate and the time, every other subcatchment, the ID,
    area and flow expressions of subcatchment [j], the error log, and the
    parameters of the groundwater object of [j]; a subcatchment without
    groundwater still has none. *)
Theorem gwater_getGroundwater_leaves `{!OdeSolverOk O} (sp : SWMM_Project)
    (j : nat) (evap infil tStep : Q) :
  let sp' := gwater_getGroundwater sp j evap infil tStep in
  only_groundwater j sp sp' /\ ErrorLog sp' = ErrorLog sp /\
  (groundwater (Subcatch sp !!! j) = None ->
   groundwater (Subcatch sp' !!! j) = None) /\
  (forall gw, groundwater (Subcatch sp !!! j) = Some gw ->
   exists gw',
     groundwater (Subcatch sp' !!! j) = Some gw' /\
     gw_params gw' = gw_params gw).
Proof.
  intros sp'.
  assert (Hout : outside sp' = outside sp ->
                 only_groundwater j sp sp' /\ ErrorLog sp' = ErrorLog sp /\
                 Subcatch sp' = Subcatch sp).
  { intros Ho. split; [apply only_groundwater_outside, Ho|].
    apply outside_inv in Ho. tauto. }
  destruct (groundwater (Subcatch sp !!! j)) as [gw|] eqn:Hg.
  - destruct (Qlt_le_dec 0 (subcatch_getFracPerv j)) as [Hf|Hf];
      [destruct (Qlt_le_dec 0 (surfElev gw - bottomElev gw)) as [Hd|Hd]|].
    + destruct (gwater_getGroundwater_integrated sp j evap infil tStep gw
                  Hg Hf Hd) as (s & x & Hc & Ho & E1).
      destruct (gwater_getGroundwater_result sp j evap infil tStep gw
                  Hg Hf Hd) as (s' & x' & _ & _ & _ & Hgw' & _).
      fold sp' in E1, Hgw'.
      destruct (saveNewState_only s j
                  (infil / area (Subcatch sp !!! j) / tStep) tStep x
                  (ctx_GW _ _ _ _ _ _ _ Hc)) as (H1 & H2 & _).
      rewrite <- E1 in H1, H2.
      split; [|split; [|split]].
      * apply (only_groundwater_trans j sp s);
          [apply only_groundwater_outside, Ho | exact H1].
      * rewrite H2. apply outside_inv in Ho. tauto.
      * discriminate.
      * intros g Hx. injection Hx as Hx. rewrite <- Hx. eexists. split; [exact Hgw'|]. reflexivity.
    + destruct Hout as (H1 & H2 & H3).
      { apply gwater_getGroundwater_skipped. right. right.
        rewrite (gwobj_of _ _ _ Hg). exact Hd. }
      split; [exact H1|]. split; [exact H2|]. split; [discriminate|].
      intros g Hx. injection Hx as Hx. rewrite <- Hx. exists gw. rewrite H3. split; [exact Hg | reflexivity].
    + destruct Hout as (H1 & H2 & H3).
      { apply gwater_getGroundwater_skipped. right. left. exact Hf. }
      split; [exact H1|]. split; [exact H2|]. split; [discriminate|].
      intros g Hx. injection Hx as Hx. rewrite <- Hx. exists gw. rewrite H3. split; [exact Hg | reflexivity].
  - destruct Hout as (H1 & H2 & H3).
    { apply gwater_getGroundwater_skipped. left. exact Hg. }
    split; [exact H1|]. split; [exact H2|].
    split; [intros _; rewrite H3; exact Hg | discriminate].
Qed.

Lemma getEvapRates_infiltrating_zero (s : SWMM_Project) (theta upperDepth : Q) :
  let s' := getEvapRates s theta upperDepth in
  0 < Infil (gwtr s) ->
  UpperEvap (gwtr s') = 0 /\ LowerEvap (gwtr s') = 0.
Proof.
  intros s' H. subst s'.
  rewrite (getEvapRates_infiltrating _ _ _ H). split; reflexivity.
Qed.

Lemma getFluxes_perc_evap (s : SWMM_Project) (theta upperDepth : Q) :
  UpperEvap (gwtr (getFluxes_perc s theta upperDepth)) = UpperEvap (gwtr s) /\
  LowerEvap (gwtr (getFluxes_perc s theta upperDepth)) = LowerEvap (gwtr s).
Proof.
  unfold getFluxes_perc, getUpperPerc. cbv zeta.
  destruct (_ || _); split; reflexivity.
Qed.

(** The two evaporation rates that [getFluxes] leaves when the infiltration
    rate is positive. *)
Lemma getFluxes_evap (s : SWMM_Project) (theta lowerDepth : Q) :
  let s' := getFluxes s theta lowerDepth in
  0 < Infil (gwtr s) ->
  UpperEvap (gwtr s') = 0 /\ LowerEvap (gwtr s') = 0.
Proof.
  intros s'. subst s'. unfold getFluxes. cbv zeta.
  set (ldc := MIN (MAX lowerDepth 0) (TotalDepth (gwtr s))).
  set (s0 := gwtr_wr Theta theta (gwtr_wr Hgw ldc s)).
  destruct (upper_fluxes_inv _ _
              (eq_trans (getFluxes_lateral_upper _ ldc)
                        (getFluxes_deep_upper
                           (getFluxes_perc
                              (getEvapRates s0 theta (TotalDepth (gwtr s) - ldc))
                              theta (TotalDepth (gwtr s) - ldc)) ldc)))
    as (-> & -> & _).
  destruct (getFluxes_perc_evap
              (getEvapRates s0 theta (TotalDepth (gwtr s) - ldc))
              theta (TotalDepth (gwtr s) - ldc)) as [-> ->].
  exact (getEvapRates_infiltrating_zero s0 theta (TotalDepth (gwtr s) - ldc)).
Qed.

Ltac gw_fields_goal :=
  cbn [set set_theta set_lowerDepth set_oldFlow set_newFlow set_evapLoss
       set_maxInfilVol theta lowerDepth oldFlow newFlow evapLoss maxInfilVol].

(** X13.  The evaporation loss that a completed step stores is the sum
    of the two evaporation rates of the flux evaluation at the stored
    state, and it is a zero number when the infiltration rate of the step
    is positive. *)
Theorem gwater_getGroundwater_evapLoss `{!OdeSolverOk O} (sp : SWMM_Project)
    (j : nat) (evap infil tStep : Q) (gw : TGroundwater) :
  groundwater (Subcatch sp !!! j) = Some gw ->
  0 < subcatch_getFracPerv j ->
  0 < surfElev gw - bottomElev gw ->
  let sp' := gwater_getGroundwater sp j evap infil tStep in
  let a := area (Subcatch sp !!! j) in
  exists gw',
    groundwater (Subcatch sp' !!! j) = Some gw' /\
    evapLoss gw' = UpperEvap (gwtr sp') + LowerEvap (gwtr sp') /\
    (0 < infil / a / tStep -> evapLoss gw' == 0).
Proof.
  intros Hg Hf Hd sp' a.
  destruct (gwater_getGroundwater_result sp j evap infil tStep gw Hg Hf Hd)
    as (s & x0 & Hc & _ & HF & Hgw' & _).
  fold sp' in HF, Hgw'.
  eexists. split; [exact Hgw'|]. gw_fields_goal.
  split; [reflexivity|].
  pose proof (getFluxes_evap s (fst (keepInBounds s x0))
                (snd (keepInBounds s x0))) as H2.
  cbv zeta in H2.
  rewrite <- HF in H2.
  rewrite (ctx_Infil _ _ _ _ _ _ _ Hc) in H2.
  intros Hi. destruct (H2 Hi) as [-> ->]. reflexivity.
Qed.

(** X14.  A completed step adds one entry to the statistics sink: the
    subcatchment, the infiltration rate infil / area / tStep, and the
    values the step has just stored or left, namely the evaporation loss,
    the lateral flow [newFlow], the deep-loss rate, theta, and the
    water-table elevation lowerDepth + bottomElev; theta and that elevation
    are the first two numbers of the snapshot [gwater_getState] would take
    after the step. *)
Theorem gwater_getGroundwater_stats `{!OdeSolverOk O} (sp : SWMM_Project)
    (j : nat) (evap infil tStep : Q) (gw : TGroundwater) :
  groundwater (Subcatch sp !!! j) = Some gw ->
  0 < subcatch_getFracPerv j ->
  0 < surfElev gw - bottomElev gw ->
  let sp' := gwater_getGroundwater sp j evap infil tStep in
  exists gw',
    groundwater (Subcatch sp' !!! j) = Some gw' /\
    GwaterStatsLog sp'
    = GwaterStatsLog sp ++
      [{| st_subcatch := j;
          st_infil := infil / area (Subcatch sp !!! j) / tStep;
          st_evap := evapLoss gw';
          st_latFlow := newFlow gw';
          st_deepFlow := LowerLoss (gwtr sp');
          st_theta := theta gw';
          st_waterTable := lowerDepth gw' + bottomElev gw';
          st_tStep := tStep |}] /\
    (exists x, gwater_getState sp' j = Some x /\
               fst (fst (fst x)) = theta gw' /\
               snd (fst (fst x)) == lowerDepth gw' + bottomElev gw').
Proof.
  intros Hg Hf Hd sp'.
  destruct (gwater_getGroundwater_result sp j evap infil tStep gw Hg Hf Hd)
    as (s & x0 & Hc & _ & HF & Hgw' & _ & Hst).
  fold sp' in HF, Hgw', Hst.
  eexists. split; [exact Hgw'|]. gw_fields_goal.
  split; [exact Hst|].
  unfold gwater_getState. rewrite Hgw'. eexists. split; [reflexivity|].
  cbn. split; [reflexivity | ring].
Qed.

(** X15.  The infiltration capacity that a completed step stores is
    (surfElev - bottomElev - lowerDepth) * (porosity - theta) over the
    pervious fraction, with the theta and lower depth the step has just
    stored, and it is positive. *)
Theorem gwater_getGroundwater_maxInfilVol `{!OdeSolverOk O}
    (sp : SWMM_Project) (j : nat) (evap infil tStep : Q)
    (gw : TGroundwater) :
  groundwater (Subcatch sp !!! j) = Some gw ->
  0 < subcatch_getFracPerv j ->
  0 < surfElev gw - bottomElev gw ->
  let sp' := gwater_getGroundwater sp j evap infil tStep in
  exists gw',
    groundwater (Subcatch sp' !!! j) = Some gw' /\
    maxInfilVol gw'
    = (surfElev gw - bottomElev gw - lowerDepth gw') *
      (porosity (Aquifer sp !!! aquifer gw) - theta gw') /
      subcatch_getFracPerv j /\
    0 < maxInfilVol gw'.
Proof.
  intros Hg Hf Hd sp'.
  destruct (gwater_getGroundwater_result sp j evap infil tStep gw Hg Hf Hd)
    as (s & x0 & Hc & _ & HF & Hgw' & _).
  fold sp' in HF, Hgw'.
  destruct (same_step_inv _ _
              (getFluxes_same s (fst (keepInBounds s x0))
                 (snd (keepInBounds s x0)))) as (_ & _ & _ & Hi & _).
  apply inputs_inv in Hi. destruct Hi as (Hx & _). apply ctx_inv in Hx.
  destruct Hx as (_ & _ & _ & HA & HP & _ & _ & _ & _ & _ & HT).
  rewrite <- HF in HA, HP, HT.
  rewrite (ctx_A _ _ _ _ _ _ _ Hc) in HA.
  rewrite (ctx_FracPerv _ _ _ _ _ _ _ Hc) in HP.
  rewrite (ctx_TotalDepth _ _ _ _ _ _ _ Hc) in HT.
  eexists. split; [exact Hgw'|]. gw_fields_goal.
  rewrite HA, HP, HT.
  split; [reflexivity|].
  destruct (keepInBounds_upper s x0) as [Hu1 Hu2].
  rewrite (ctx_A _ _ _ _ _ _ _ Hc) in Hu1.
  rewrite (ctx_TotalDepth _ _ _ _ _ _ _ Hc) in Hu2.
  apply Qlt_shift_div_l; [exact Hf|]. nra.
Qed.

(** X16.  For a state with 0 <= theta and 0 <= lowerDepth <= surfElev -
    bottomElev, and a porosity that is not negative, the volume that
    [gwater_getVolume] returns is not negative. *)
Theorem gwater_getVolume_nonnegative (sp : SWMM_Project) (j : nat)
    (gw : TGroundwater) :
  groundwater (Subcatch sp !!! j) = Some gw ->
  0 <= theta gw -> 0 <= porosity (Aquifer sp !!! aquifer gw) ->
  0 <= lowerDepth gw -> lowerDepth gw <= surfElev gw - bottomElev gw ->
  0 <= gwater_getVolume sp j.
Proof.
  intros Hg H1 H2 H3 H4.
  rewrite (gwater_getVolume_of _ _ _ Hg). nra.
Qed.

(** X17.  The state a completed step stores, whatever the state before
    it: theta < porosity and lowerDepth < surfElev - bottomElev always;
    wiltingPoint <= theta when wiltingPoint <= porosity - XTOL, and 0 <=
    lowerDepth when XTOL <= surfElev - bottomElev. *)
Theorem gwater_getGroundwater_keeps_bounds `{!OdeSolverOk O}
    (sp : SWMM_Project) (j : nat) (evap infil tStep : Q)
    (gw : TGroundwater) :
  groundwater (Subcatch sp !!! j) = Some gw ->
  0 < subcatch_getFracPerv j ->
  0 < surfElev gw - bottomElev gw ->
  let a := Aquifer sp !!! aquifer gw in
  let totalDepth := surfElev gw - bottomElev gw in
  exists gw',
    groundwater (Subcatch (gwater_getGroundwater sp j evap infil tStep) !!! j)
    = Some gw' /\
    theta gw' < porosity a /\ lowerDepth gw' < totalDepth /\
    (wiltingPoint a <= porosity a - XTOL -> wiltingPoint a <= theta gw') /\
    (XTOL <= totalDepth -> 0 <= lowerDepth gw').
Proof.
  intros Hg Hf Hd a totalDepth. subst a totalDepth.
  destruct (gwater_getGroundwater_result sp j evap infil tStep gw Hg Hf Hd)
    as (s & x0 & Hc & _ & _ & Hgw' & _).
  eexists. split; [exact Hgw'|]. gw_fields_goal.
  destruct (keepInBounds_upper s x0) as [Hu1 Hu2].
  destruct (keepInBounds_lower s x0) as [Hl1 Hl2].
  rewrite (ctx_A _ _ _ _ _ _ _ Hc) in Hu1, Hl1.
  rewrite (ctx_TotalDepth _ _ _ _ _ _ _ Hc) in Hu2, Hl2.
  auto.
Qed.

End MoreProperties.

(* ================================================================== *)
(** * Properties of the input functions *)

Section InputProperties.

Context {E : Externs} {I : InputExterns}.

Lemma getDoubles_inr (toks : list string) (x : list Q) :
  getDoubles toks = inr x ->
  Forall2 (fun s v => getDouble s = Some v) toks x.
Proof.
  revert x. induction toks as [|s rest IH]; intros x H; cbn in H.
  - injection H as <-. constructor.
  - destruct (getDouble s) as [v|] eqn:Hs; [|discriminate].
    destruct (getDoubles rest) as [e|y]; [discriminate|].
    cbn in H. injection H as <-. constructor; auto.
Qed.

Lemma getDoubles_inl (toks : list string) (e : InputError * string) :
  getDoubles toks = inl e ->
  exists i,
    (i < length toks)%nat /\ e = (ERR_NUMBER, toks !!! i) /\
    getDouble (toks !!! i) = None /\
    forall k, (k < i)%nat -> is_Some (getDouble (toks !!! k)).
Proof.
  induction toks as [|s rest IH]; intros H; cbn in H; [discriminate|].
  destruct (getDouble s) as [v|] eqn:Hs.
  - destruct (getDoubles rest) as [e'|y] eqn:Hr; [|discriminate].
    cbn in H. injection H as <-.
    destruct (IH eq_refl) as (i & Hi & He & Hn & Hk).
    exists (S i). split; [cbn; lia|]. split; [exact He|].
    split; [exact Hn|].
    intros [|k] Hlt; [cbn; rewrite Hs; eauto | apply Hk; lia].
  - injection H as <-. exists 0%nat. split; [cbn; lia|].
    split; [reflexivity|]. split; [exact Hs|]. intros k Hk. lia.
Qed.

Lemma getDoubles_first (toks : list string) (i : nat) :
  (i < length toks)%nat -> getDouble (toks !!! i) = None ->
  (forall k, (k < i)%nat -> is_Some (getDouble (toks !!! k))) ->
  getDoubles toks = inl (ERR_NUMBER, toks !!! i).
Proof.
  revert i. induction toks as [|s rest IH]; intros i Hi Hn Hk;
    [cbn in Hi; lia|].
  destruct i as [|i]; cbn in *.
  - rewrite Hn. reflexivity.
  - destruct (Hk 0%nat ltac:(lia)) as [v Hv]. cbn in Hv. rewrite Hv.
    rewrite (IH i); [reflexivity | lia | exact Hn |].
    intros k Hlt. apply (Hk (S k)). lia.
Qed.

Lemma getDoubles_all (toks : list string) :
  (forall k, (k < length toks)%nat -> is_Some (getDouble (toks !!! k))) ->
  exists x, getDoubles toks = inr x.
Proof.
  induction toks as [|s rest IH]; intros Hk; [eexists; reflexivity|].
  destruct (Hk 0%nat ltac:(cbn; lia)) as [v Hv]. cbn in Hv.
  destruct IH as [x Hx].
  { intros k Hlt. apply (Hk (S k)). cbn. lia. }
  exists (v :: x). cbn. rewrite Hv, Hx. reflexivity.
Qed.

(** The numbers read from the tokens [first .. first + n - 1] of a line. *)
Lemma getDoubles_tokens (tok : list string) (first n : nat) (x : list Q) :
  getDoubles (take n (drop first tok)) = inr x ->
  (first + n <= length tok)%nat ->
  forall i, (i < n)%nat -> getDouble (tok !!! (first + i)%nat) = Some (x !!! i).
Proof.
  intros H Hlen i Hi. apply getDoubles_inr in H.
  assert (Hl : length (take n (drop first tok)) = n).
  { rewrite length_take, length_drop. lia. }
  assert (Ht : take n (drop first tok) !! i = Some (tok !!! (first + i)%nat)).
  { rewrite lookup_take_lt by lia. rewrite lookup_drop.
    apply list_lookup_lookup_total_lt. lia. }
  destruct (Forall2_lookup_l _ _ _ _ _ H Ht) as (v & Hv & Hd).
  rewrite Hd. f_equal. symmetry. apply list_lookup_total_correct. exact Hv.
Qed.


(** A line that [gwater_readAquiferParams] accepts, in terms of its tokens
    and of the object stored. *)
Lemma gwater_readAquiferParams_inr (sp sp' : SWMM_Project) (j : nat)
    (tok : list string) :
  gwater_readAquiferParams sp j tok = inr sp' ->
  (13 <= length tok)%nat /\
  exists (id : string) (x : list Q) (p : Z),
    project_findID AQUIFER (tok !!! 0%nat) = Some id /\
    (forall i, (i < 12)%nat ->
       getDouble (tok !!! (1 + i)%nat) = Some (x !!! i)) /\
    (length tok = 13%nat -> p = (-1)%Z) /\
    ((13 < length tok)%nat ->
     p = project_findObject TIMEPATTERN (tok !!! 13%nat) /\ (0 <= p)%Z) /\
    sp' = sp <| Aquifer :=
            <[ j := {| aq_ID := id;
                       porosity := x !!! 0%nat;
                       wiltingPoint := x !!! 1%nat;
                       fieldCapacity := x !!! 2%nat;
                       conductivity := x !!! 3%nat / UCF RAINFALL;
                       conductSlope := x !!! 4%nat;
                       tensionSlope := x !!! 5%nat / UCF LENGTH;
                       upperEvapFrac := x !!! 6%nat;
                       lowerEvapDepth := x !!! 7%nat / UCF LENGTH;
                       lowerLossCoeff := x !!! 8%nat / UCF RAINFALL;
                       aq_bottomElev := x !!! 9%nat / UCF LENGTH;
                       aq_waterTableElev := x !!! 10%nat / UCF LENGTH;
                       aq_upperMoisture := x !!! 11%nat;
                       upperEvapPat := p |} ]> (Aquifer sp) |>.
Proof.
  unfold gwater_readAquiferParams. cbv zeta.
  destruct (Nat.ltb_spec (length tok) 13) as [Hl|Hl]; [discriminate|].
  destruct (project_findID AQUIFER (tok !!! 0%nat)) as [id|]; [|discriminate].
  destruct (getDoubles (take 12 (drop 1 tok))) as [e|x] eqn:Hx;
    [discriminate|].
  cbn [Inp_bind].
  pose proof (getDoubles_tokens tok 1 12 x Hx ltac:(lia)) as Hn.
  destruct (Nat.ltb_spec 13 (length tok)) as [Hp|Hp].
  - destruct (Z.ltb_spec (project_findObject TIMEPATTERN (tok !!! 13%nat)) 0)
      as [Hz|Hz]; [discriminate|].
    cbn [Inp_bind]. intros [= <-]. split; [exact Hl|].
    eexists id, x, _. split; [reflexivity|]. split; [exact Hn|].
    split; [intros; lia|]. split; [intros _; split; [reflexivity|exact Hz]|].
    reflexivity.
  - cbn [Inp_bind]. intros [= <-]. split; [exact Hl|].
    eexists id, x, _. split; [reflexivity|]. split; [exact Hn|].
    split; [reflexivity|]. split; [intros; lia | reflexivity].
Qed.

(** X18.  A line that [gwater_readAquiferParams] accepts has at least 13
    tokens, of which the first names an aquifer and the next twelve are
    numbers.  The aquifer stored at index [j] holds the porosity, wilting
    point, field capacity, conductivity slope, upper evaporation fraction
    and upper moisture as written, and the conductivity, tension slope,
    lower evaporation depth, loss coefficient and the two elevations as
    the number of the line over the conversion factor of its quantity.  The
    pattern index is -1 for a line of 13 tokens and the index of the named
    pattern otherwise.  No other aquifer and nothing else in the project
    changes. *)
Theorem gwater_readAquiferParams_stores (sp sp' : SWMM_Project) (j : nat)
    (tok : list string) :
  gwater_readAquiferParams sp j tok = inr sp' ->
  (j < length (Aquifer sp))%nat ->
  let a := Aquifer sp' !!! j in
  let num i := default 0 (getDouble (tok !!! i)) in
  (13 <= length tok)%nat /\
  (forall i, (1 <= i <= 12)%nat -> is_Some (getDouble (tok !!! i))) /\
  project_findID AQUIFER (tok !!! 0%nat) = Some (aq_ID a) /\
  porosity a = num 1%nat /\ wiltingPoint a = num 2%nat /\
  fieldCapacity a = num 3%nat /\
  conductivity a = num 4%nat / UCF RAINFALL /\
  conductSlope a = num 5%nat /\
  tensionSlope a = num 6%nat / UCF LENGTH /\
  upperEvapFrac a = num 7%nat /\
  lowerEvapDepth a = num 8%nat / UCF LENGTH /\
  lowerLossCoeff a = num 9%nat / UCF RAINFALL /\
  aq_bottomElev a = num 10%nat / UCF LENGTH /\
  aq_waterTableElev a = num 11%nat / UCF LENGTH /\
  aq_upperMoisture a = num 12%nat /\
  (length tok = 13%nat -> upperEvapPat a = (-1)%Z) /\
  ((13 < length tok)%nat ->
   upperEvapPat a = project_findObject TIMEPATTERN (tok !!! 13%nat) /\
   (0 <= upperEvapPat a)%Z) /\
  (forall k, k <> j -> Aquifer sp' !!! k = Aquifer sp !!! k) /\
  length (Aquifer sp') = length (Aquifer sp) /\
  outside (sp' <| Aquifer := Aquifer sp |>) = outside sp /\
  gwtr sp' = gwtr sp.
Proof.
  intros H Hj a num. subst a.
  destruct (gwater_readAquiferParams_inr sp sp' j tok H)
    as (Hlen & id & x & p & Hid & Hn & Hp1 & Hp2 & ->).
  cbn [Aquifer set set_Aquifer].
  rewrite list_lookup_total_insert_eq by exact Hj. cbn.
  assert (Hnum : forall i, (1 <= i <= 12)%nat -> num i = x !!! (i - 1)%nat).
  { intros i Hi. subst num. cbn beta.
    replace i with (1 + (i - 1))%nat at 1 by lia.
    rewrite (Hn (i - 1)%nat) by lia. reflexivity. }
  split; [exact Hlen|].
  split.
  { intros i Hi. replace i with (1 + (i - 1))%nat by lia.
    rewrite Hn by lia. eauto. }
  split; [exact Hid|].
  rewrite (Hnum 1%nat), (Hnum 2%nat), (Hnum 3%nat), (Hnum 4%nat),
    (Hnum 5%nat), (Hnum 6%nat), (Hnum 7%nat), (Hnum 8%nat), (Hnum 9%nat),
    (Hnum 10%nat), (Hnum 11%nat), (Hnum 12%nat) by lia.
  cbn [Nat.sub].
  repeat (split; [first [reflexivity | assumption]|]).
  split; [intros k Hk; apply list_lookup_total_insert_ne; congruence|].
  split; [apply length_insert|]. split; reflexivity.
Qed.


(** X19.  The errors of [gwater_readAquiferParams], in the order of its
    tests: fewer than 13 tokens give [ERR_ITEMS], whatever the tokens are;
    then an unknown aquifer name gives [ERR_NAME] with the first token; then
    the first of the tokens 1 to 12 that is not a number gives
    [ERR_NUMBER] with that token; then a fourteenth token that names no
    time pattern gives [ERR_NAME] with it.  There is no other error. *)
Theorem gwater_readAquiferParams_errors (sp : SWMM_Project) (j : nat)
    (tok : list string) :
  let r := gwater_readAquiferParams sp j tok in
  ((length tok < 13)%nat -> r = inl (ERR_ITEMS, EmptyString)) /\
  ((13 <= length tok)%nat ->
   project_findID AQUIFER (tok !!! 0%nat) = None ->
   r = inl (ERR_NAME, tok !!! 0%nat)) /\
  (forall i,
     (13 <= length tok)%nat ->
     is_Some (project_findID AQUIFER (tok !!! 0%nat)) ->
     (1 <= i <= 12)%nat -> getDouble (tok !!! i) = None ->
     (forall k, (1 <= k < i)%nat -> is_Some (getDouble (tok !!! k))) ->
     r = inl (ERR_NUMBER, tok !!! i)) /\
  ((13 < length tok)%nat ->
   is_Some (project_findID AQUIFER (tok !!! 0%nat)) ->
   (forall k, (1 <= k <= 12)%nat -> is_Some (getDouble (tok !!! k))) ->
   (project_findObject TIMEPATTERN (tok !!! 13%nat) < 0)%Z ->
   r = inl (ERR_NAME, tok !!! 13%nat)) /\
  (forall e, r = inl e ->
     fst e = ERR_ITEMS \/ fst e = ERR_NAME \/ fst e = ERR_NUMBER).
Proof.
  intros r. subst r. unfold gwater_readAquiferParams. cbv zeta.
  assert (Htok : forall i, (13 <= length tok)%nat -> (i < 12)%nat ->
            take 12 (drop 1 tok) !!! i = tok !!! (1 + i)%nat).
  { intros i Hl Hi. rewrite lookup_total_take.
    rewrite decide_True by exact Hi. apply lookup_total_drop. }
  assert (Hlen : (13 <= length tok)%nat ->
                 length (take 12 (drop 1 tok)) = 12%nat).
  { intros Hl. rewrite length_take, length_drop. lia. }
  split; [|split; [|split; [|split]]].
  - intros H. apply Nat.ltb_lt in H. rewrite H. reflexivity.
  - intros H Hn. apply Nat.ltb_ge in H. rewrite H, Hn. reflexivity.
  - intros i H [id Hid] Hi Hn Hk. pose proof H as H'.
    apply Nat.ltb_ge in H'. rewrite H', Hid.
    rewrite (getDoubles_first _ (i - 1)%nat).
    + cbn [Inp_bind]. rewrite Htok by lia. do 3 f_equal. lia.
    + rewrite Hlen by lia. lia.
    + rewrite Htok by lia. rewrite <- Hn. do 2 f_equal. lia.
    + intros k Hlt. rewrite Htok by lia. apply Hk. lia.
  - intros H [id Hid] Hk Hp.
    assert (H' : (length tok <? 13)%nat = false) by (apply Nat.ltb_ge; lia).
    rewrite H', Hid.
    destruct (getDoubles_all (take 12 (drop 1 tok))) as [x ->].
    { intros k Hlt. rewrite Hlen in Hlt by lia. rewrite Htok by lia.
      apply Hk. lia. }
    cbn [Inp_bind]. apply Nat.ltb_lt in H. rewrite H.
    apply Z.ltb_lt in Hp. rewrite Hp. reflexivity.
  - intros e. destruct (_ <? 13)%nat; [intros [= <-]; auto|].
    destruct (project_findID _ _); [|intros [= <-]; auto].
    destruct (getDoubles _) as [e'|x] eqn:Hx.
    + cbn [Inp_bind]. intros [= <-]. apply getDoubles_inl in Hx.
      destruct Hx as (i & _ & -> & _). auto.
    + cbn [Inp_bind]. destruct (13 <? _)%nat; [|discriminate].
      destruct (_ <? 0)%Z; [intros [= <-]; auto | discriminate].
Qed.





Lemma readOptional_inr (tok : list string) (m : nat) (convert : bool)
    (v : Q) :
  readOptional tok m convert = inr v ->
  ((length tok <= m)%nat \/ String.prefix "*" (tok !!! m) = true ->
   v = MISSING) /\
  ((m < length tok)%nat -> String.prefix "*" (tok !!! m) = false ->
   exists y, getDouble (tok !!! m) = Some y /\
             v = if convert then y / UCF LENGTH else y).
Proof.
  unfold readOptional, not_star.
  destruct (Nat.ltb_spec m (length tok)) as [Hm|Hm];
    destruct (String.prefix "*" (tok !!! m)) eqn:Hs; cbn [andb negb].
  - intros [= <-]. split; [reflexivity|]. discriminate.
  - destruct (getDouble (tok !!! m)) as [y|]; [|discriminate].
    intros [= <-]. split; [intros [?|?]; [lia|discriminate]|]. eauto.
  - intros [= <-]. split; [reflexivity|]. intros; lia.
  - intros [= <-]. split; [reflexivity|]. intros; lia.
Qed.

(** A line that [gwater_readGroundwaterParams] accepts, in terms of its
    tokens, of the object [gw0] it finds or allocates, and of the object
    stored. *)
Lemma gwater_readGroundwaterParams_inr (sp sp' : SWMM_Project)
    (tok : list string) :
  gwater_readGroundwaterParams sp tok = inr sp' ->
  let j := project_findObject SUBCATCH (tok !!! 0%nat) in
  let k := project_findObject AQUIFER (tok !!! 1%nat) in
  let n := project_findObject NODE (tok !!! 2%nat) in
  (11 <= length tok)%nat /\ (0 <= j)%Z /\ (0 <= k)%Z /\ (0 <= n)%Z /\
  exists (x : list Q) (x7 x8 x9 x10 : Q) (gw0 : TGroundwater),
    (forall i, (i < 7)%nat ->
       getDouble (tok !!! (3 + i)%nat) = Some (x !!! i)) /\
    readOptional tok 10 true = inr x7 /\
    readOptional tok 11 true = inr x8 /\
    readOptional tok 12 true = inr x9 /\
    readOptional tok 13 false = inr x10 /\
    match groundwater (Subcatch sp !!! Z.to_nat j) with
    | Some gw => gw0 = gw
    | None => malloc_TGroundwater = Some gw0
    end /\
    sp' = sp <| Subcatch :=
            alter (fun sc => sc <| groundwater := Some
                     {| aquifer := Z.to_nat k;
                        node := Z.to_nat n;
                        surfElev := x !!! 0%nat / UCF LENGTH;
                        a1 := x !!! 1%nat;
                        b1 := x !!! 2%nat;
                        a2 := x !!! 3%nat;
                        b2 := x !!! 4%nat;
                        a3 := x !!! 5%nat;
                        fixedDepth := x !!! 6%nat / UCF LENGTH;
                        nodeElev := x7;
                        bottomElev := x8;
                        waterTableElev := x9;
                        upperMoisture := x10;
                        theta := theta gw0;
                        lowerDepth := lowerDepth gw0;
                        oldFlow := oldFlow gw0;
                        newFlow := newFlow gw0;
                        evapLoss := evapLoss gw0;
                        maxInfilVol := maxInfilVol gw0 |} |>)
                  (Z.to_nat j) (Subcatch sp) |>.
Proof.
  unfold gwater_readGroundwaterParams. cbv zeta.
  destruct (Nat.ltb_spec (length tok) 3) as [H3|H3]; [discriminate|].
  destruct (Z.ltb_spec (project_findObject SUBCATCH (tok !!! 0%nat)) 0)
    as [Hj|Hj]; [discriminate|].
  destruct (Nat.ltb_spec (length tok) 11) as [H11|H11]; [discriminate|].
  destruct (Z.ltb_spec (project_findObject AQUIFER (tok !!! 1%nat)) 0)
    as [Hk|Hk]; [discriminate|].
  destruct (Z.ltb_spec (project_findObject NODE (tok !!! 2%nat)) 0)
    as [Hn|Hn]; [discriminate|].
  destruct (getDoubles (take 7 (drop 3 tok))) as [e|x] eqn:Hx;
    [discriminate|].
  cbn [Inp_bind].
  pose proof (getDoubles_tokens tok 3 7 x Hx ltac:(lia)) as Hnum.
  destruct (readOptional tok 10 true) as [e|x7]; [discriminate|].
  cbn [Inp_bind].
  destruct (readOptional tok 11 true) as [e|x8]; [discriminate|].
  cbn [Inp_bind].
  destruct (readOptional tok 12 true) as [e|x9]; [discriminate|].
  cbn [Inp_bind].
  destruct (readOptional tok 13 false) as [e|x10]; [discriminate|].
  cbn [Inp_bind].
  destruct (groundwater (Subcatch sp !!! Z.to_nat _)) as [gw|] eqn:Hg.
  - cbn [Inp_bind]. intros [= <-]. repeat (split; [assumption|]).
    exists x, x7, x8, x9, x10, gw. repeat (split; [reflexivity || assumption|]).
    reflexivity.
  - destruct malloc_TGroundwater as [gw|] eqn:Hm; [|discriminate].
    cbn [Inp_bind]. intros [= <-]. repeat (split; [assumption|]).
    exists x, x7, x8, x9, x10, gw. repeat (split; [reflexivity || assumption|]).
    reflexivity.
Qed.

(** X21.  The count of tokens that [gwater_readGroundwaterParams] asks
    for: fewer than 3 tokens give [ERR_ITEMS]; with 3 or more, an unknown
    subcatchment gives [ERR_NAME] before anything else is looked at; for a
    known subcatchment, fewer than 11 tokens give [ERR_ITEMS], so that a
    line with the ten mandatory items alone is not accepted; an accepted
    line has at least 11 tokens. *)
Theorem gwater_readGroundwaterParams_short_line (sp : SWMM_Project)
    (tok : list string) :
  let r := gwater_readGroundwaterParams sp tok in
  let j := project_findObject SUBCATCH (tok !!! 0%nat) in
  ((length tok < 3)%nat -> r = inl (ERR_ITEMS, EmptyString)) /\
  ((3 <= length tok)%nat -> (j < 0)%Z -> r = inl (ERR_NAME, tok !!! 0%nat)) /\
  ((3 <= length tok < 11)%nat -> (0 <= j)%Z ->
   r = inl (ERR_ITEMS, EmptyString)) /\
  (forall sp', r = inr sp' -> (11 <= length tok)%nat).
Proof.
  intros r j. subst r j. split; [|split; [|split]].
  - intros H. unfold gwater_readGroundwaterParams. cbv zeta.
    apply Nat.ltb_lt in H. rewrite H. reflexivity.
  - intros H Hj. unfold gwater_readGroundwaterParams. cbv zeta.
    apply Nat.ltb_ge in H. rewrite H. apply Z.ltb_lt in Hj. rewrite Hj.
    reflexivity.
  - intros [H1 H2] Hj. unfold gwater_readGroundwaterParams. cbv zeta.
    apply Nat.ltb_ge in H1. rewrite H1. apply Z.ltb_ge in Hj. rewrite Hj.
    apply Nat.ltb_lt in H2. rewrite H2. reflexivity.
  - intros sp' H. apply (gwater_readGroundwaterParams_inr sp sp' tok H).
Qed.

(** X22.  The optional items of a groundwater line.  In the object that
    an accepted line stores, the node elevation, bottom elevation,
    water-table elevation and upper moisture (tokens 10 to 13) are
    [MISSING] when the token is not there or starts with an asterisk; and
    after [gwater_validate] the last three are then those of the aquifer
    the line names, while the node elevation stays [MISSING]. *)
Theorem gwater_readGroundwaterParams_defaults (sp sp' : SWMM_Project)
    (tok : list string) :
  gwater_readGroundwaterParams sp tok = inr sp' ->
  let j := Z.to_nat (project_findObject SUBCATCH (tok !!! 0%nat)) in
  let absent m :=
    (length tok <= m)%nat \/ String.prefix "*" (tok !!! m) = true in
  (j < length (Subcatch sp))%nat ->
  exists gw gw',
    groundwater (Subcatch sp' !!! j) = Some gw /\
    groundwater (Subcatch (gwater_validate sp' j) !!! j) = Some gw' /\
    aquifer gw = Z.to_nat (project_findObject AQUIFER (tok !!! 1%nat)) /\
    node gw = Z.to_nat (project_findObject NODE (tok !!! 2%nat)) /\
    (absent 10%nat -> nodeElev gw = MISSING /\ nodeElev gw' = MISSING) /\
    (absent 11%nat ->
     bottomElev gw = MISSING /\
     bottomElev gw' = aq_bottomElev (Aquifer sp !!! aquifer gw)) /\
    (absent 12%nat ->
     waterTableElev gw = MISSING /\
     waterTableElev gw' = aq_waterTableElev (Aquifer sp !!! aquifer gw)) /\
    (absent 13%nat ->
     upperMoisture gw = MISSING /\
     upperMoisture gw' = aq_upperMoisture (Aquifer sp !!! aquifer gw)).
Proof.
  intros H j absent Hj. subst absent.
  destruct (gwater_readGroundwaterParams_inr sp sp' tok H)
    as (_ & _ & _ & _ & x & x7 & x8 & x9 & x10 & gw0 & _ & H7 & H8 & H9 & H10
        & _ & ->).
  fold j.
  set (gw := Build_TGroundwater _ _ _ _ _ _ _ _ _ _ _ _ _ _ _ _ _ _ _).
  assert (Hg : groundwater
                 (Subcatch (sp <| Subcatch :=
                    alter (fun sc => sc <| groundwater := Some gw |>) j
                      (Subcatch sp) |>) !!! j) = Some gw).
  { cbn. rewrite list_lookup_total_alter.
    rewrite decide_True by (split; [reflexivity | exact Hj]).
    destruct (Subcatch sp !!! j). reflexivity. }
  destruct (gwater_validate_after _ j gw Hg) as (Hv & _).
  exists gw. eexists. split; [exact Hg|]. split; [exact Hv|].
  cbn [Aquifer set set_Subcatch].
  assert (HM : Qeqb MISSING MISSING = true) by (apply Qeqb_true; reflexivity).
  apply readOptional_inr in H7, H8, H9, H10.
  split; [reflexivity|]. split; [reflexivity|].
  split; [|split; [|split]]; intros Ha; cbn.
  - rewrite (proj1 H7 Ha). split; reflexivity.
  - rewrite (proj1 H8 Ha), HM. split; reflexivity.
  - rewrite (proj1 H9 Ha), HM. split; reflexivity.
  - rewrite (proj1 H10 Ha), HM. split; reflexivity.
Qed.


(** X23.  A groundwater line for a subcatchment that already has its
    object replaces the parameters of that object and keeps its state:
    theta, lower depth, the two flows, the evaporation loss and the
    infiltration capacity are as before.  Nothing else in the project
    changes. *)
Theorem gwater_readGroundwaterParams_keeps_state (sp sp' : SWMM_Project)
    (tok : list string) (gw0 : TGroundwater) :
  gwater_readGroundwaterParams sp tok = inr sp' ->
  let j := Z.to_nat (project_findObject SUBCATCH (tok !!! 0%nat)) in
  groundwater (Subcatch sp !!! j) = Some gw0 ->
  (exists gw,
     groundwater (Subcatch sp' !!! j) = Some gw /\
     (theta gw, lowerDepth gw, oldFlow gw, newFlow gw, evapLoss gw,
      maxInfilVol gw)
     = (theta gw0, lowerDepth gw0, oldFlow gw0, newFlow gw0, evapLoss gw0,
        maxInfilVol gw0)) /\
  only_groundwater j sp sp' /\
  scratch_and_sinks sp' = scratch_and_sinks sp.
Proof.
  intros H j Hg0.
  destruct (gwater_readGroundwaterParams_inr sp sp' tok H)
    as (_ & _ & _ & _ & x & x7 & x8 & x9 & x10 & gw1 & _ & _ & _ & _ & _
        & Hgw & ->).
  fold j in Hgw |- *. rewrite Hg0 in Hgw. subst gw1.
  set (gw := Build_TGroundwater _ _ _ _ _ _ _ _ _ _ _ _ _ _ _ _ _ _ _).
  assert (Hj : (j < length (Subcatch sp))%nat).
  { destruct (decide (j < length (Subcatch sp))%nat) as [|Hn]; [assumption|].
    rewrite list_lookup_total_alt, lookup_ge_None_2 in Hg0 by lia.
    discriminate. }
  assert (Hlk : Subcatch (sp <| Subcatch :=
                   alter (fun sc => sc <| groundwater := Some gw |>) j
                     (Subcatch sp) |>) !!! j
                = (Subcatch sp !!! j) <| groundwater := Some gw |>).
  { cbn. rewrite list_lookup_total_alter.
    rewrite decide_True by (split; [reflexivity | exact Hj]). reflexivity. }
  split; [|split].
  - exists gw. rewrite Hlk. split; [|reflexivity].
    destruct (Subcatch sp !!! j). reflexivity.
  - split; try reflexivity; rewrite ?Hlk;
      try (destruct (Subcatch sp !!! j); reflexivity).
    + cbn. apply length_alter.
    + intros k Hk. cbn. apply list_lookup_total_alter_ne. congruence.
  - reflexivity.
Qed.

(** X24.  A line that [gwater_readFlowExpression] accepts has at least 3
    tokens, and its second token matches LAT or, failing that, DEEP.  The
    expression compiled from the tokens from the third on, joined by single
    blanks, with [getVariableIndex] as the resolver of names, becomes the
    lateral-flow expression of the subcatchment in the first case and its
    deep-flow expression in the second; the other expression, the
    groundwater object, the other subcatchments and the rest of the project
    stay. *)
Theorem gwater_readFlowExpression_stores (sp sp' : SWMM_Project)
    (tok : list string) :
  gwater_readFlowExpression sp tok = inr sp' ->
  let j := Z.to_nat (project_findObject SUBCATCH (tok !!! 0%nat)) in
  let lateral := strmatch (tok !!! 1%nat) "LAT" in
  (j < length (Subcatch sp))%nat ->
  (3 <= length tok)%nat /\
  (lateral = false -> strmatch (tok !!! 1%nat) "DEEP" = true) /\
  exists expr,
    mathexpr_create
      (fold_left (fun acc t => (acc ++ " " ++ t)%string) (drop 3 tok)
         (tok !!! 2%nat)) getVariableIndex = Some expr /\
    gwLatFlowExpr (Subcatch sp' !!! j)
    = (if lateral then Some expr else gwLatFlowExpr (Subcatch sp !!! j)) /\
    gwDeepFlowExpr (Subcatch sp' !!! j)
    = (if lateral then gwDeepFlowExpr (Subcatch sp !!! j) else Some expr) /\
    groundwater (Subcatch sp' !!! j) = groundwater (Subcatch sp !!! j) /\
    (forall k, k <> j -> Subcatch sp' !!! k = Subcatch sp !!! k) /\
    outside (sp' <| Subcatch := Subcatch sp |>) = outside sp /\
    gwtr sp' = gwtr sp.
Proof.
  intros H j lateral Hj. subst lateral. revert H.
  unfold gwater_readFlowExpression. cbv zeta.
  destruct (Nat.ltb_spec (length tok) 3) as [H3|H3]; [discriminate|].
  destruct (Z.ltb_spec (project_findObject SUBCATCH (tok !!! 0%nat)) 0)
    as [Hz|Hz]; [discriminate|].
  fold j.
  destruct (strmatch (tok !!! 1%nat) "LAT") eqn:Hl;
    [|destruct (strmatch (tok !!! 1%nat) "DEEP") eqn:Hd; [|discriminate]];
    cbn [Inp_bind];
    (destruct (mathexpr_create _ getVariableIndex) as [expr|] eqn:He;
       [|discriminate]);
    intros [= <-]; (split; [exact H3|]);
    (split; [first [discriminate | intros _; reflexivity]|]);
    exists expr; (split; [reflexivity|]); cbn [Subcatch set set_Subcatch];
    rewrite list_lookup_total_alter;
    rewrite decide_True by (split; [reflexivity | exact Hj]);
    cbn;
    (repeat (split; [reflexivity|]));
    (split; [intros k Hk; apply list_lookup_total_alter_ne; congruence|]);
    split; reflexivity.
Qed.

(** [getVariableIndex] returns either -1 or the position that
    [findmatch] found in the list of variable names, which is then not
    negative.  A name that [findmatch] does not find gets -1, and
    [getVariableValue] of that index, as of every index outside 0 .. 10,
    is 0. *)
Theorem getVariableIndex_unknown (sp : SWMM_Project) (s : string) :
  (getVariableIndex s = (-1)%Z \/
   (0 <= getVariableIndex s)%Z /\
   getVariableIndex s = findmatch s GWVarWords) /\
  ((findmatch s GWVarWords < 0)%Z ->
   getVariableIndex s = (-1)%Z /\
   getVariableValue sp (getVariableIndex s) = 0) /\
  (forall i, (i < 0)%Z \/ (gwvMAX <= i)%Z -> getVariableValue sp i = 0).
Proof.
  unfold getVariableIndex. cbv zeta.
  split; [|split].
  - destruct (Z.leb_spec 0 (findmatch s GWVarWords)); [right|left]; auto.
  - intros H. destruct (Z.leb_spec 0 (findmatch s GWVarWords)); [lia|].
    split; reflexivity.
  - intros i Hi. unfold getVariableValue, gwvHGW, gwvHSW, gwvHCB, gwvHGS,
      gwvKS, gwvK, gwvTHETA, gwvPHI, gwvFI, gwvFU, gwvA, gwvMAX in *.
    repeat match goal with
    | |- context [(i =? ?n)%Z] =>
      destruct (Z.eqb_spec i n); [lia|]
    end.
    reflexivity.
Qed.

End InputProperties.

(* ------------------------------------------------------------------ *)
(** ** The concrete configuration *)

(** The Euler integrator calls the derivative function once and does
    nothing else to the project. *)
Lemma eulerSolver_ok {E : Externs} : OdeSolverOk eulerSolver.
Proof.
  constructor. intros P sp x n x1 x2 eps h1 derivs Hsp Hd. cbn.
  apply Hd. exact Hsp.
Qed.

#[local] Existing Instance testExterns.
#[local] Existing Instance eulerSolver.

Ltac qeval := vm_compute; first [reflexivity | discriminate].

Lemma gwater_setState_getState_witness :
  let sp := gwater_getGroundwater testProject 0 0 4356 300 in
  groundwater (Subcatch sp !!! 0%nat) = Some (gwobj sp 0) /\
  groundwater (Subcatch testProject !!! 0%nat) = Some testGw /\
  ~ theta (gwobj sp 0) == theta testGw /\
  exists gw',
    groundwater
      (Subcatch
         (gwater_setState testProject 0
            (theta (gwobj sp 0),
             bottomElev (gwobj sp 0) + lowerDepth (gwobj sp 0),
             newFlow (gwobj sp 0), maxInfilVol (gwobj sp 0))) !!! 0%nat)
    = Some gw' /\
    theta gw' = theta (gwobj sp 0) /\
    lowerDepth gw'
    = bottomElev (gwobj sp 0) + lowerDepth (gwobj sp 0) - bottomElev testGw.
Proof.
  cbv zeta.
  assert (H : groundwater
                (Subcatch (gwater_getGroundwater testProject 0 0 4356 300)
                 !!! 0%nat)
              = Some (gwobj (gwater_getGroundwater testProject 0 0 4356 300)
                        0)) by qeval.
  assert (H0 : groundwater (Subcatch testProject !!! 0%nat) = Some testGw)
    by qeval.
  split; [exact H|]. split; [exact H0|]. split; [qeval|].
  destruct (proj1 (proj2 (gwater_setState_getState _ testProject 0 _ testGw
                            H H0)))
    as (gw' & x' & H1 & H2 & H3 & _).
  exists gw'. split; [exact H1|]. split; [exact H2 | exact H3].
Defined.

Lemma gwater_getVolume_theta_monotone_witness :
  groundwater (Subcatch testProjectNoGw !!! 0%nat) = None /\
  gwater_getVolume testProjectNoGw 0 = 0 /\
  groundwater (Subcatch testProject !!! 0%nat) = Some testGw /\
  lowerDepth testGw <= surfElev testGw - bottomElev testGw /\
  gwater_getVolume (gw_wr 0 theta 0.2 testProject) 0
  <= gwater_getVolume (gw_wr 0 theta 0.3 testProject) 0.
Proof.
  assert (Hn : groundwater (Subcatch testProjectNoGw !!! 0%nat) = None)
    by qeval.
  assert (Hg : groundwater (Subcatch testProject !!! 0%nat) = Some testGw)
    by qeval.
  assert (Hd : lowerDepth testGw <= surfElev testGw - bottomElev testGw)
    by qeval.
  assert (H1 : 0.2 <= 0.3) by qeval.
  destruct (gwater_getVolume_theta_monotone testProjectNoGw 0) as [Hz _].
  destruct (gwater_getVolume_theta_monotone testProject 0) as [_ Hm].
  destruct (Hm testGw Hg) as (_ & Hth).
  split; [exact Hn|]. split; [exact (Hz Hn)|]. split; [exact Hg|].
  split; [exact Hd | exact (Hth 0.2 0.3 Hd H1)].
Defined.

Lemma getEvapRates_zero_when_infiltrating_witness :
  0 < Infil (gwtr testContext) /\
  UpperEvap (gwtr (getEvapRates testContext 0.25 4)) = 0 /\
  LowerEvap (gwtr (getEvapRates testContext 0.25 4)) = 0.
Proof.
  assert (H : 0 < Infil (gwtr testContext)) by qeval.
  split; [exact H|].
  exact (getEvapRates_zero_when_infiltrating testContext 0.25 4 H).
Defined.

Lemma getEvapRates_within_AvailEvap_witness :
  0 <= AvailEvap (gwtr testContextLat) /\
  UpperEvap (gwtr (getEvapRates testContextLat 0.25 4))
  <= AvailEvap (gwtr testContextLat) /\
  LowerEvap (gwtr (getEvapRates testContextLat 0.25 4))
  <= AvailEvap (gwtr testContextLat)
     - UpperEvap (gwtr (getEvapRates testContextLat 0.25 4)).
Proof.
  assert (H : 0 <= AvailEvap (gwtr testContextLat)) by qeval.
  split; [exact H|].
  exact (proj1 (getEvapRates_within_AvailEvap testContextLat 0.25 4) H).
Defined.

Lemma getGWFlow_negative_witness :
  Hstar (gwtr testContextLat) < 5 /\
  getGWFlow_q testContextLat 5 < 0 /\
  a3 (GWobj testContextLat) == 0 /\
  getGWFlow testContextLat 5 = getGWFlow_q testContextLat 5.
Proof.
  assert (H1 : Hstar (gwtr testContextLat) < 5) by qeval.
  assert (H2 : getGWFlow_q testContextLat 5 < 0) by qeval.
  assert (H3 : a3 (GWobj testContextLat) == 0) by qeval.
  split; [exact H1|]. split; [exact H2|]. split; [exact H3|].
  exact (proj1 (proj2 (getGWFlow_negative testContextLat 5 H1 H2)) H3).
Defined.

Lemma getFluxes_deep_loss_witness :
  DeepFlowExpr (gwtr testContext) = None /\
  DeepFlowExpr (gwtr testContextDeep)
  = Some (EMul (ENum 2) (EVar gwvTHETA)) /\
  LowerLoss (gwtr (getFluxes testContext 0.25 2))
  = MIN (lowerLossCoeff (A (gwtr testContext)) *
         MIN (MAX 2 0) (TotalDepth (gwtr testContext)) /
         TotalDepth (gwtr testContext))
        (MIN (MAX 2 0) (TotalDepth (gwtr testContext)) /
         Tstep (gwtr testContext)) /\
  exists s,
    Theta (gwtr s) = 0.3 /\
    LowerLoss (gwtr (getFluxes testContextDeep 0.3 2))
    = MIN (mathexpr_eval (EMul (ENum 2) (EVar gwvTHETA))
             (getVariableValue s) / UCF RAINFALL)
          (MIN (MAX 2 0) (TotalDepth (gwtr testContextDeep)) /
           Tstep (gwtr testContextDeep)).
Proof.
  assert (Hn : DeepFlowExpr (gwtr testContext) = None) by qeval.
  assert (He : DeepFlowExpr (gwtr testContextDeep)
               = Some (EMul (ENum 2) (EVar gwvTHETA))) by qeval.
  destruct (getFluxes_deep_loss testContext 0.25 2) as (H1 & _ & _).
  destruct (getFluxes_deep_loss testContextDeep 0.3 2) as (_ & H2 & _).
  destruct (H2 _ He) as (s & _ & _ & Hs & HL).
  split; [exact Hn|]. split; [exact He|].
  split; [exact (H1 Hn)|].
  exists s. split; [exact Hs | exact HL].
Defined.

Lemma gwater_getGroundwater_skips_witness :
  groundwater (Subcatch testProjectNoGw !!! 0%nat) = None /\
  Subcatch (gwater_getGroundwater testProjectNoGw 0 0 4356 300)
  = Subcatch testProjectNoGw /\
  GwaterTotalsLog (gwater_getGroundwater testProjectNoGw 0 0 4356 300)
  = GwaterTotalsLog testProjectNoGw /\
  GwaterStatsLog (gwater_getGroundwater testProjectNoGw 0 0 4356 300)
  = GwaterStatsLog testProjectNoGw.
Proof.
  assert (Hn : groundwater (Subcatch testProjectNoGw !!! 0%nat) = None)
    by qeval.
  split; [exact Hn|].
  exact (gwater_getGroundwater_skips testProjectNoGw 0 0 4356 300
           (or_introl Hn)).
Defined.

Lemma gwater_getGroundwater_mass_balance_witness :
  groundwater (Subcatch testProject !!! 0%nat) = Some testGw /\
  0 < subcatch_getFracPerv 0 /\
  0 < surfElev testGw - bottomElev testGw /\
  exists gw',
    groundwater (Subcatch (gwater_getGroundwater testProject 0 0 4356 300)
                 !!! 0%nat) = Some gw' /\
    oldFlow gw' = newFlow testGw.
Proof.
  assert (Hg : groundwater (Subcatch testProject !!! 0%nat) = Some testGw)
    by qeval.
  assert (Hf : 0 < subcatch_getFracPerv 0) by qeval.
  assert (Hd : 0 < surfElev testGw - bottomElev testGw) by qeval.
  split; [exact Hg|]. split; [exact Hf|]. split; [exact Hd|].
  destruct (gwater_getGroundwater_mass_balance (OdeSolverOk0 := eulerSolver_ok)
              testProject 0 0 4356 300 testGw Hg Hf Hd)
    as (gw' & H1 & H2 & _).
  exists gw'. split; [exact H1 | exact H2].
Defined.

Lemma lateral_flow_below_Hstar_witness :
  1 <= Hstar (gwtr testContext) /\
  getGWFlow testContext 1 = 0 /\
  LatFlowExpr (gwtr testContext) = None /\
  MIN (MAX 1 0) (TotalDepth (gwtr testContext)) <= Hstar (gwtr testContext) /\
  0 <= MaxGWFlowPos (gwtr testContext) /\
  GWFlow (gwtr (getFluxes testContext 0.25 1)) = 0 /\
  groundwater (Subcatch testProject !!! 0%nat) = Some testGw /\
  0 < subcatch_getFracPerv 0 /\
  0 < surfElev testGw - bottomElev testGw /\
  gwLatFlowExpr (Subcatch testProject !!! 0%nat) = None /\
  Hgw (gwtr (gwater_getGroundwater testProject 0 0 4356 300))
  <= Hstar (gwtr (gwater_getGroundwater testProject 0 0 4356 300)) /\
  0 <= lowerDepth testGw *
       porosity (Aquifer testProject !!! aquifer testGw) / 300 /\
  exists gw',
    groundwater (Subcatch (gwater_getGroundwater testProject 0 0 4356 300)
                 !!! 0%nat) = Some gw' /\
    newFlow gw' = 0.
Proof.
  assert (H1 : 1 <= Hstar (gwtr testContext)) by qeval.
  assert (H2 : LatFlowExpr (gwtr testContext) = None) by qeval.
  assert (H3 : MIN (MAX 1 0) (TotalDepth (gwtr testContext))
               <= Hstar (gwtr testContext)) by qeval.
  assert (H4 : 0 <= MaxGWFlowPos (gwtr testContext)) by qeval.
  assert (Hg : groundwater (Subcatch testProject !!! 0%nat) = Some testGw)
    by qeval.
  assert (Hf : 0 < subcatch_getFracPerv 0) by qeval.
  assert (Hd : 0 < surfElev testGw - bottomElev testGw) by qeval.
  assert (Hn : gwLatFlowExpr (Subcatch testProject !!! 0%nat) = None)
    by qeval.
  assert (Hb : Hgw (gwtr (gwater_getGroundwater testProject 0 0 4356 300))
               <= Hstar (gwtr (gwater_getGroundwater testProject 0 0 4356
                                 300))) by qeval.
  assert (Hc : 0 <= lowerDepth testGw *
                    porosity (Aquifer testProject !!! aquifer testGw) / 300)
    by qeval.
  destruct (lateral_flow_below_Hstar (OdeSolverOk0 := eulerSolver_ok))
    as (P1 & P2 & P3).
  destruct (P3 testProject 0%nat 0 4356 300 testGw Hg Hf Hd Hn Hb)
    as (gw' & Hgw' & _ & Hz).
  split; [exact H1|]. split; [exact (P1 testContext 1 H1)|].
  split; [exact H2|]. split; [exact H3|]. split; [exact H4|].
  split; [exact (proj2 (P2 testContext 0.25 1 H2 H3) H4)|].
  split; [exact Hg|]. split; [exact Hf|]. split; [exact Hd|].
  split; [exact Hn|]. split; [exact Hb|]. split; [exact Hc|].
  exists gw'. split; [exact Hgw' | exact (Hz Hc)].
Defined.

(** C4 fails on the code.  The groundwater object of [perchedProject] has
    a bottom elevation of its own, 4 ft, above the water table of its
    aquifer, 2 ft; [gwater_validateAquifer] compares the water table with
    the bottom of the aquifer only, [gwater_validate] with the surface
    only, and both accept the project.  [gwater_initState] then stores the
    lower depth -2 ft, and the cap on outflow of the first step,
    lowerDepth * porosity / tStep, is negative.  After that step the depth
    at which the fluxes are evaluated is below [Hstar], [getGWFlow] returns
    0 there, there is no user lateral-flow expression, and yet the lateral
    flow stored as [newFlow] is the negative cap -43/15000 ft/s, where the
    property has 0. *)
Lemma negative_cap_counterexample :
  let sp' := gwater_getGroundwater perchedProject 0 0 0 300 in
  ErrorLog perchedProject = [] /\
  gwLatFlowExpr (Subcatch perchedProject !!! 0%nat) = None /\
  0 < subcatch_getFracPerv 0 /\
  0 < surfElev (gwobj perchedProject 0) - bottomElev (gwobj perchedProject 0) /\
  Hgw (gwtr sp') <= Hstar (gwtr sp') /\
  getGWFlow sp' (Hgw (gwtr sp')) = 0 /\
  newFlow (gwobj sp' 0) == - (43 # 15000) /\
  ~ newFlow (gwobj sp' 0) == 0.
Proof.
  cbv zeta. repeat split; qeval.
Qed.

(** C2 fails where [XTOL] does not fit between the bounds.  Validation
    accepts [thinProject], whose total depth is 0.0005 ft, and
    [narrowProject], whose wilting point is 0.4295 under a porosity of 0.43;
    both pass the three tests of [gwater_getGroundwater].  In the first the
    integration leaves the lower depth above the total depth, and the state
    stored for the step has the lower depth 0.0005 - XTOL = -0.0005 ft,
    below the bound 0 of the property.  In the second an infiltration of
    100 ft3 takes theta to the porosity, and the state stored has theta =
    0.43 - XTOL = 0.429, below the wilting point. *)
Theorem keepInBounds_below_lower_bound :
  let sp1 := gwater_getGroundwater thinProject 0 0 0 300 in
  let sp2 := gwater_getGroundwater narrowProject 0 0 100 300 in
  (ErrorLog thinProject = [] /\
   0 < subcatch_getFracPerv 0 /\
   surfElev (gwobj thinProject 0) - bottomElev (gwobj thinProject 0)
   == 1 # 2000 /\
   0 <= lowerDepth (gwobj thinProject 0) /\
   lowerDepth (gwobj sp1 0) == - (1 # 2000) /\
   lowerDepth (gwobj sp1 0) < 0) /\
  (ErrorLog narrowProject = [] /\
   0 < surfElev (gwobj narrowProject 0) - bottomElev (gwobj narrowProject 0) /\
   wiltingPoint narrowAquifer <= theta (gwobj narrowProject 0) /\
   theta (gwobj sp2 0) == 429 # 1000 /\
   theta (gwobj sp2 0) < wiltingPoint narrowAquifer).
Proof.
  cbv zeta. repeat split; qeval.
Qed.

(* ================================================================== *)
(** * The further properties in the concrete configuration *)

#[local] Existing Instance testInputExterns.

Lemma gwater_getState_after_setState_witness :
  groundwater (Subcatch testProject !!! 0%nat) = Some testGw /\
  gwater_getState (gwater_setState testProject 0 (0.3, 3, 0.001, 0.5)) 0
  = Some (0.3, bottomElev testGw + (3 - bottomElev testGw), newFlow testGw,
          if Qneb 0.5 MISSING then 0.5 else maxInfilVol testGw).
Proof.
  assert (H : groundwater (Subcatch testProject !!! 0%nat) = Some testGw)
    by qeval.
  split; [exact H|].
  exact (proj1 (proj2 (gwater_getState_after_setState testProject 0 testGw
                         0.3 3 0.001 0.5 H))).
Defined.

Lemma gwater_validateAquifer_accepts_witness :
  ErrorLog (gwater_validateAquifer testRaw 0) = ErrorLog testRaw.
Proof.
  apply (proj1 (gwater_validateAquifer_accepts testRaw 0)).
  split; [repeat split; qeval|].
  intros H. exfalso. vm_compute in H. apply H. reflexivity.
Defined.

Lemma gwater_validate_defaults_witness :
  groundwater (Subcatch testRaw !!! 0%nat)
  = Some (testGroundwater 6 0 MISSING) /\
  exists gw',
    groundwater (Subcatch (gwater_validate testRaw 0) !!! 0%nat) = Some gw' /\
    groundwater (Subcatch (gwater_validate (gwater_validate testRaw 0) 0)
                 !!! 0%nat) = Some gw'.
Proof.
  assert (H : groundwater (Subcatch testRaw !!! 0%nat)
              = Some (testGroundwater 6 0 MISSING)) by qeval.
  split; [exact H|].
  destruct (gwater_validate_defaults testRaw 0 _ H)
    as (gw' & H1 & _ & _ & _ & _ & _ & _ & H2).
  exists gw'. split; [exact H1 | exact H2].
Defined.


Lemma gwater_initState_from_params_witness :
  groundwater (Subcatch testProject !!! 0%nat) = Some testGw /\
  groundwater (Subcatch testRestored !!! 0%nat)
  = Some (gwobj testRestored 0) /\
  gw_params testGw = gw_params (gwobj testRestored 0) /\
  ~ theta testGw == theta (gwobj testRestored 0) /\
  groundwater (Subcatch (gwater_initState testProject 0) !!! 0%nat)
  = groundwater (Subcatch (gwater_initState testRestored 0) !!! 0%nat).
Proof.
  assert (H1 : groundwater (Subcatch testProject !!! 0%nat) = Some testGw)
    by qeval.
  assert (H2 : groundwater (Subcatch testRestored !!! 0%nat)
               = Some (gwobj testRestored 0)) by qeval.
  assert (H3 : gw_params testGw = gw_params (gwobj testRestored 0)) by qeval.
  assert (H4 : porosity (Aquifer testProject !!! aquifer testGw)
               = porosity (Aquifer testRestored
                           !!! aquifer (gwobj testRestored 0))) by qeval.
  split; [exact H1|]. split; [exact H2|]. split; [exact H3|].
  split; [qeval|].
  exact (gwater_initState_from_params testProject testRestored 0 _ _
           H1 H2 H3 H4).
Defined.

Lemma validated_initial_state_witness :
  groundwater (Subcatch testRaw !!! 0%nat)
  = Some (testGroundwater 6 0 MISSING) /\
  ErrorLog testValidated = ErrorLog testRaw /\
  exists gw3,
    groundwater (Subcatch (gwater_initState testValidated 0) !!! 0%nat)
    = Some gw3 /\
    wiltingPoint (Aquifer testRaw !!! 0%nat) <= theta gw3 /\
    0 <= lowerDepth gw3 /\ 0 <= maxInfilVol gw3.
Proof.
  assert (H : groundwater (Subcatch testRaw !!! 0%nat)
              = Some (testGroundwater 6 0 MISSING)) by qeval.
  assert (He : ErrorLog testValidated = ErrorLog testRaw) by qeval.
  split; [exact H|]. split; [exact He|].
  destruct (validated_initial_state testRaw 0 _ H He)
    as (gw3 & H1 & _ & _ & H2 & _ & H3 & _ & H4);
    [qeval | qeval | qeval | left; qeval | left; qeval | qeval |].
  exists gw3. split; [exact H1|]. split; [exact H2|].
  split; [exact H3 | exact H4].
Defined.

Lemma getFluxes_percolation_witness :
  0 < TotalDepth (gwtr testContext)
      - MIN (MAX 2 0) (TotalDepth (gwtr testContext)) /\
  fieldCapacity (A (gwtr testContext)) < 0.25 /\
  HydCon (gwtr (getFluxes testContext 0.25 2))
  = conductivity (A (gwtr testContext)) *
    exp ((0.25 - porosity (A (gwtr testContext))) *
         conductSlope (A (gwtr testContext))) /\
  UpperPerc (gwtr (getFluxes testContext 0.25 2))
  <= MaxUpperPerc (gwtr testContext).
Proof.
  assert (H1 : 0 < TotalDepth (gwtr testContext)
                   - MIN (MAX 2 0) (TotalDepth (gwtr testContext))) by qeval.
  assert (H2 : fieldCapacity (A (gwtr testContext)) < 0.25) by qeval.
  destruct (getFluxes_percolation testContext 0.25 2) as (_ & P2 & P3).
  split; [exact H1|]. split; [exact H2|].
  split; [exact (proj1 (P2 H1 H2)) | exact P3].
Defined.

Lemma getFluxes_lateral_flow_witness :
  MaxGWFlowNeg (gwtr testContext) <= 0 /\
  0 <= MaxGWFlowPos (gwtr testContext) /\
  MaxGWFlowNeg (gwtr testContext)
  <= GWFlow (gwtr (getFluxes testContext 0.25 2)) /\
  GWFlow (gwtr (getFluxes testContext 0.25 2))
  <= MaxGWFlowPos (gwtr testContext).
Proof.
  assert (H1 : MaxGWFlowNeg (gwtr testContext) <= 0) by qeval.
  assert (H2 : 0 <= MaxGWFlowPos (gwtr testContext)) by qeval.
  split; [exact H1|]. split; [exact H2|].
  exact (proj2 (proj2 (getFluxes_lateral_flow testContext 0.25 2)) H1 H2).
Defined.

Lemma getGWFlow_nonnegative_witness :
  ~ a3 (GWobj testContextA3) == 0 /\ 0 <= getGWFlow testContextA3 5.
Proof.
  assert (H : ~ a3 (GWobj testContextA3) == 0) by qeval.
  split; [exact H|].
  exact (getGWFlow_nonnegative testContextA3 5 H).
Defined.

Lemma getDxDt_derivatives_witness :
  0 < TotalDepth (gwtr testContext) - 2 /\
  0 < porosity (A (gwtr testContext)) - 0.25 /\
  fst (getDxDt testContext 0 (0.25, 2)) = getFluxes testContext 0.25 2 /\
  fst (snd (getDxDt testContext 0 (0.25, 2)))
  = (Infil (gwtr (fst (getDxDt testContext 0 (0.25, 2))))
     - UpperEvap (gwtr (fst (getDxDt testContext 0 (0.25, 2))))
     - UpperPerc (gwtr (fst (getDxDt testContext 0 (0.25, 2))))) /
    (TotalDepth (gwtr testContext) - 2) /\
  snd (snd (getDxDt testContext 0 (0.25, 2)))
  = (UpperPerc (gwtr (fst (getDxDt testContext 0 (0.25, 2))))
     - LowerLoss (gwtr (fst (getDxDt testContext 0 (0.25, 2))))
     - LowerEvap (gwtr (fst (getDxDt testContext 0 (0.25, 2))))
     - GWFlow (gwtr (fst (getDxDt testContext 0 (0.25, 2))))) /
    (porosity (A (gwtr testContext)) - 0.25).
Proof.
  assert (H1 : 0 < TotalDepth (gwtr testContext) - 2) by qeval.
  assert (H2 : 0 < porosity (A (gwtr testContext)) - 0.25) by qeval.
  destruct (getDxDt_derivatives testContext 0 (0.25, 2))
    as (P0 & P1 & P2 & _).
  split; [exact H1|]. split; [exact H2|]. split; [exact P0|].
  split; [exact (P1 H1) | exact (P2 H2)].
Defined.

Lemma getEvapRates_gates_witness :
  0.05 <= wiltingPoint (A (gwtr testContextLat)) /\
  UpperEvap (gwtr (getEvapRates testContextLat 0.05 4)) = 0 /\
  0 <= AvailEvap (gwtr testContextLat) /\
  lowerEvapDepth (A (gwtr testContextLat)) <= 20 /\
  LowerEvap (gwtr (getEvapRates testContextLat 0.05 20)) == 0.
Proof.
  assert (H1 : 0.05 <= wiltingPoint (A (gwtr testContextLat))) by qeval.
  assert (H2 : 0 <= AvailEvap (gwtr testContextLat)) by qeval.
  assert (H3 : lowerEvapDepth (A (gwtr testContextLat)) <= 20) by qeval.
  split; [exact H1|].
  split; [exact (proj1 (getEvapRates_gates testContextLat 0.05 4) H1)|].
  split; [exact H2|]. split; [exact H3|].
  exact (proj1 (proj2 (proj2 (getEvapRates_gates testContextLat 0.05 20)))
           H2 H3).
Defined.

Lemma gwater_getGroundwater_leaves_witness :
  groundwater (Subcatch testProject !!! 0%nat) = Some testGw /\
  ErrorLog (gwater_getGroundwater testProject 0 0 4356 300)
  = ErrorLog testProject /\
  Aquifer (gwater_getGroundwater testProject 0 0 4356 300)
  = Aquifer testProject /\
  exists gw',
    groundwater (Subcatch (gwater_getGroundwater testProject 0 0 4356 300)
                 !!! 0%nat) = Some gw' /\
    gw_params gw' = gw_params testGw.
Proof.
  assert (Hg : groundwater (Subcatch testProject !!! 0%nat) = Some testGw)
    by qeval.
  destruct (gwater_getGroundwater_leaves (OdeSolverOk0 := eulerSolver_ok)
              testProject 0 0 4356 300) as (H1 & H2 & _ & H3).
  split; [exact Hg|]. split; [exact H2|].
  split; [exact (og_Aquifer _ _ _ H1)|].
  exact (H3 testGw Hg).
Defined.

Lemma gwater_getGroundwater_evapLoss_witness :
  groundwater (Subcatch testProject !!! 0%nat) = Some testGw /\
  0 < subcatch_getFracPerv 0 /\
  0 < surfElev testGw - bottomElev testGw /\
  0 < 4356 / area (Subcatch testProject !!! 0%nat) / 300 /\
  exists gw',
    groundwater (Subcatch (gwater_getGroundwater testProject 0 0 4356 300)
                 !!! 0%nat) = Some gw' /\
    evapLoss gw' == 0.
Proof.
  assert (Hg : groundwater (Subcatch testProject !!! 0%nat) = Some testGw)
    by qeval.
  assert (Hf : 0 < subcatch_getFracPerv 0) by qeval.
  assert (Hd : 0 < surfElev testGw - bottomElev testGw) by qeval.
  assert (Hi : 0 < 4356 / area (Subcatch testProject !!! 0%nat) / 300)
    by qeval.
  split; [exact Hg|]. split; [exact Hf|]. split; [exact Hd|].
  split; [exact Hi|].
  destruct (gwater_getGroundwater_evapLoss (OdeSolverOk0 := eulerSolver_ok)
              testProject 0 0 4356 300 testGw Hg Hf Hd)
    as (gw' & H1 & _ & H2).
  exists gw'. split; [exact H1 | exact (H2 Hi)].
Defined.

Lemma gwater_getGroundwater_stats_witness :
  groundwater (Subcatch testProject !!! 0%nat) = Some testGw /\
  0 < subcatch_getFracPerv 0 /\
  0 < surfElev testGw - bottomElev testGw /\
  exists gw',
    groundwater (Subcatch (gwater_getGroundwater testProject 0 0 4356 300)
                 !!! 0%nat) = Some gw' /\
    GwaterStatsLog (gwater_getGroundwater testProject 0 0 4356 300)
    = GwaterStatsLog testProject ++
      [{| st_subcatch := 0;
          st_infil := 4356 / area (Subcatch testProject !!! 0%nat) / 300;
          st_evap := evapLoss gw';
          st_latFlow := newFlow gw';
          st_deepFlow :=
            LowerLoss (gwtr (gwater_getGroundwater testProject 0 0 4356 300));
          st_theta := theta gw';
          st_waterTable := lowerDepth gw' + bottomElev gw';
          st_tStep := 300 |}].
Proof.
  assert (Hg : groundwater (Subcatch testProject !!! 0%nat) = Some testGw)
    by qeval.
  assert (Hf : 0 < subcatch_getFracPerv 0) by qeval.
  assert (Hd : 0 < surfElev testGw - bottomElev testGw) by qeval.
  split; [exact Hg|]. split; [exact Hf|]. split; [exact Hd|].
  destruct (gwater_getGroundwater_stats (OdeSolverOk0 := eulerSolver_ok)
              testProject 0 0 4356 300 testGw Hg Hf Hd)
    as (gw' & H1 & H2 & _).
  exists gw'. split; [exact H1 | exact H2].
Defined.

Lemma gwater_getGroundwater_maxInfilVol_witness :
  groundwater (Subcatch testProject !!! 0%nat) = Some testGw /\
  0 < subcatch_getFracPerv 0 /\
  0 < surfElev testGw - bottomElev testGw /\
  exists gw',
    groundwater (Subcatch (gwater_getGroundwater testProject 0 0 4356 300)
                 !!! 0%nat) = Some gw' /\
    0 < maxInfilVol gw'.
Proof.
  assert (Hg : groundwater (Subcatch testProject !!! 0%nat) = Some testGw)
    by qeval.
  assert (Hf : 0 < subcatch_getFracPerv 0) by qeval.
  assert (Hd : 0 < surfElev testGw - bottomElev testGw) by qeval.
  split; [exact Hg|]. split; [exact Hf|]. split; [exact Hd|].
  destruct (gwater_getGroundwater_maxInfilVol (OdeSolverOk0 := eulerSolver_ok)
              testProject 0 0 4356 300 testGw Hg Hf Hd)
    as (gw' & H1 & _ & H2).
  exists gw'. split; [exact H1 | exact H2].
Defined.

Lemma gwater_getVolume_nonnegative_witness :
  groundwater (Subcatch testProject !!! 0%nat) = Some testGw /\
  0 <= theta testGw /\
  0 <= porosity (Aquifer testProject !!! aquifer testGw) /\
  0 <= lowerDepth testGw /\
  lowerDepth testGw <= surfElev testGw - bottomElev testGw /\
  0 <= gwater_getVolume testProject 0.
Proof.
  assert (Hg : groundwater (Subcatch testProject !!! 0%nat) = Some testGw)
    by qeval.
  assert (H1 : 0 <= theta testGw) by qeval.
  assert (H2 : 0 <= porosity (Aquifer testProject !!! aquifer testGw))
    by qeval.
  assert (H3 : 0 <= lowerDepth testGw) by qeval.
  assert (H4 : lowerDepth testGw <= surfElev testGw - bottomElev testGw)
    by qeval.
  split; [exact Hg|]. split; [exact H1|]. split; [exact H2|].
  split; [exact H3|]. split; [exact H4|].
  exact (gwater_getVolume_nonnegative testProject 0 testGw Hg H1 H2 H3 H4).
Defined.

Lemma gwater_getGroundwater_keeps_bounds_witness :
  groundwater (Subcatch testProject !!! 0%nat) = Some testGw /\
  0 < subcatch_getFracPerv 0 /\
  0 < surfElev testGw - bottomElev testGw /\
  wiltingPoint (Aquifer testProject !!! aquifer testGw)
  <= porosity (Aquifer testProject !!! aquifer testGw) - XTOL /\
  XTOL <= surfElev testGw - bottomElev testGw /\
  exists gw',
    groundwater (Subcatch (gwater_getGroundwater testProject 0 0 4356 300)
                 !!! 0%nat) = Some gw' /\
    wiltingPoint (Aquifer testProject !!! aquifer testGw) <= theta gw' /\
    theta gw' < porosity (Aquifer testProject !!! aquifer testGw) /\
    0 <= lowerDepth gw' /\
    lowerDepth gw' < surfElev testGw - bottomElev testGw.
Proof.
  assert (Hg : groundwater (Subcatch testProject !!! 0%nat) = Some testGw)
    by qeval.
  assert (Hf : 0 < subcatch_getFracPerv 0) by qeval.
  assert (Hd : 0 < surfElev testGw - bottomElev testGw) by qeval.
  assert (Hw : wiltingPoint (Aquifer testProject !!! aquifer testGw)
               <= porosity (Aquifer testProject !!! aquifer testGw) - XTOL)
    by qeval.
  assert (Hx : XTOL <= surfElev testGw - bottomElev testGw) by qeval.
  split; [exact Hg|]. split; [exact Hf|]. split; [exact Hd|].
  split; [exact Hw|]. split; [exact Hx|].
  destruct (gwater_getGroundwater_keeps_bounds
              (OdeSolverOk0 := eulerSolver_ok)
              testProject 0 0 4356 300 testGw Hg Hf Hd)
    as (gw' & H1 & H2 & H3 & H4 & H5).
  exists gw'. split; [exact H1|]. split; [exact (H4 Hw)|].
  split; [exact H2|]. split; [exact (H5 Hx) | exact H3].
Defined.

Lemma gwater_readAquiferParams_stores_witness :
  gwater_readAquiferParams testBlank 0 testAquiferLine
  = inr testAquiferRead /\
  (0 < length (Aquifer testBlank))%nat /\
  porosity (Aquifer testAquiferRead !!! 0%nat)
  = default 0 (getDouble (testAquiferLine !!! 1%nat)) /\
  conductivity (Aquifer testAquiferRead !!! 0%nat)
  = default 0 (getDouble (testAquiferLine !!! 4%nat)) / UCF RAINFALL /\
  upperEvapPat (Aquifer testAquiferRead !!! 0%nat) = (-1)%Z.
Proof.
  assert (H : gwater_readAquiferParams testBlank 0 testAquiferLine
              = inr testAquiferRead) by qeval.
  assert (Hj : (0 < length (Aquifer testBlank))%nat) by (vm_compute; lia).
  assert (Hn : length testAquiferLine = 13%nat) by reflexivity.
  split; [exact H|]. split; [exact Hj|].
  destruct (gwater_readAquiferParams_stores testBlank testAquiferRead 0
              testAquiferLine H Hj)
    as (_ & _ & _ & H1 & _ & _ & H4 & _ & _ & _ & _ & _ & _ & _ & _ & Hp
        & _).
  split; [exact H1|]. split; [exact H4 | exact (Hp Hn)].
Defined.

Lemma gwater_readAquiferParams_errors_witness :
  (length ["AQ1"; "0.43"]%string < 13)%nat /\
  gwater_readAquiferParams testBlank 0 ["AQ1"; "0.43"]%string
  = inl (ERR_ITEMS, EmptyString).
Proof.
  assert (H : (length ["AQ1"; "0.43"]%string < 13)%nat) by (vm_compute; lia).
  split; [exact H|].
  exact (proj1 (gwater_readAquiferParams_errors testBlank 0
                  ["AQ1"; "0.43"]%string) H).
Defined.


Lemma gwater_readGroundwaterParams_short_line_witness :
  (3 <= length ["S1"; "AQ1"; "N1"; "6"; "0"; "0"; "0"; "0"; "0"; "0"]%string
   < 11)%nat /\
  (0 <= project_findObject SUBCATCH "S1")%Z /\
  gwater_readGroundwaterParams testAquiferRead
    ["S1"; "AQ1"; "N1"; "6"; "0"; "0"; "0"; "0"; "0"; "0"]%string
  = inl (ERR_ITEMS, EmptyString).
Proof.
  assert (H1 : (3 <= length ["S1"; "AQ1"; "N1"; "6"; "0"; "0"; "0"; "0"; "0";
                             "0"]%string < 11)%nat) by (vm_compute; lia).
  assert (H2 : (0 <= project_findObject SUBCATCH "S1")%Z)
    by (vm_compute; discriminate).
  split; [exact H1|]. split; [exact H2|].
  exact (proj1 (proj2 (proj2 (gwater_readGroundwaterParams_short_line
                                testAquiferRead
                                ["S1"; "AQ1"; "N1"; "6"; "0"; "0"; "0"; "0";
                                 "0"; "0"]%string))) H1 H2).
Defined.

Lemma gwater_readGroundwaterParams_defaults_witness :
  gwater_readGroundwaterParams testAquiferRead testGroundwaterLine
  = inr testGroundwaterRead /\
  (Z.to_nat (project_findObject SUBCATCH (testGroundwaterLine !!! 0%nat))
   < length (Subcatch testAquiferRead))%nat /\
  String.prefix "*" (testGroundwaterLine !!! 10%nat) = true /\
  (length testGroundwaterLine <= 11)%nat /\
  exists gw gw',
    groundwater (Subcatch testGroundwaterRead !!! 0%nat) = Some gw /\
    groundwater (Subcatch (gwater_validate testGroundwaterRead 0) !!! 0%nat)
    = Some gw' /\
    nodeElev gw' = MISSING /\
    bottomElev gw = MISSING /\
    bottomElev gw' = aq_bottomElev (Aquifer testAquiferRead !!! aquifer gw).
Proof.
  assert (H : gwater_readGroundwaterParams testAquiferRead testGroundwaterLine
              = inr testGroundwaterRead) by qeval.
  assert (Hj : (Z.to_nat (project_findObject SUBCATCH
                            (testGroundwaterLine !!! 0%nat))
                < length (Subcatch testAquiferRead))%nat)
    by (vm_compute; lia).
  assert (H10 : String.prefix "*" (testGroundwaterLine !!! 10%nat) = true)
    by reflexivity.
  assert (H11 : (length testGroundwaterLine <= 11)%nat) by (vm_compute; lia).
  split; [exact H|]. split; [exact Hj|]. split; [exact H10|].
  split; [exact H11|].
  destruct (gwater_readGroundwaterParams_defaults testAquiferRead
              testGroundwaterRead testGroundwaterLine H Hj)
    as (gw & gw' & H1 & H2 & _ & _ & Hn & Hb & _).
  exists gw, gw'. split; [exact H1|]. split; [exact H2|].
  split; [exact (proj2 (Hn (or_intror H10)))|].
  split; [exact (proj1 (Hb (or_introl H11)))
         | exact (proj2 (Hb (or_introl H11)))].
Defined.

Lemma gwater_readGroundwaterParams_keeps_state_witness :
  gwater_readGroundwaterParams testProject testGroundwaterLine
  = inr testGroundwaterReread /\
  groundwater
    (Subcatch testProject
     !!! Z.to_nat (project_findObject SUBCATCH (testGroundwaterLine !!! 0%nat)))
  = Some testGw /\
  exists gw,
    groundwater
      (Subcatch testGroundwaterReread
       !!! Z.to_nat (project_findObject SUBCATCH
                       (testGroundwaterLine !!! 0%nat)))
    = Some gw /\
    (theta gw, lowerDepth gw, oldFlow gw, newFlow gw, evapLoss gw,
     maxInfilVol gw)
    = (theta testGw, lowerDepth testGw, oldFlow testGw, newFlow testGw,
       evapLoss testGw, maxInfilVol testGw).
Proof.
  assert (H : gwater_readGroundwaterParams testProject testGroundwaterLine
              = inr testGroundwaterReread) by qeval.
  assert (Hg : groundwater
                 (Subcatch testProject
                  !!! Z.to_nat (project_findObject SUBCATCH
                                  (testGroundwaterLine !!! 0%nat)))
               = Some testGw) by qeval.
  split; [exact H|]. split; [exact Hg|].
  exact (proj1 (gwater_readGroundwaterParams_keeps_state testProject
                  testGroundwaterReread testGroundwaterLine testGw H Hg)).
Defined.

Lemma gwater_readFlowExpression_stores_witness :
  gwater_readFlowExpression testProject testFlowLine = inr testFlowRead /\
  (Z.to_nat (project_findObject SUBCATCH (testFlowLine !!! 0%nat))
   < length (Subcatch testProject))%nat /\
  strmatch (testFlowLine !!! 1%nat) "LAT" = false /\
  strmatch (testFlowLine !!! 1%nat) "DEEP" = true /\
  gwDeepFlowExpr (Subcatch testFlowRead !!! 0%nat)
  = Some (EMul (ENum 2) (EVar gwvTHETA)).
Proof.
  assert (H : gwater_readFlowExpression testProject testFlowLine
              = inr testFlowRead) by qeval.
  assert (Hj : (Z.to_nat (project_findObject SUBCATCH
                            (testFlowLine !!! 0%nat))
                < length (Subcatch testProject))%nat) by (vm_compute; lia).
  assert (Hl : strmatch (testFlowLine !!! 1%nat) "LAT" = false)
    by reflexivity.
  split; [exact H|]. split; [exact Hj|]. split; [exact Hl|].
  destruct (gwater_readFlowExpression_stores testProject testFlowRead
              testFlowLine H Hj) as (_ & Hd & expr & _ & _ & He & _).
  split; [exact (Hd Hl)|]. qeval.
Defined.

(* ================================================================== *)
(** * Properties that rounding breaks *)

Import PrimFloat.
#[local] Set Warnings "-inexact-float".

(** C1, as stated, fails, in two ways.  The snapshot of [testProjectOut]
    after one step of 300 s holds a lateral flow that is not zero; restored
    into the initial state of that subcatchment, as at a restart, it leaves
    the current lateral flow at 0, and a second snapshot returns 0 as its
    third element: [gwater_setState] stores x[2] in [oldFlow], and
    [gwater_getState] reads [newFlow].  And in binary64 arithmetic, with the
    bottom at -0.4 ft and a lower depth of 1.4000000000000001 ft, the
    snapshot holds the elevation 1, the restore of that very snapshot
    stores the lower depth 1.4, and the second snapshot holds the elevation
    0.9999999999999999. *)
Lemma gwater_setState_getState_counterexample :
  let sp := gwater_getGroundwater testProjectOut 0 0 0 300 in
  let sp64 := Binary64.testProject (-0.4) 0.25 1.4000000000000001 0 in
  (exists x x',
     gwater_getState sp 0 = Some x /\
     gwater_getState (gwater_setState testProjectOut 0 x) 0 = Some x' /\
     ~ snd (fst x) == 0 /\ snd (fst x') == 0 /\
     ~ snd (fst x') == snd (fst x)) /\
  Binary64.gwater_getState sp64 0 = Some (0.25, 1, 0, 0.5)%float /\
  Binary64.gwater_getState
    (Binary64.gwater_setState (-1e10) sp64 0 (0.25, 1, 0, 0.5)%float) 0
  = Some (0.25, 0.9999999999999999, 0, 0.5)%float.
Proof.
  cbv zeta. split; [|split; vm_compute; reflexivity].
  exists (default (0, 0, 0, 0)
            (gwater_getState (gwater_getGroundwater testProjectOut 0 0 0 300)
               0)).
  exists (default (0, 0, 0, 0)
            (gwater_getState
               (gwater_setState testProjectOut 0
                  (default (0, 0, 0, 0)
                     (gwater_getState
                        (gwater_getGroundwater testProjectOut 0 0 0 300) 0)))
               0)).
  split; [qeval|]. split; [qeval|]. split; [qeval|]. split; qeval.
Qed.

(** C8, as stated, fails for the lower depth.  In binary64 arithmetic, with
    a total depth of 6 ft and theta equal to the porosity 0.43, the volume
    is 2.5800000000000005 at a lower depth of 0.004 ft and 2.58 at 0.005
    ft: it decreases while the lower depth grows and everything else is
    fixed. *)
Lemma gwater_getVolume_lowerDepth_counterexample :
  let sp1 := Binary64.testProject 0 0.43 0.004 0 in
  let sp2 := Binary64.testProject 0 0.43 0.005 0 in
  (Binary64.theta (Binary64.gwobj sp1 0)
   <=? Binary64.porosity Binary64.testAquifer)%float = true /\
  (Binary64.lowerDepth (Binary64.gwobj sp1 0)
   <? Binary64.lowerDepth (Binary64.gwobj sp2 0))%float = true /\
  Binary64.gwater_getVolume sp1 0 = 2.5800000000000005%float /\
  Binary64.gwater_getVolume sp2 0 = 2.58%float /\
  (Binary64.gwater_getVolume sp2 0
   <? Binary64.gwater_getVolume sp1 0)%float = true.
Proof.
  cbv zeta. repeat split; vm_compute; reflexivity.
Qed.

(** C10, as stated, fails.  In binary64 arithmetic, with the shared
    variables of [Binary64.testEvap], theta 0.25 and an upper depth of 2
    ft, the upper-zone rate is 0.35 * MaxEvap, the lower-zone rate is the
    cap AvailEvap - UpperEvap, and their sum is one unit in the last place
    above the available rate. *)
Lemma getEvapRates_sum_counterexample :
  let avail := Binary64.AvailEvap (Binary64.GwaterShared Binary64.testEvap) in
  let r := Binary64.GwaterShared
             (Binary64.getEvapRates (fun t => t) (fun _ => 1%Z)
                Binary64.testEvap 0.25 2) in
  (0 <=? avail)%float = true /\
  avail = 4.464340373431282e-07%float /\
  Binary64.UpperEvap r = 1.75e-07%float /\
  Binary64.LowerEvap r = 2.7143403734312825e-07%float /\
  (Binary64.UpperEvap r + Binary64.LowerEvap r)%float
  = 4.4643403734312827e-07%float /\
  (avail <? Binary64.UpperEvap r + Binary64.LowerEvap r)%float = true.
Proof.
  cbv zeta. repeat split; vm_compute; reflexivity.
Qed.
